(** * GEBCO 3D viewer: grid resolution, terrain construction, base plate, export

    A shallow embedding of [main.js] (the NetCDF-capable version of the viewer):
    - JavaScript numbers are IEEE 754 binary64 values, modelled by Rocq's
      primitive [float] (same format, same rounding);
    - a thrown [Error] is a value of type [Error], one constructor per
      [throw] site;
    - the module-level variables [terrainMesh], [baseMesh], ... form the
      record [Scene], threaded explicitly through the functions that mutate
      them;
    - what three.js and netcdfjs do inside is not part of this repository:
      the NetCDF reader is its header and data, a plane geometry is the
      arguments it was built from plus the heights written into it, and the
      world-space bounding box is supplied to the functions that ask for it. *)

From Stdlib Require Import Floats ZArith List String Ascii Bool Arith Lia DecimalString.
Import ListNotations.

Set Warnings "-inexact-float".

Local Open Scope string_scope.
Local Open Scope nat_scope.

(* ================================================================== *)
(** * JavaScript values and the built-ins the program uses *)
(* ================================================================== *)

Module Js.

(** A JS number. *)
Abbreviation number := float (only parsing).

(** What an array cell read by index can hold: [undefined] when the
    index is out of range, a number, and, in an array that
    [response.json()] parsed, [null], a boolean or another value (a
    string, an array, an object). The program does two things only with a
    cell: it tests it with [Number.isFinite] and it converts it with
    [ToNumber]; a value of the last kind is therefore given by the number
    that [ToNumber] makes of it. *)
Inductive value :=
| undefined
| null
| boolean (b : bool)
| num (n : number)
| other (asNumber : number).

(** [Number.isFinite(v)]: no coercion, [false] for a non-number. *)
Definition Number_isFinite (v : value) : bool :=
  match v with
  | num n => is_finite n
  | _ => false
  end.

(** [ToNumber(v)], applied by the arithmetic operators: [undefined] gives
    NaN, [null] and [false] give 0, [true] gives 1. *)
Definition toNumber (v : value) : number :=
  match v with
  | undefined => nan
  | null => 0%float
  | boolean b => if b then 1%float else 0%float
  | num n => n
  | other n => n
  end.

(** [Math.max(a, b)] on two numbers: NaN if either is NaN, and [+0] is
    larger than [-0]. *)
Definition Math_max (a b : number) : number :=
  if is_nan a || is_nan b then nan
  else if (a <? b)%float then b
  else if (b <? a)%float then a
  else if get_sign a then b else a.

(** [Math.abs]. *)
Definition Math_abs (a : number) : number := abs a.

(** [arr[i]] on an array of numbers. *)
Definition index (arr : list number) (i : nat) : value :=
  match nth_error arr i with
  | Some n => num n
  | None => undefined
  end.

(** [arr.slice(0, n)]. *)
Definition slice0 {A} (arr : list A) (n : nat) : list A := firstn n arr.

(** [String.prototype.toLowerCase], on the ASCII letters (the names a
    NetCDF header holds). *)
Definition toLowerCase_ascii (c : ascii) : ascii :=
  let n := nat_of_ascii c in
  if (65 <=? n) && (n <=? 90) then ascii_of_nat (n + 32) else c.

Fixpoint toLowerCase (s : string) : string :=
  match s with
  | EmptyString => EmptyString
  | String c rest => String (toLowerCase_ascii c) (toLowerCase rest)
  end.

(** [arr.includes(s)] on an array of strings. *)
Definition includes (arr : list string) (s : string) : bool :=
  existsb (String.eqb s) arr.

(** [v || d] on a size: [0] is falsy. *)
Definition or_else (v d : nat) : nat := if v =? 0 then d else v.

End Js.

(* ================================================================== *)
(** * Errors *)
(* ================================================================== *)

(** One constructor per [throw new Error(...)] of [main.js]. *)
Inductive Error :=
| ErrLatTooShort        (* buildTerrainFromGrid: lat is shorter than 2 *)
| ErrLonTooShort        (* buildTerrainFromGrid: lon is shorter than 2 *)
| ErrRowCountMismatch   (* buildTerrainFromGrid: elevation rows <> lat length *)
| ErrRowLengthMismatch  (* buildTerrainFromGrid: a row's length <> lon length *)
| ErrTooFewSegments     (* buildTerrainFromGrid: a segment count is <= 0 *)
| ErrLatLonNotFound     (* parseNetCDF: no latitude or no longitude variable *)
| ErrLatLonDataTooShort (* parseNetCDF: lat or lon data shorter than 2 *)
| ErrElevationNotFound  (* parseNetCDF: no elevation variable *)
| ErrNoDimensionInfo    (* reshapeElevationGrid: the variable has no dimension *)
| ErrNotTwoDimensions   (* reshapeElevationGrid: not two dimensions after stripping *)
| ErrDataTooShort       (* reshapeElevationGrid: the buffer is too short *)
| ErrDimensionOrder     (* reshapeElevationGrid: cannot interpret the dimension order *)
| ErrTypeError.         (* a property read on undefined *)

Inductive result (A : Type) :=
| Ok (a : A)
| Throw (e : Error).

Arguments Ok {A} a.
Arguments Throw {A} e.

Definition bind {A B} (r : result A) (k : A -> result B) : result B :=
  match r with
  | Ok a => k a
  | Throw e => Throw e
  end.

(* ================================================================== *)
(** * GridSource resolver: [parseNetCDF] and its helpers *)
(* ================================================================== *)

Module Resolver.

(** An entry of [reader.dimensions]. *)
Record Dimension := { dim_name : string; dim_size : nat }.

(** An entry of a variable's [dimensions] array, as [parseDimensionName]
    tells them apart: a string; a number (netcdfjs stores the index of
    the dimension in [reader.dimensions]); an object whose [name] is a
    string; [undefined], [null] or [false]; any other value, given by the
    text that [String(dim)] makes of it. *)
Inductive DimEntry :=
| DimMissing
| DimString (s : string)
| DimIndex (n : nat)
| DimObject (name : string)
| DimOther (text : string).

(** An entry of [reader.variables], with the flat buffer that
    [reader.getDataVariable] returns for it. A variable without a
    [dimensions] array has the empty list: the program reads the array
    as [dimensions || []] or as [dimensions && dimensions[0]], which do
    the same on both. *)
Record NcVariable := {
  var_name : string;
  var_dimensions : list DimEntry;
  var_data : list Js.number
}.

Record NetCDFReader := {
  dimensions : list Dimension;
  variables : list NcVariable
}.

Definition LAT_CANDIDATES : list string :=
  ["lat"; "latitude"; "y"; "nav_lat"; "grid_latitude"].
Definition LON_CANDIDATES : list string :=
  ["lon"; "longitude"; "x"; "nav_lon"; "grid_longitude"].
Definition ELEVATION_CANDIDATES : list string :=
  ["elevation"; "height"; "depth"; "z"; "band1"; "surface_height"; "elev"].

(** [reader.getDataVariable(name)]: the data of the first variable of
    that name. It is only called with the name of a variable of the
    reader. *)
Definition getDataVariable (reader : NetCDFReader) (name : string) : list Js.number :=
  match find (fun v => String.eqb (var_name v) name) (variables reader) with
  | Some v => var_data v
  | None => []
  end.

(** Whether a dimension entry is truthy: the empty string and the
    number 0 are not. *)
Definition truthy (dim : DimEntry) : bool :=
  match dim with
  | DimMissing => false
  | DimString s => negb (String.eqb s "")
  | DimIndex n => negb (n =? 0)
  | DimObject _ | DimOther _ => true
  end.

(** [String(n)] for an index: its decimal digits. *)
Definition String_of_index (n : nat) : string :=
  NilEmpty.string_of_uint (Nat.to_uint n).

Definition parseDimensionName (dim : DimEntry) : string :=
  if negb (truthy dim) then ""
  else
    match dim with
    | DimString s => s
    | DimObject name => name
    | DimIndex n => String_of_index n
    | DimOther text => text
    | DimMissing => ""
    end.

Definition findVariable (reader : NetCDFReader) (candidates : list string)
  : option NcVariable :=
  let lowerCandidates := map Js.toLowerCase candidates in
  find (fun variable => Js.includes lowerCandidates (Js.toLowerCase (var_name variable)))
       (variables reader).

Definition findElevationVariable (reader : NetCDFReader) (latDimName lonDimName : string)
  : option NcVariable :=
  let lowerCandidates := map Js.toLowerCase ELEVATION_CANDIDATES in
  match find (fun variable => Js.includes lowerCandidates (Js.toLowerCase (var_name variable)))
             (variables reader) with
  | Some variable => Some variable
  | None =>
      find (fun variable =>
              let dimNames :=
                map (fun dim => Js.toLowerCase (parseDimensionName dim))
                    (var_dimensions variable) in
              Js.includes dimNames (Js.toLowerCase latDimName)
              && Js.includes dimNames (Js.toLowerCase lonDimName))
           (variables reader)
  end.

(** [reader.dimensions.find((d) => d.name === name)?.size || 0]. *)
Definition dimensionSize (reader : NetCDFReader) (name : string) : nat :=
  match find (fun d => String.eqb (dim_name d) name) (dimensions reader) with
  | Some d => Js.or_else (dim_size d) 0
  | None => 0
  end.

(** [new Map(reader.dimensions.map((dim) => [dim.name, dim.size])).get(name)]:
    a later entry of the same name overwrites an earlier one;
    [None] is [undefined]. *)
Definition dimensionMap_get (reader : NetCDFReader) (name : string) : option nat :=
  option_map dim_size
    (find (fun d => String.eqb (dim_name d) name) (rev (dimensions reader))).

(** [dimSizes.slice(1).reduce((acc, v) => acc * (v || 1), 1)], on the
    sizes that follow the first one. *)
Definition sliceSize (rest : list (string * nat)) : nat :=
  fold_left (fun acc v => acc * Js.or_else v 1) (map snd rest) 1.

(** The first [while] loop: leading dimensions of size 1 that are neither
    the latitude nor the longitude dimension are removed, and the buffer
    is cut to the size of what follows. [dims] pairs [dimNames] with
    [dimSizes]. *)
Fixpoint stripLeading (latDimName lonDimName : string)
         (data : list Js.number) (dims : list (string * nat))
  : list Js.number * list (string * nat) :=
  match dims with
  | (name, size) :: rest =>
      if (2 <? List.length dims) && (size =? 1)
         && negb (String.eqb name latDimName) && negb (String.eqb name lonDimName)
      then stripLeading latDimName lonDimName (Js.slice0 data (sliceSize rest)) rest
      else (data, dims)
  | [] => (data, dims)
  end.

(** The second [while] loop: trailing dimensions of size 1 are popped
    while more than two remain. Each turn removes one entry, so
    [List.length dims] turns are enough. *)
Fixpoint stripTrailing_loop (turns : nat) (dims : list (string * nat))
  : list (string * nat) :=
  match turns with
  | O => dims
  | S turns' =>
      if (2 <? List.length dims) && (snd (last dims ("", 0)) =? 1)
      then stripTrailing_loop turns' (removelast dims)
      else dims
  end.

Definition stripTrailing (dims : list (string * nat)) : list (string * nat) :=
  stripTrailing_loop (List.length dims) dims.

Definition Grid := list (list Js.value).

(** The latitude-major fill: [grid[j][i] = data[j * lonCount + i]]. *)
Definition fillLatMajor (data : list Js.number) (latCount lonCount : nat) : Grid :=
  map (fun j => map (fun i => Js.index data (j * lonCount + i)) (seq 0 lonCount))
      (seq 0 latCount).

(** The longitude-major fill: [grid[j][i] = data[i * latCount + j]]. *)
Definition fillLonMajor (data : list Js.number) (latCount lonCount : nat) : Grid :=
  map (fun j => map (fun i => Js.index data (i * latCount + j)) (seq 0 lonCount))
      (seq 0 latCount).

(** [firstSize] and [secondSize]: a declared size of 0 falls back on the
    resolved count. *)
Definition firstSizeOf (latDimName : string) (latCount lonCount : nat)
           (first : string * nat) : nat :=
  Js.or_else (snd first)
             (if String.eqb (fst first) latDimName then latCount else lonCount).

Definition secondSizeOf (lonDimName : string) (latCount lonCount : nat)
           (second : string * nat) : nat :=
  Js.or_else (snd second)
             (if String.eqb (fst second) lonDimName then lonCount else latCount).

(** The body of [reshapeElevationGrid] once the two remaining dimensions
    are known. *)
Definition reshapeTwo (data : list Js.number) (first second : string * nat)
           (latDimName lonDimName : string) (latCount lonCount : nat)
  : result Grid :=
  let firstName := fst first in
  let firstSize := firstSizeOf latDimName latCount lonCount first in
  let secondSize := secondSizeOf lonDimName latCount lonCount second in
  let totalSize := firstSize * secondSize in
  if List.length data <? totalSize then Throw ErrDataTooShort
  else
    let latNameLower := Js.toLowerCase latDimName in
    let lonNameLower := Js.toLowerCase lonDimName in
    let firstIsLat :=
      String.eqb (Js.toLowerCase firstName) latNameLower
      || ((firstSize =? latCount) && (secondSize =? lonCount)) in
    let firstIsLon :=
      String.eqb (Js.toLowerCase firstName) lonNameLower
      || ((firstSize =? lonCount) && (secondSize =? latCount)) in
    if firstIsLat && (secondSize =? lonCount)
    then Ok (fillLatMajor data latCount lonCount)
    else if firstIsLon && (secondSize =? latCount)
    then Ok (fillLonMajor data latCount lonCount)
    else Throw ErrDimensionOrder.

(** [dimNames]: [(elevationVar.dimensions || []).map(parseDimensionName)]. *)
Definition dimNamesOf (v : NcVariable) : list string :=
  map parseDimensionName (var_dimensions v).

(** The dimension list of the variable, paired with the declared sizes. *)
Definition declaredDims (reader : NetCDFReader) (elevationVar : NcVariable)
  : list (string * nat) :=
  map (fun dim => let name := parseDimensionName dim in (name, dimensionSize reader name))
      (var_dimensions elevationVar).

Definition reshapeElevationGrid (reader : NetCDFReader) (elevationVar : NcVariable)
           (latDimName lonDimName : string) (latCount lonCount : nat)
  : result Grid :=
  let data := getDataVariable reader (var_name elevationVar) in
  let dims := declaredDims reader elevationVar in
  if List.length dims =? 0 then Throw ErrNoDimensionInfo
  else
    let '(data, dims) := stripLeading latDimName lonDimName data dims in
    let dims := stripTrailing dims in
    match dims with
    | [first; second] =>
        reshapeTwo data first second latDimName lonDimName latCount lonCount
    | _ => Throw ErrNotTwoDimensions
    end.

(** The first dimension name of a coordinate variable, or its own name:
    [(v.dimensions && v.dimensions[0]) || v.name]. *)
Definition coordinateDimName (v : NcVariable) : string :=
  match var_dimensions v with
  | d :: _ =>
      if truthy d then parseDimensionName d
      else parseDimensionName (DimString (var_name v))
  | [] => parseDimensionName (DimString (var_name v))
  end.

(** [file.name.replace(/\.nc$/i, "") || "terrain"]. *)
Definition stripNcSuffix (name : string) : string :=
  let n := String.length name in
  if (3 <=? n) && String.eqb (Js.toLowerCase (substring (n - 3) 3 name)) ".nc"
  then substring 0 (n - 3) name
  else name.

Definition fileBaseNameOf (name : string) : string :=
  let base := stripNcSuffix name in
  if String.eqb base "" then "terrain" else base.

Record Dataset := {
  lat : list Js.number;
  lon : list Js.number;
  elevation : Grid;
  fileBaseName : string
}.

(** [parseNetCDF(file)], from the reader that [new NetCDFReader] builds
    over the bytes of the file. *)
Definition parseNetCDF (fileName : string) (reader : NetCDFReader) : result Dataset :=
  match findVariable reader LAT_CANDIDATES, findVariable reader LON_CANDIDATES with
  | Some latVar, Some lonVar =>
      let latData := getDataVariable reader (var_name latVar) in
      let lonData := getDataVariable reader (var_name lonVar) in
      if (List.length latData <? 2) || (List.length lonData <? 2) then Throw ErrLatLonDataTooShort
      else
        let latDimName := coordinateDimName latVar in
        let lonDimName := coordinateDimName lonVar in
        let latCount :=
          match dimensionMap_get reader latDimName with
          | Some n => Js.or_else n (List.length latData)
          | None => List.length latData
          end in
        let lonCount :=
          match dimensionMap_get reader lonDimName with
          | Some n => Js.or_else n (List.length lonData)
          | None => List.length lonData
          end in
        match findElevationVariable reader latDimName lonDimName with
        | None => Throw ErrElevationNotFound
        | Some elevVar =>
            bind
              (reshapeElevationGrid reader elevVar latDimName lonDimName latCount lonCount)
              (fun elevationGrid =>
                 match elevationGrid with
                 | [] => Throw ErrTypeError
                 | row0 :: _ =>
                     Ok {| lat := Js.slice0 latData (List.length elevationGrid);
                           lon := Js.slice0 lonData (List.length row0);
                           elevation := elevationGrid;
                           fileBaseName := fileBaseNameOf fileName |}
                 end)
        end
  | _, _ => Throw ErrLatLonNotFound
  end.

(** ** What the theorems speak of *)

(** The data and the dimension list that [reshapeElevationGrid] holds
    after its two stripping loops. *)
Definition strippedData (reader : NetCDFReader) (elevationVar : NcVariable)
           (latDimName lonDimName : string) : list Js.number :=
  fst (stripLeading latDimName lonDimName
         (getDataVariable reader (var_name elevationVar))
         (declaredDims reader elevationVar)).

Definition strippedDims (reader : NetCDFReader) (elevationVar : NcVariable)
           (latDimName lonDimName : string) : list (string * nat) :=
  stripTrailing
    (snd (stripLeading latDimName lonDimName
            (getDataVariable reader (var_name elevationVar))
            (declaredDims reader elevationVar))).

(** A variable's name is, letter case apart, one of the candidates. *)
Definition matchesCandidate (candidates : list string) (v : NcVariable) : Prop :=
  exists c, In c candidates /\ Js.toLowerCase (var_name v) = Js.toLowerCase c.

(** The resolver as the specification words it: the candidates are tried
    in the order of the list, and the first one that names a variable
    wins. *)
Fixpoint findVariableByPriority (reader : NetCDFReader) (candidates : list string)
  : option NcVariable :=
  match candidates with
  | [] => None
  | c :: rest =>
      match find (fun v => String.eqb (Js.toLowerCase (var_name v)) (Js.toLowerCase c))
                 (variables reader) with
      | Some v => Some v
      | None => findVariableByPriority reader rest
      end
  end.

End Resolver.

(* ================================================================== *)
(** * The three.js values the program handles *)
(* ================================================================== *)

Module Three.

Record Vector3 := { x : Js.number; y : Js.number; z : Js.number }.

Record Box3 := { box_min : Vector3; box_max : Vector3 }.

(** [Box3.isEmpty], [Box3.getSize] and [Box3.getCenter]. *)
Definition isEmpty (b : Box3) : bool :=
  (x (box_max b) <? x (box_min b))%float
  || (y (box_max b) <? y (box_min b))%float
  || (z (box_max b) <? z (box_min b))%float.

Definition getSize (b : Box3) : Vector3 :=
  if isEmpty b then {| x := 0; y := 0; z := 0 |}%float
  else {| x := x (box_max b) - x (box_min b);
          y := y (box_max b) - y (box_min b);
          z := z (box_max b) - z (box_min b) |}%float.

Definition getCenter (b : Box3) : Vector3 :=
  if isEmpty b then {| x := 0; y := 0; z := 0 |}%float
  else {| x := (x (box_min b) + x (box_max b)) * 0.5;
          y := (y (box_min b) + y (box_max b)) * 0.5;
          z := (z (box_min b) + z (box_max b)) * 0.5 |}%float.

(** A [PlaneGeometry(width, height, widthSegments, heightSegments)]
    together with the z coordinate that [positions.setZ(i, z)] wrote for
    each vertex [i], in vertex order: the number passed to [setZ], which
    three.js then stores in single precision. The x and y coordinates
    are those three.js gave the vertices and are not changed by the
    program. *)
Record PlaneGeometry := {
  plane_width : Js.number;
  plane_height : Js.number;
  widthSegments : nat;
  heightSegments : nat;
  heights : list Js.number
}.

(** [positions.count] of a plane geometry: one vertex per grid node. *)
Definition vertexCountOf (widthSegments heightSegments : nat) : nat :=
  (widthSegments + 1) * (heightSegments + 1).

(** A [BoxGeometry(width, height, depth)]: a box centred on its origin,
    [width] along x, [height] along y, [depth] along z. *)
Record BoxGeometry := {
  box_width : Js.number;
  box_height : Js.number;
  box_depth : Js.number
}.

(** A [Mesh] is its geometry and its [position]. *)
Record TerrainMesh := {
  terrain_geometry : PlaneGeometry;
  terrain_position : Vector3
}.

Record BaseMesh := {
  base_geometry : BoxGeometry;
  base_position : Vector3
}.

End Three.

(* ================================================================== *)
(** * The viewer: scene state, terrain builder, base plate, export *)
(* ================================================================== *)

Module Viewer.
Import Three.

(** The module-level state of [main.js]: [terrainMesh], [baseMesh], the
    scale of [terrainGroup], the names used for the download, the
    current thickness and the download button's [disabled] flag. *)
Record Scene := {
  terrainMesh : option TerrainMesh;
  baseMesh : option BaseMesh;
  terrainGroup_scale : Vector3;
  currentDownloadBaseName : string;
  currentSourceLabel : string;
  currentBaseThickness : Js.number;
  downloadButton_disabled : bool
}.

(** The state at module initialisation. *)
Definition initialScene : Scene :=
  {| terrainMesh := None;
     baseMesh := None;
     terrainGroup_scale := {| x := 1; y := 1; z := 1 |}%float;
     currentDownloadBaseName := "terrain";
     currentSourceLabel := "";
     currentBaseThickness := 5%float;
     downloadButton_disabled := false |}.

(** What the input elements hold when they are read:
    [Number(numberElem.value || rangeElem.value)] for each control. *)
Record Controls := {
  scaleX_value : Js.number;
  scaleY_value : Js.number;
  scaleZ_value : Js.number;
  baseThickness_value : Js.number
}.

Record Options := { fileNameBase : string; sourceLabel : string }.

(** How a function that can throw ends: the scene it leaves, and the
    error when it threw. A [throw] undoes nothing. *)
Inductive outcome :=
| Completed (s : Scene)
| Threw (e : Error) (s : Scene).

Definition sceneOf (o : outcome) : Scene :=
  match o with Completed s => s | Threw _ s => s end.

(** ** File names *)

Definition safeChar (c : ascii) : bool :=
  let n := nat_of_ascii c in
  ((97 <=? n) && (n <=? 122)) || ((48 <=? n) && (n <=? 57))
  || (n =? 95) || (n =? 45).

(** [.replace(/[^a-z0-9_\-]+/g, "_").replace(/_+/g, "_")]: every run of
    characters outside the class, and then every run of underscores,
    becomes one underscore. *)
Fixpoint collapseUnsafe (s : string) : string :=
  match s with
  | EmptyString => EmptyString
  | String c rest =>
      let c' := if safeChar c then c else "_"%char in
      match collapseUnsafe rest with
      | String "_"%char rest' as r =>
          if Ascii.eqb c' "_"%char then r else String c' r
      | r => String c' r
      end
  end.

(** [.replace(/^_+|_+$/g, "")] on a string without two underscores in a
    row. *)
Definition dropLeadingUnderscore (s : string) : string :=
  match s with
  | String "_"%char rest => rest
  | _ => s
  end.

Fixpoint dropTrailingUnderscore (s : string) : string :=
  match s with
  | EmptyString => EmptyString
  | String c rest =>
      if Ascii.eqb c "_"%char && String.eqb rest "" then EmptyString
      else String c (dropTrailingUnderscore rest)
  end.

Definition makeSafeFilename (name : string) : string :=
  if String.eqb name "" then "terrain"
  else
    let safe :=
      dropTrailingUnderscore
        (dropLeadingUnderscore (collapseUnsafe (Js.toLowerCase name))) in
    if String.eqb safe "" then "terrain" else safe.

(** ** Reading the controls *)

Definition getScaleValue (value : Js.number) : Js.number :=
  if is_finite value then value else 1%float.

Definition getBaseThicknessValue (ui : Controls) (st : Scene) : Js.number :=
  let value := baseThickness_value ui in
  if is_finite value then value else currentBaseThickness st.

(** ** [arrayMinMax] *)

Definition minMaxStep (acc : Js.number * Js.number) (value : Js.number)
  : Js.number * Js.number :=
  if negb (is_finite value) then acc
  else
    let '(mn, mx) := acc in
    ((if (value <? mn)%float then value else mn),
     (if (mx <? value)%float then value else mx)).

Definition arrayMinMax (values : list Js.number) : Js.number * Js.number :=
  let '(mn, mx) := fold_left minMaxStep values (infinity, neg_infinity) in
  ((if Leibniz.eqb mn infinity then nan else mn),
   (if Leibniz.eqb mx neg_infinity then nan else mx)).

(** ** The height channel of [buildTerrainFromGrid] *)

Definition FIXED_VISUAL_SCALE : Js.number := 0.3%float.
Definition EPSILON : Js.number := 1e-6%float.

(** One turn of the inner scan loop, on [row[colIndex]]. *)
Definition scanStep (acc : Js.number * Js.number) (value : Js.value)
  : Js.number * Js.number :=
  if negb (Js.Number_isFinite value) then acc
  else
    let v := Js.toNumber value in
    let '(minElev, maxElev) := acc in
    ((if (v <? minElev)%float then v else minElev),
     (if (maxElev <? v)%float then v else maxElev)).

(** The inner loop over [colIndex < lonLength]. *)
Definition scanRow (lonLength : nat) (acc : Js.number * Js.number)
           (row : list Js.value) : Js.number * Js.number :=
  fold_left (fun acc colIndex => scanStep acc (nth colIndex row Js.undefined))
            (seq 0 lonLength) acc.

(** The two nested loops, from [Infinity] and [-Infinity]. *)
Definition scanGrid (elevationGrid : Resolver.Grid) (lonLength : nat)
  : Js.number * Js.number :=
  fold_left (scanRow lonLength) elevationGrid (infinity, neg_infinity).

(** [minElev] and [maxElev] after the two defaults to 0. *)
Definition minElevOf (elevationGrid : Resolver.Grid) (lonLength : nat) : Js.number :=
  let mn := fst (scanGrid elevationGrid lonLength) in
  if Leibniz.eqb mn infinity then 0%float else mn.

Definition maxElevOf (elevationGrid : Resolver.Grid) (lonLength : nat) : Js.number :=
  let mx := snd (scanGrid elevationGrid lonLength) in
  if Leibniz.eqb mx neg_infinity then 0%float else mx.

Definition elevRangeOf (elevationGrid : Resolver.Grid) (lonLength : nat) : Js.number :=
  Js.Math_max (maxElevOf elevationGrid lonLength - minElevOf elevationGrid lonLength)%float
              EPSILON.

Definition zScaleBaseOf (elevationGrid : Resolver.Grid) (lonLength : nat) : Js.number :=
  (FIXED_VISUAL_SCALE / elevRangeOf elevationGrid lonLength)%float.

(** The body of the vertex loop: the z written for vertex [i]. *)
Definition vertexHeight (elevationGrid : Resolver.Grid) (widthSegments : nat)
           (minElev zScaleBase : Js.number) (i : nat) : Js.number :=
  let ix := i mod (widthSegments + 1) in
  let iy := i / (widthSegments + 1) in
  let elevValue := nth ix (nth iy elevationGrid []) Js.undefined in
  ((Js.toNumber elevValue - minElev) * zScaleBase)%float.

(** The heights written by the vertex loop, in vertex order. *)
Definition terrainHeights (elevationGrid : Resolver.Grid) (lonLength latLength : nat)
  : list Js.number :=
  let widthSegments := lonLength - 1 in
  let heightSegments := latLength - 1 in
  map (vertexHeight elevationGrid widthSegments
                    (minElevOf elevationGrid lonLength)
                    (zScaleBaseOf elevationGrid lonLength))
      (seq 0 (vertexCountOf widthSegments heightSegments)).

(** ** Validation at the head of [buildTerrainFromGrid] *)

Definition validateGrid (lat lon : list Js.number) (elevationGrid : Resolver.Grid)
  : result unit :=
  if List.length lat <? 2 then Throw ErrLatTooShort
  else if List.length lon <? 2 then Throw ErrLonTooShort
  else if negb (List.length elevationGrid =? List.length lat) then Throw ErrRowCountMismatch
  else if negb (forallb (fun row => List.length row =? List.length lon) elevationGrid)
  then Throw ErrRowLengthMismatch
  else Ok tt.

(** ** Mutations of the scene *)

Definition clearModel (st : Scene) : Scene :=
  {| terrainMesh := None;
     baseMesh := None;
     terrainGroup_scale := {| x := 1; y := 1; z := 1 |}%float;
     currentDownloadBaseName := currentDownloadBaseName st;
     currentSourceLabel := currentSourceLabel st;
     currentBaseThickness := currentBaseThickness st;
     downloadButton_disabled := true |}.

Definition set_baseMesh (b : option BaseMesh) (st : Scene) : Scene :=
  {| terrainMesh := terrainMesh st;
     baseMesh := b;
     terrainGroup_scale := terrainGroup_scale st;
     currentDownloadBaseName := currentDownloadBaseName st;
     currentSourceLabel := currentSourceLabel st;
     currentBaseThickness := currentBaseThickness st;
     downloadButton_disabled := downloadButton_disabled st |}.

Definition set_currentBaseThickness (t : Js.number) (st : Scene) : Scene :=
  {| terrainMesh := terrainMesh st;
     baseMesh := baseMesh st;
     terrainGroup_scale := terrainGroup_scale st;
     currentDownloadBaseName := currentDownloadBaseName st;
     currentSourceLabel := currentSourceLabel st;
     currentBaseThickness := t;
     downloadButton_disabled := downloadButton_disabled st |}.

Definition set_terrainGroup_scale (v : Vector3) (st : Scene) : Scene :=
  {| terrainMesh := terrainMesh st;
     baseMesh := baseMesh st;
     terrainGroup_scale := v;
     currentDownloadBaseName := currentDownloadBaseName st;
     currentSourceLabel := currentSourceLabel st;
     currentBaseThickness := currentBaseThickness st;
     downloadButton_disabled := downloadButton_disabled st |}.

(** [!isFinite(bbox.min.x) || !isFinite(bbox.min.y) || !isFinite(bbox.min.z)]. *)
Definition minNotFinite (bbox : Box3) : bool :=
  negb (is_finite (x (box_min bbox)))
  || negb (is_finite (y (box_min bbox)))
  || negb (is_finite (z (box_min bbox))).

(** The plate that [rebuildBase] builds over a bounding box. *)
Definition plateFor (bbox : Box3) (thickness : Js.number) : BaseMesh :=
  let size := getSize bbox in
  let center := getCenter bbox in
  let width := Js.Math_max (x size) EPSILON in
  let depth := Js.Math_max (y size) EPSILON in
  let topZ := z (box_min bbox) in
  {| base_geometry :=
       {| box_width := width; box_height := depth; box_depth := thickness |};
     base_position :=
       {| x := x center; y := y center; z := (topZ - thickness / 2)%float |} |}.

(** [terrainGroup.scale[axis] = v]. *)
Inductive Axis := AxisX | AxisY | AxisZ.

Definition setAxis (axis : Axis) (v : Js.number) (s : Vector3) : Vector3 :=
  match axis with
  | AxisX => {| x := v; y := y s; z := z s |}
  | AxisY => {| x := x s; y := v; z := z s |}
  | AxisZ => {| x := x s; y := y s; z := v |}
  end.

(** The status line that [loadNcFile] leaves. *)
Inductive Status :=
| StatusSuccess
| StatusError (e : Error).

Section WithThree.

(** [geometry.computeBoundingBox()] then [geometry.boundingBox], and
    [new THREE.Box3().setFromObject(terrainGroup)] for a group of the
    given scale holding the given mesh: computed by three.js. *)
Variable computeBoundingBox : PlaneGeometry -> Box3.
Variable setFromObject : Vector3 -> TerrainMesh -> Box3.

Definition rebuildBase (thickness : Js.number) (st : Scene) : Scene :=
  match terrainMesh st with
  | Some mesh =>
      if negb (is_finite thickness) || (thickness <=? 0)%float
      then set_baseMesh None st
      else
        let bbox := setFromObject (terrainGroup_scale st) mesh in
        if minNotFinite bbox then st
        else set_baseMesh (Some (plateFor bbox thickness)) st
  | None => set_baseMesh None st
  end.

Definition buildTerrainFromGrid (ui : Controls) (lat lon : list Js.number)
           (elevationGrid : Resolver.Grid) (options : Options) (st : Scene)
  : outcome :=
  match validateGrid lat lon elevationGrid with
  | Throw e => Threw e st
  | Ok _ =>
      let lonLength := List.length lon in
      let st := clearModel st in
      let latStats := arrayMinMax lat in
      let lonStats := arrayMinMax lon in
      let latSpan := Js.Math_max (Js.Math_abs (snd latStats - fst latStats)%float) EPSILON in
      let lonSpan := Js.Math_max (Js.Math_abs (snd lonStats - fst lonStats)%float) EPSILON in
      let widthSegments := List.length lon - 1 in
      let heightSegments := List.length lat - 1 in
      if (widthSegments <=? 0) || (heightSegments <=? 0)
      then Threw ErrTooFewSegments st
      else
        let geometry :=
          {| plane_width := lonSpan;
             plane_height := latSpan;
             widthSegments := widthSegments;
             heightSegments := heightSegments;
             heights := terrainHeights elevationGrid lonLength (List.length lat) |} in
        let bbox := computeBoundingBox geometry in
        let offsetX := ((x (box_min bbox) + x (box_max bbox)) / 2)%float in
        let offsetY := ((y (box_min bbox) + y (box_max bbox)) / 2)%float in
        let offsetZ := z (box_min bbox) in
        let mesh :=
          {| terrain_geometry := geometry;
             terrain_position :=
               {| x := - offsetX; y := - offsetY; z := - offsetZ |}%float |} in
        let st :=
          {| terrainMesh := Some mesh;
             baseMesh := baseMesh st;
             terrainGroup_scale :=
               {| x := getScaleValue (scaleX_value ui);
                  y := getScaleValue (scaleY_value ui);
                  z := getScaleValue (scaleZ_value ui) |};
             currentDownloadBaseName :=
               if String.eqb (fileNameBase options) "" then "terrain"
               else makeSafeFilename (fileNameBase options);
             currentSourceLabel := sourceLabel options;
             currentBaseThickness := currentBaseThickness st;
             downloadButton_disabled := downloadButton_disabled st |} in
        let thicknessValue := getBaseThicknessValue ui st in
        let st := set_currentBaseThickness thicknessValue st in
        let st := rebuildBase thicknessValue st in
        Completed
          {| terrainMesh := terrainMesh st;
             baseMesh := baseMesh st;
             terrainGroup_scale := terrainGroup_scale st;
             currentDownloadBaseName := currentDownloadBaseName st;
             currentSourceLabel := currentSourceLabel st;
             currentBaseThickness := currentBaseThickness st;
             downloadButton_disabled := false |}
  end.

(** [applyScale] of [setupScaleControl], for one axis. *)
Definition applyScale (ui : Controls) (axis : Axis) (v : Js.number) (st : Scene) : Scene :=
  if negb (is_finite v) then st
  else
    let st := set_terrainGroup_scale (setAxis axis v (terrainGroup_scale st)) st in
    let st := set_currentBaseThickness (getBaseThicknessValue ui st) st in
    rebuildBase (currentBaseThickness st) st.

(** [applyThickness] of [setupBaseThicknessControl]. *)
Definition applyThickness (thickness : Js.number) (st : Scene) : Scene :=
  if negb (is_finite thickness) || (thickness <=? 0)%float then st
  else rebuildBase thickness (set_currentBaseThickness thickness st).

(** [loadNcFile(file)], from the reader built over the file: the
    [try] block and its [catch]. *)
Definition loadNcFile (ui : Controls) (fileName : string)
           (reader : Resolver.NetCDFReader) (st : Scene) : Scene * Status :=
  match Resolver.parseNetCDF fileName reader with
  | Throw e => (st, StatusError e)
  | Ok dataset =>
      match buildTerrainFromGrid ui (Resolver.lat dataset) (Resolver.lon dataset)
              (Resolver.elevation dataset)
              {| fileNameBase := Resolver.fileBaseName dataset;
                 sourceLabel := fileName |} st with
      | Completed st' => (st', StatusSuccess)
      | Threw e st' => (st', StatusError e)
      end
  end.

End WithThree.

(** ** Export *)

(** A geometry collected for the export, with what its world matrix is
    made of. *)
Inductive Part :=
| TerrainPart (mesh : TerrainMesh) (groupScale : Vector3)
| BasePart (mesh : BaseMesh).

Inductive AlertMessage :=
| AlertNotLoaded      (* the terrain data is not loaded *)
| AlertNoGeometry.    (* there is no geometry to export *)

(** How [downloadSTL] ends: an alert and nothing else, or the download of
    the STL text of the merged parts under a file name. *)
Inductive ExportOutcome :=
| Alert (msg : AlertMessage)
| Download (fileName : string) (parts : list Part).

Definition downloadSTL (st : Scene) : ExportOutcome :=
  match terrainMesh st, baseMesh st with
  | Some terrain, Some base =>
      let geometries :=
        ([TerrainPart terrain (terrainGroup_scale st)] ++ [BasePart base])%list in
      if List.length geometries =? 0 then Alert AlertNoGeometry
      else
        let name :=
          if String.eqb (currentDownloadBaseName st) "" then "terrain"
          else currentDownloadBaseName st in
        Download (name ++ ".stl") geometries
  | _, _ => Alert AlertNotLoaded
  end.




End Viewer.

(* ================================================================== *)
(** * Reading binary64 numbers through their specification *)
(* ================================================================== *)

Module FloatModel.

Local Open Scope Z_scope.

(** An integer that orders the valid numbers as [SFcompare] does:
    [(e + 1075) * 2^53 + m] for a positive finite number of mantissa [m]
    and exponent [e], its opposite for a negative one, [2^64] for
    [+Infinity]. *)
Definition sf_ord (x : spec_float) : Z :=
  match x with
  | S754_nan => 0
  | S754_zero _ => 0
  | S754_infinity false => 18446744073709551616
  | S754_infinity true => -18446744073709551616
  | S754_finite false m e => (e + 1075) * 9007199254740992 + Zpos m
  | S754_finite true m e => - ((e + 1075) * 9007199254740992 + Zpos m)
  end.

Definition ord (x : float) : Z := sf_ord (Prim2SF x).

Definition sf_is_nan (x : spec_float) : bool :=
  match x with S754_nan => true | _ => false end.

Definition sf_is_finite (x : spec_float) : bool :=
  match x with S754_zero _ | S754_finite _ _ _ => true | _ => false end.

(** Not NaN, and of sign [s]. *)
Definition sf_signed (s : bool) (x : spec_float) : bool :=
  match x with
  | S754_zero s' | S754_finite s' _ _ | S754_infinity s' => Bool.eqb s s'
  | S754_nan => false
  end.

(** Zero of either sign, or positive (finite or infinite). *)
Definition sf_nonneg (x : spec_float) : bool :=
  match x with
  | S754_zero _ | S754_finite false _ _ | S754_infinity false => true
  | _ => false
  end.

(** [+0] or positive and finite. *)
Definition sf_pos_finite (x : spec_float) : bool :=
  match x with
  | S754_zero false | S754_finite false _ _ => true
  | _ => false
  end.

(** The value of a finite number in units of [2 ^ (-1074)], the
    smallest positive binary64 number: an integer, since the exponent of
    a valid number is at least -1074. The other numbers get 0. *)
Definition sf_units (x : spec_float) : Z :=
  match x with
  | S754_finite s m e => cond_Zopp s (Zpos m * 2 ^ (e + 1074))
  | _ => 0
  end.

Definition units (x : float) : Z := sf_units (Prim2SF x).

(** The place of a fraction [N / D] of the interval from 0 (included)
    to 1 (excluded) with respect to one half, as the rounding functions
    record it in a [location]. *)
Definition located (l : location) (N D : Z) : Prop :=
  0 <= N < D
  /\ match l with
     | loc_Exact => N = 0
     | loc_Inexact Lt => 0 < N /\ 2 * N < D
     | loc_Inexact Eq => 2 * N = D
     | loc_Inexact Gt => D < 2 * N
     end.

End FloatModel.

(* ================================================================== *)
(** * Concrete datasets and grids *)
(* ================================================================== *)

Module Examples.
Import Resolver.

Definition dim (name : string) (size : nat) : Dimension :=
  {| dim_name := name; dim_size := size |}.

(** A variable whose dimensions are given by name, each name wrapped
    as a string or as an object; and a variable whose dimensions are
    given by their index in [reader.dimensions]. *)
Definition varWith (asEntry : string -> DimEntry)
           (name : string) (dims : list string) (data : list Js.number)
  : NcVariable :=
  {| var_name := name; var_dimensions := map asEntry dims; var_data := data |}.

Definition var : string -> list string -> list Js.number -> NcVariable :=
  varWith DimString.

Definition varAt (name : string) (ids : list nat) (data : list Js.number)
  : NcVariable :=
  {| var_name := name; var_dimensions := map DimIndex ids; var_data := data |}.

(** A dataset holding both [latitude] and [lat], in that order. *)
Definition var_latitude : NcVariable := var "latitude" ["latitude"] [10; 20]%float.
Definition var_lat : NcVariable := var "lat" ["lat"] [30; 40; 50]%float.

Definition ncLatitudeFirst : NetCDFReader :=
  {| dimensions := [dim "latitude" 2; dim "lat" 3];
     variables := [var_latitude; var_lat] |}.

Definition ncLatFirst : NetCDFReader :=
  {| dimensions := [dim "latitude" 2; dim "lat" 3];
     variables := [var_lat; var_latitude] |}.

(** A 2 x 2 elevation variable over dimensions named [a] and [b], in a
    file whose latitude and longitude both have two values. *)
Definition var_square : NcVariable := var "elevation" ["a"; "b"] [1; 2; 3; 4]%float.

Definition ncSquare : NetCDFReader :=
  {| dimensions := [dim "lat" 2; dim "lon" 2; dim "a" 2; dim "b" 2];
     variables := [var "lat" ["lat"] [0; 1]%float; var "lon" ["lon"] [0; 1]%float;
                   var_square] |}.

(** A file whose latitude is the record dimension (declared size 0, three
    records), holding the same six values once under
    [(time, lat, lon)] and once under [(lat, lon)]. *)
Definition var_withTime : NcVariable :=
  var "elevation" ["time"; "lat"; "lon"] [1; 2; 3; 4; 5; 6]%float.
Definition var_withoutTime : NcVariable :=
  var "surface" ["lat"; "lon"] [1; 2; 3; 4; 5; 6]%float.

Definition ncRecordLat : NetCDFReader :=
  {| dimensions := [dim "time" 1; dim "lat" 0; dim "lon" 2];
     variables := [var "lat" ["lat"] [10; 20; 30]%float;
                   var "lon" ["lon"] [5; 6]%float;
                   var_withTime; var_withoutTime] |}.

(** The usual file: [(time = 1, lat = 2, lon = 3)]. *)
Definition var_time23 : NcVariable :=
  var "elevation" ["time"; "lat"; "lon"] [1; 2; 3; 4; 5; 6]%float.
Definition var_plain23 : NcVariable :=
  var "surface" ["lat"; "lon"] [1; 2; 3; 4; 5; 6]%float.

Definition ncTime23 : NetCDFReader :=
  {| dimensions := [dim "time" 1; dim "lat" 2; dim "lon" 3];
     variables := [var "lat" ["lat"] [10; 20]%float;
                   var "lon" ["lon"] [5; 6; 7]%float;
                   var_time23; var_plain23] |}.

(** A file whose elevation is declared over [LAT] (two values) while the
    latitude variable runs over [lat] (three values): six values in the
    buffer, four declared. *)
Definition var_upperLat : NcVariable :=
  var "elevation" ["LAT"; "lon"] [1; 2; 3; 4; 5; 6]%float.
Definition var_upperLat_other : NcVariable :=
  var "surface" ["LAT"; "lon"] [1; 2; 3; 4; 8; 9]%float.

Definition ncUpperLat : NetCDFReader :=
  {| dimensions := [dim "lat" 3; dim "LAT" 2; dim "lon" 2];
     variables := [var "lat" ["lat"] [10; 20; 30]%float;
                   var "lon" ["lon"] [5; 6]%float;
                   var_upperLat; var_upperLat_other] |}.

End Examples.

Module ViewerExamples.
Import Three Viewer.

Definition lat01 : list Js.number := [0; 1]%float.
Definition lon01 : list Js.number := [0; 1]%float.

(** The grid of the specification's scenario, and the same with 37 in
    place of 10. *)
Definition grid10 : Resolver.Grid :=
  [[Js.num 0; Js.num 10]; [Js.num 10; Js.num 0]]%float.
Definition grid37 : Resolver.Grid :=
  [[Js.num 0; Js.num 37]; [Js.num 37; Js.num 0]]%float.

(** Finite elevations whose range overflows. *)
Definition gridOverflow : Resolver.Grid :=
  [[Js.num (-1e308); Js.num 1e308]; [Js.num 0; Js.num 0]]%float.

(** A grid with one NaN entry. *)
Definition gridNaN : Resolver.Grid :=
  [[Js.num 0; Js.num nan]; [Js.num 10; Js.num 0]]%float.

(** Two grids with a [null] entry, as the sample file may hold: one
    whose numbers are all above 0, one whose numbers lie on both sides
    of 0. *)
Definition gridNull : Resolver.Grid :=
  [[Js.null; Js.num 1]; [Js.num 2; Js.num 1]]%float.
Definition gridNullInside : Resolver.Grid :=
  [[Js.null; Js.num (-1)]; [Js.num 1; Js.num 0]]%float.

Definition vec (a b c : Js.number) : Vector3 := {| x := a; y := b; z := c |}.

(** A bounding box with finite corners and one whose minimum is NaN. *)
Definition unitBox : Box3 :=
  {| box_min := vec (-0.5) (-0.5) 0; box_max := vec 0.5 0.5 0.3 |}%float.
Definition nanBox : Box3 :=
  {| box_min := vec (-0.5) (-0.5) nan; box_max := vec 0.5 0.5 nan |}%float.

Definition controls1 : Controls :=
  {| scaleX_value := 1; scaleY_value := 1; scaleZ_value := 1;
     baseThickness_value := 5 |}%float.

Definition options0 : Options := {| fileNameBase := "sample_terrain"; sourceLabel := "sample" |}.

Definition plane (zs : list Js.number) : TerrainMesh :=
  {| terrain_geometry :=
       {| plane_width := 1; plane_height := 1;
          widthSegments := 1; heightSegments := 1; heights := zs |}%float;
     terrain_position := vec 0 0 0 |}%float.

Definition plate5 : BaseMesh := plateFor unitBox 5%float.

(** A scene holding a terrain and a plate. *)
Definition loadedScene : Scene :=
  {| terrainMesh := Some (plane [0; 0.3; 0.3; 0]%float);
     baseMesh := Some plate5;
     terrainGroup_scale := vec 1 1 1;
     currentDownloadBaseName := "sample_terrain";
     currentSourceLabel := "sample";
     currentBaseThickness := 5;
     downloadButton_disabled := false |}%float.

(** The terrain of [grid37] loaded while the z scale input holds -3,
    which turns it upside down. The box of its geometry spans the
    heights from 0 to 0.30000000000000004; under the scale the terrain
    group reaches down to [-3 * 0.30000000000000004], or to
    [-3 * 0.30000001192092896] once the heights are stored in single
    precision. *)
Definition controlsMirror : Controls :=
  {| scaleX_value := 1; scaleY_value := 1; scaleZ_value := -3;
     baseThickness_value := 5 |}%float.
Definition box37 : Box3 :=
  {| box_min := vec (-0.5) (-0.5) 0;
     box_max := vec 0.5 0.5 0.30000000000000004 |}%float.
Definition mirroredBox : Box3 :=
  {| box_min := vec (-0.5) (-0.5) (-3 * 0.30000000000000004);
     box_max := vec 0.5 0.5 0 |}%float.
Definition mirroredBoxSingle : Box3 :=
  {| box_min := vec (-0.5) (-0.5) (-3 * 0.30000001192092896);
     box_max := vec 0.5 0.5 0 |}%float.
Definition mirroredScene : Scene :=
  sceneOf (buildTerrainFromGrid (fun _ => box37) (fun _ _ => mirroredBox)
             controlsMirror lat01 lon01 grid37 options0 initialScene).

End ViewerExamples.

(* ================================================================== *)
(** * The page: summary text and status line *)
(* ================================================================== *)

Module Page.

(** The double quote character. *)
Definition quoteChar : ascii := ascii_of_nat 34.

(** The replacement function of [escapeHtml]: the entity of one of the
    five characters of the class (ampersand, the two angle brackets,
    the two quotes), the character itself otherwise. *)
Definition escapeChar (ch : ascii) : string :=
  if Ascii.eqb ch "&" then "&amp;"
  else if Ascii.eqb ch "<" then "&lt;"
  else if Ascii.eqb ch ">" then "&gt;"
  else if Ascii.eqb ch quoteChar then "&quot;"
  else if Ascii.eqb ch "'" then "&#39;"
  else String ch "".

(** [escapeHtml(value)] on a string: [replace] with the [g] flag visits
    every character of the class, from left to right. *)
Fixpoint escapeHtml (value : string) : string :=
  match value with
  | EmptyString => EmptyString
  | String ch rest => escapeChar ch ++ escapeHtml rest
  end.

(** The characters of a string, for statements on its content. *)
Fixpoint chars (s : string) : list ascii :=
  match s with
  | EmptyString => []
  | String c rest => c :: chars rest
  end.

(** The status element: its text and its class list (a
    [DOMTokenList]: tokens in order, none twice). *)
Record StatusLine := {
  textContent : string;
  classList : list string
}.

(** [classList.remove(...tokens)] and [classList.add(token)]. *)
Definition classList_remove (tokens : list string) (cl : list string) : list string :=
  filter (fun c => negb (Js.includes tokens c)) cl.

Definition classList_add (token : string) (cl : list string) : list string :=
  if Js.includes cl token then cl else (cl ++ [token])%list.

(** [setStatus(message, type)]; [statusEl] is [None] when the page has
    no such element. *)
Definition setStatus (message type : string) (statusEl : option StatusLine)
  : option StatusLine :=
  match statusEl with
  | None => None
  | Some el =>
      let cl := classList_remove ["error"; "success"] (classList el) in
      let cl :=
        if String.eqb type "error" then classList_add "error" cl
        else if String.eqb type "success" then classList_add "success" cl
        else cl in
      Some {| textContent := message; classList := cl |}
  end.

End Page.

(* ================================================================== *)
(** * The listeners of the page and the camera *)
(* ================================================================== *)

Module Interaction.
Import Three Viewer.

(** [v || d] on a number: [0], [-0] and [NaN] are falsy. *)
Definition or_number (v d : Js.number) : Js.number :=
  if is_nan v || is_zero v then d else v.

(** The value that the [change] listener of a number input keeps:
    [raw] is [Number(event.target.value)], [minAttr] and [maxAttr] are
    [Number(numberElem.min)] and [Number(numberElem.max)], [fallback]
    replaces a value that is not finite, [defaultMin] and [defaultMax]
    replace a falsy bound. *)
Definition clampedValue (fallback defaultMin defaultMax : Js.number)
           (raw minAttr maxAttr : Js.number) : Js.number :=
  let value := if is_finite raw then raw else fallback in
  let min := or_number minAttr defaultMin in
  let max := or_number maxAttr defaultMax in
  let value := if (value <? min)%float then min else value in
  if (max <? value)%float then max else value.

(** The number listener of [setupScaleControl] and the one of
    [setupBaseThicknessControl]. *)
Definition scaleNumberValue (raw minAttr maxAttr : Js.number) : Js.number :=
  clampedValue 1%float 0.1%float 10%float raw minAttr maxAttr.

Definition thicknessNumberValue (raw minAttr maxAttr : Js.number) : Js.number :=
  clampedValue 5%float 0.1%float 50%float raw minAttr maxAttr.

(** What [frameCamera] hands to the camera and to the orbit controls:
    [camera.position] and [controls.target], before
    [controls.update()]. *)
Record CameraFrame := {
  camera_position : Vector3;
  controls_target : Vector3
}.

(** [Math.max(a, b, c)]. *)
Definition Math_max3 (a b c : Js.number) : Js.number :=
  Js.Math_max (Js.Math_max a b) c.

(** The distance of [frameCamera] for a bounding box. *)
Definition frameDistance (bbox : Box3) : Js.number :=
  let size := getSize bbox in
  let maxSize := Math_max3 (x size) (y size) (z size) in
  Js.Math_max (maxSize * 1.8)%float 1.5%float.

(** What the parsed body of the sample file, an object, holds under
    [lat], [lon] and [elevation]: [None] for a value that is not an
    array. The program reads the cells of [lat] and [lon] through
    [Number(raw)] only, in [arrayMinMax]: the lists hold what [Number]
    makes of each cell. The rows of [elevation] hold the cells as they
    are. *)
Record SampleData := {
  sample_lat : option (list Js.number);
  sample_lon : option (list Js.number);
  sample_elevation : option Resolver.Grid
}.

(** How [fetch] and [response.json()] end. *)
Inductive Fetched :=
| FetchRejected                      (* fetch rejects *)
| HttpStatus (status : nat)          (* response.ok is false *)
| JsonRejected                       (* response.json() rejects *)
| Json (data : SampleData).

(** The error that [loadSampleTerrain] rethrows. *)
Inductive SampleError :=
| SampleFetch
| SampleHttp (status : nat)
| SampleJson
| SampleFormat                       (* one of the three is not an array *)
| SampleBuild (e : Error).           (* thrown by buildTerrainFromGrid *)

Definition sampleOptions : Options :=
  {| fileNameBase := "sample_terrain"; sourceLabel := "サンプルデータ" |}.

Section WithThree.

Variable computeBoundingBox : PlaneGeometry -> Box3.
Variable setFromObject : Vector3 -> TerrainMesh -> Box3.

(** [new THREE.Box3().setFromObject(modelGroup)], for the model
    group holding the terrain group (its scale, its mesh) and the
    plate: computed by three.js. *)
Variable setFromModel : Vector3 -> TerrainMesh -> option BaseMesh -> Box3.

(** [frameCamera()]: [None] when it returns without touching the
    camera. *)
Definition frameCamera (st : Scene) : option CameraFrame :=
  match terrainMesh st with
  | None => None
  | Some mesh =>
      let bbox := setFromModel (terrainGroup_scale st) mesh (baseMesh st) in
      let center := getCenter bbox in
      let distance := frameDistance bbox in
      if negb (is_finite distance) then None
      else
        Some {| camera_position :=
                  {| x := x center + distance;
                     y := y center + distance;
                     z := z center + distance |}%float;
                controls_target := center |}
  end.

(** [loadSampleTerrain(showMessage)], from what [fetch] gave: the
    scene it leaves and the error it rethrows, if any. *)
Definition loadSampleTerrain (ui : Controls) (fetched : Fetched) (st : Scene)
  : Scene * option SampleError :=
  match fetched with
  | FetchRejected => (st, Some SampleFetch)
  | HttpStatus status => (st, Some (SampleHttp status))
  | JsonRejected => (st, Some SampleJson)
  | Json data =>
      match sample_lat data, sample_lon data, sample_elevation data with
      | Some lat, Some lon, Some elevation =>
          match buildTerrainFromGrid computeBoundingBox setFromObject
                  ui lat lon elevation sampleOptions st with
          | Completed st' => (st', None)
          | Threw e st' => (st', Some (SampleBuild e))
          end
      | _, _, _ => (st, Some SampleFormat)
      end
  end.

(** The events the page listens to, each with what its listener
    reads from the event and from the elements; and the last
    statement of [setupBaseThicknessControl], which runs once when
    the module is loaded. *)
Inductive Event :=
| ScaleRangeInput (axis : Axis) (value : Js.number)
| ScaleNumberChange (axis : Axis) (raw minAttr maxAttr : Js.number)
| ThicknessRangeInput (value : Js.number)
| ThicknessNumberChange (raw minAttr maxAttr : Js.number)
| ThicknessControlSetUp
| FileChosen (fileName : string) (reader : Resolver.NetCDFReader)
| FileDialogEmpty
| SampleRequested (fetched : Fetched)
| DownloadClicked.

(** The listener of each event, on the scene; [ui] is what the inputs
    hold when the listener reads them. *)
Definition handle (ui : Controls) (ev : Event) (st : Scene) : Scene :=
  match ev with
  | ScaleRangeInput axis value =>
      applyScale setFromObject ui axis value st
  | ScaleNumberChange axis raw minAttr maxAttr =>
      applyScale setFromObject ui axis (scaleNumberValue raw minAttr maxAttr) st
  | ThicknessRangeInput value =>
      applyThickness setFromObject value st
  | ThicknessNumberChange raw minAttr maxAttr =>
      applyThickness setFromObject (thicknessNumberValue raw minAttr maxAttr) st
  | ThicknessControlSetUp =>
      set_currentBaseThickness (getBaseThicknessValue ui st) st
  | FileChosen fileName reader =>
      fst (loadNcFile computeBoundingBox setFromObject ui fileName reader st)
  | FileDialogEmpty => st
  | SampleRequested fetched => fst (loadSampleTerrain ui fetched st)
  | DownloadClicked => st
  end.

(** A session: the events in the order they are handled, from the
    scene at module initialisation. *)
Definition run (events : list (Controls * Event)) (st : Scene) : Scene :=
  fold_left (fun st e => handle (fst e) (snd e) st) events st.

End WithThree.

End Interaction.

(* ================================================================== *)
(** * What the further theorems speak of *)
(* ================================================================== *)

Module Terms.
Import Three Viewer.

(** A leading dimension that the first loop of [reshapeElevationGrid]
    removes when more than two dimensions remain. *)
Definition strippable (latN lonN : string) (d : string * nat) : Prop :=
  snd d = 1 /\ fst d <> latN /\ fst d <> lonN.

(** [latCount] and [lonCount] of [parseNetCDF], for the coordinate
    variable [v]: [dimensionMap.get(dimName) || data.length]. *)
Definition resolvedCount (reader : Resolver.NetCDFReader) (v : Resolver.NcVariable)
  : nat :=
  let data := Resolver.getDataVariable reader (Resolver.var_name v) in
  match Resolver.dimensionMap_get reader (Resolver.coordinateDimName v) with
  | Some n => Js.or_else n (List.length data)
  | None => List.length data
  end.

(** The dimension of a coordinate variable is undeclared, declared
    with size 0, or declared with the length of the variable's data. *)
Definition coordinateConsistent (reader : Resolver.NetCDFReader)
           (v : Resolver.NcVariable) : Prop :=
  match Resolver.dimensionMap_get reader (Resolver.coordinateDimName v) with
  | Some n =>
      n = 0 \/ n = List.length (Resolver.getDataVariable reader (Resolver.var_name v))
  | None => True
  end.

(** A variable that has both coordinate dimensions, letter case apart:
    the test of the fallback of [findElevationVariable]. *)
Definition hasBothDimensions (latDimName lonDimName : string)
           (v : Resolver.NcVariable) : Prop :=
  let dimNames :=
    map (fun dim => Js.toLowerCase (Resolver.parseDimensionName dim))
        (Resolver.var_dimensions v) in
  In (Js.toLowerCase latDimName) dimNames /\ In (Js.toLowerCase lonDimName) dimNames.

(** No two underscores in a row. *)
Fixpoint noUnderscoreRun (cs : list ascii) : Prop :=
  match cs with
  | a :: rest =>
      match rest with
      | b :: _ => ~ (a = "_"%char /\ b = "_"%char)
      | [] => True
      end
      /\ noUnderscoreRun rest
  | [] => True
  end.

(** A name as [makeSafeFilename] returns it: not empty, made of the
    characters [a-z0-9_-], without two underscores in a row and
    without an underscore at either end. *)
Record cleanName (s : string) : Prop := {
  clean_nonempty : s <> "";
  clean_safe : Forall (fun c => safeChar c = true) (Page.chars s);
  clean_no_run : noUnderscoreRun (Page.chars s);
  clean_head : hd "a"%char (Page.chars s) <> "_"%char;
  clean_last : last (Page.chars s) "a"%char <> "_"%char
}.


(** What every scene of a session satisfies. *)
Record wellFormed (st : Scene) : Prop := {
  plate_needs_terrain : baseMesh st <> None -> terrainMesh st <> None;
  scale_finite :
    is_finite (x (terrainGroup_scale st)) = true
    /\ is_finite (y (terrainGroup_scale st)) = true
    /\ is_finite (z (terrainGroup_scale st)) = true;
  thickness_finite : is_finite (currentBaseThickness st) = true;
  plate_depth_positive :
    forall plate, baseMesh st = Some plate ->
      is_finite (box_depth (base_geometry plate)) = true
      /\ (0 <? box_depth (base_geometry plate))%float = true;
  terrain_enables_download :
    terrainMesh st <> None -> downloadButton_disabled st = false;
  download_name_clean : cleanName (currentDownloadBaseName st)
}.

End Terms.

(* ================================================================== *)
(** * More concrete inputs *)
(* ================================================================== *)

Module MoreExamples.
Import Resolver Three Viewer Interaction Examples ViewerExamples.

(** A 2 x 3 grid stored longitude-major: three columns of two. *)
Definition var_lonMajor : NcVariable :=
  var "elevation" ["lon"; "lat"] [1; 4; 2; 5; 3; 6]%float.

Definition ncLonMajor : NetCDFReader :=
  {| dimensions := [dim "lat" 2; dim "lon" 3];
     variables := [var "lat" ["lat"] [10; 20]%float;
                   var "lon" ["lon"] [5; 6; 7]%float;
                   var_lonMajor] |}.

(** A file with no candidate name for the elevation: the variable is
    found by its dimensions. *)
Definition var_topo : NcVariable :=
  var "topo" ["lat"; "lon"] [1; 2; 3; 4; 5; 6]%float.

Definition ncTopo : NetCDFReader :=
  {| dimensions := [dim "lat" 2; dim "lon" 3];
     variables := [var "lat" ["lat"] [10; 20]%float;
                   var "lon" ["lon"] [5; 6; 7]%float;
                   var_topo] |}.

(** A flat grid. *)
Definition gridFlat : Resolver.Grid :=
  [[Js.num 7; Js.num 7]; [Js.num 7; Js.num 7]]%float.

Definition sampleData : SampleData :=
  {| sample_lat := Some lat01; sample_lon := Some lon01;
     sample_elevation := Some grid10 |}.

(** A status element that carries both classes and one of its own. *)
Definition statusBoth : Page.StatusLine :=
  {| Page.textContent := "old"; Page.classList := ["error"; "note"; "success"] |}.

End MoreExamples.

(* ================================================================== *)
(** * Facts on binary64 numbers *)
(* ================================================================== *)

Local Open Scope list_scope.

Module FloatFacts.
Import FloatModel.

Local Open Scope Z_scope.

(** ** Mantissa width *)

Lemma digits2_pos_size (p : positive) : digits2_pos p = Pos.size p.
Proof. induction p; simpl; congruence. Qed.

Lemma digits2_log2 (p : positive) : Zpos (digits2_pos p) = Z.log2 (Zpos p) + 1.
Proof.
  rewrite digits2_pos_size. destruct p; simpl; try reflexivity;
    now rewrite Pos.add_1_r.
Qed.

Lemma Zdigits2_log2 (m : Z) : 0 < m -> Zdigits2 m = Z.log2 m + 1.
Proof. destruct m; try lia. intros _. apply digits2_log2. Qed.

Lemma pos_lt_pow2_digits (p : positive) : Zpos p < 2 ^ Zpos (digits2_pos p).
Proof.
  rewrite digits2_log2. pose proof (Z.log2_spec (Zpos p) eq_refl) as H.
  unfold Z.succ in H. lia.
Qed.

Lemma pow2_digits_le (p : positive) : 2 ^ (Zpos (digits2_pos p) - 1) <= Zpos p.
Proof.
  rewrite digits2_log2. replace (Z.log2 (Zpos p) + 1 - 1) with (Z.log2 (Zpos p)) by lia.
  apply (Z.log2_spec (Zpos p) eq_refl).
Qed.

(** ** Valid finite numbers *)

Lemma valid_finite_bounds s m e :
  valid_binary (S754_finite s m e) = true ->
  -1074 <= e <= 971 /\ Zpos (digits2_pos m) <= 53
  /\ (-1074 < e -> Zpos (digits2_pos m) = 53).
Proof.
  unfold valid_binary, bounded, canonical_mantissa, fexp, SpecFloat.emin, prec, emax.
  intros H. apply andb_true_iff in H as [H1 H2].
  apply Z.eqb_eq in H1. apply Z.leb_le in H2. lia.
Qed.

Lemma valid_finite_mantissa s m e :
  valid_binary (S754_finite s m e) = true ->
  0 < Zpos m < 9007199254740992.
Proof.
  intros H. apply valid_finite_bounds in H as (_ & Hd & _).
  split; [lia|]. pose proof (pos_lt_pow2_digits m) as Hm.
  assert (2 ^ Zpos (digits2_pos m) <= 2 ^ 53) by (apply Z.pow_le_mono_r; lia).
  change (2 ^ 53) with 9007199254740992 in *. lia.
Qed.

(** ** [SFcompare] through [sf_ord] *)

Lemma SFcompare_ord x y :
  valid_binary x = true -> valid_binary y = true ->
  sf_is_nan x = false -> sf_is_nan y = false ->
  SFcompare x y = Some (sf_ord x ?= sf_ord y).
Proof.
  intros Vx Vy Nx Ny.
  destruct x as [sx|sx| |sx mx ex]; try discriminate;
    destruct y as [sy|sy| |sy my ey]; try discriminate;
    try (pose proof (valid_finite_bounds _ _ _ Vx) as (Bx & _);
         pose proof (valid_finite_mantissa _ _ _ Vx) as Mx);
    try (pose proof (valid_finite_bounds _ _ _ Vy) as (By & _);
         pose proof (valid_finite_mantissa _ _ _ Vy) as My);
    cbn [SFcompare sf_ord]; f_equal; symmetry;
    try destruct sx; try destruct sy;
    try reflexivity;
    try (apply Z.compare_lt_iff; lia);
    try (apply Z.compare_gt_iff; lia).
  - destruct (Z.compare_spec ex ey) as [E|E|E].
    + subst ey. change (Pos.compare_cont Eq mx my) with (Pos.compare mx my).
      destruct (Pos.compare_spec mx my) as [F|F|F]; cbn [CompOpp].
      * subst. apply Z.compare_refl.
      * apply Z.compare_gt_iff. lia.
      * apply Z.compare_lt_iff. lia.
    + apply Z.compare_gt_iff. lia.
    + apply Z.compare_lt_iff. lia.
  - destruct (Z.compare_spec ex ey) as [E|E|E].
    + subst ey. change (Pos.compare_cont Eq mx my) with (Pos.compare mx my).
      destruct (Pos.compare_spec mx my) as [F|F|F].
      * subst. apply Z.compare_refl.
      * apply Z.compare_lt_iff. lia.
      * apply Z.compare_gt_iff. lia.
    + apply Z.compare_lt_iff. lia.
    + apply Z.compare_gt_iff. lia.
Qed.

(** ** Primitive numbers through [Prim2SF] *)

Lemma SFcompare_nan_l y : SFcompare S754_nan y = None.
Proof. reflexivity. Qed.

Lemma SFcompare_nan_r x : SFcompare x S754_nan = None.
Proof. now destruct x. Qed.

Lemma is_nan_spec (x : float) : is_nan x = sf_is_nan (Prim2SF x).
Proof.
  unfold is_nan. rewrite FloatAxioms.eqb_spec. unfold SFeqb.
  destruct (sf_is_nan (Prim2SF x)) eqn:N.
  - destruct (Prim2SF x); try discriminate. reflexivity.
  - rewrite SFcompare_ord by (auto using Prim2SF_valid).
    now rewrite Z.compare_refl.
Qed.

Lemma is_infinity_spec (x : float) :
  is_infinity x = match Prim2SF x with S754_infinity _ => true | _ => false end.
Proof.
  unfold is_infinity. rewrite FloatAxioms.eqb_spec, abs_spec.
  change (Prim2SF infinity) with (S754_infinity false).
  destruct (Prim2SF x) as [s|s| |s m e]; try reflexivity.
Qed.

Lemma is_finite_spec (x : float) : is_finite x = sf_is_finite (Prim2SF x).
Proof.
  unfold is_finite. rewrite is_nan_spec, is_infinity_spec.
  now destruct (Prim2SF x).
Qed.

Lemma finite_not_nan (x : float) : is_finite x = true -> is_nan x = false.
Proof. rewrite is_finite_spec, is_nan_spec. now destruct (Prim2SF x). Qed.

Lemma ltb_ord (x y : float) :
  is_nan x = false -> is_nan y = false ->
  (x <? y)%float = (ord x <? ord y).
Proof.
  intros Nx Ny. rewrite is_nan_spec in Nx, Ny.
  rewrite FloatAxioms.ltb_spec. unfold SFltb, ord.
  rewrite SFcompare_ord by (auto using Prim2SF_valid).
  unfold Z.ltb. now destruct (_ ?= _).
Qed.

Lemma leb_ord (x y : float) :
  is_nan x = false -> is_nan y = false ->
  (x <=? y)%float = (ord x <=? ord y).
Proof.
  intros Nx Ny. rewrite is_nan_spec in Nx, Ny.
  rewrite FloatAxioms.leb_spec. unfold SFleb, ord.
  rewrite SFcompare_ord by (auto using Prim2SF_valid).
  unfold Z.leb. now destruct (_ ?= _).
Qed.

Lemma ltb_nan_l (x y : float) : is_nan x = true -> (x <? y)%float = false.
Proof.
  rewrite is_nan_spec, FloatAxioms.ltb_spec. unfold SFltb.
  destruct (Prim2SF x); try discriminate. reflexivity.
Qed.

Lemma ltb_nan_r (x y : float) : is_nan y = true -> (x <? y)%float = false.
Proof.
  rewrite is_nan_spec, FloatAxioms.ltb_spec. unfold SFltb.
  destruct (Prim2SF y); try discriminate. now rewrite SFcompare_nan_r.
Qed.

Lemma leb_nan_l (x y : float) : is_nan x = true -> (x <=? y)%float = false.
Proof.
  rewrite is_nan_spec, FloatAxioms.leb_spec. unfold SFleb.
  destruct (Prim2SF x); try discriminate. reflexivity.
Qed.

End FloatFacts.

Module FloatRounding.
Import FloatModel FloatFacts.
Local Open Scope Z_scope.

(** ** Numbers that are not finite stay so *)

Lemma sub_not_finite (x y : float) :
  is_finite x = false -> is_finite (x - y)%float = false.
Proof.
  rewrite !is_finite_spec, sub_spec. unfold SF64sub.
  destruct (Prim2SF x) as [s|s| |s m e]; try discriminate; intros _;
    destruct (Prim2SF y) as [s'|s'| |s' m' e']; try reflexivity;
    destruct s, s'; reflexivity.
Qed.

Lemma mul_not_finite (x y : float) :
  is_finite x = false -> is_finite (x * y)%float = false.
Proof.
  rewrite !is_finite_spec, mul_spec. unfold SF64mul.
  destruct (Prim2SF x) as [s|s| |s m e]; try discriminate; intros _;
    destruct (Prim2SF y) as [s'|s'| |s' m' e']; reflexivity.
Qed.

(** ** Shifting right *)

Lemma shr_1_spec (r : shr_record) :
  0 <= shr_m r -> 0 <= shr_m (shr_1 r) /\ 2 * shr_m (shr_1 r) <= shr_m r.
Proof.
  destruct r as [m b c]. cbn [shr_m]. intros Hm.
  destruct m as [|p|p]; [| |lia]; simpl; [lia|].
  destruct p; cbn [shr_m]; lia.
Qed.

Lemma iter_shr_1_spec (p : positive) :
  forall r, 0 <= shr_m r ->
    0 <= shr_m (SpecFloat.iter_pos shr_1 p r)
    /\ 2 ^ Zpos p * shr_m (SpecFloat.iter_pos shr_1 p r) <= shr_m r.
Proof.
  induction p as [p IH|p IH|]; intros r Hr; cbn [SpecFloat.iter_pos].
  - destruct (shr_1_spec r Hr) as [H0 H1].
    destruct (IH _ H0) as [H2 H3]. destruct (IH _ H2) as [H4 H5].
    split; [exact H4|].
    replace (Zpos p~1) with (Zpos p + Zpos p + 1) by lia.
    rewrite !Z.pow_add_r by lia. change (2 ^ 1) with 2.
    assert (0 < 2 ^ Zpos p) by (apply Z.pow_pos_nonneg; lia). nia.
  - destruct (IH _ Hr) as [H2 H3]. destruct (IH _ H2) as [H4 H5].
    split; [exact H4|].
    replace (Zpos p~0) with (Zpos p + Zpos p) by lia.
    rewrite !Z.pow_add_r by lia.
    assert (0 < 2 ^ Zpos p) by (apply Z.pow_pos_nonneg; lia). nia.
  - change (2 ^ 1) with 2. apply shr_1_spec, Hr.
Qed.

Lemma shr_m_of_loc m l : shr_m (shr_record_of_loc m l) = m.
Proof. destruct l as [|[]]; reflexivity. Qed.

(** [shr_fexp m e l] leaves a mantissa [m'] and an exponent [e'] with
    [e' = max e (fexp (digits m + e))] and [m' * 2 ^ (e' - e) <= m]. *)
Lemma shr_fexp_spec m e l :
  0 <= m ->
  let '(mrs, e') := shr_fexp prec emax m e l in
  e' = Z.max e (fexp prec emax (Zdigits2 m + e))
  /\ 0 <= shr_m mrs
  /\ 2 ^ (e' - e) * shr_m mrs <= m.
Proof.
  intros Hm. unfold shr_fexp, shr.
  destruct (fexp prec emax (Zdigits2 m + e) - e) as [|p|p] eqn:Hn.
  - rewrite shr_m_of_loc. replace (e - e) with 0 by lia. change (2 ^ 0) with 1. lia.
  - pose proof (iter_shr_1_spec p (shr_record_of_loc m l)) as H.
    rewrite shr_m_of_loc in H. destruct (H Hm) as [H0 H1].
    split; [lia|]. split; [exact H0|].
    replace (e + Zpos p - e) with (Zpos p) by lia. exact H1.
  - rewrite shr_m_of_loc. replace (e - e) with 0 by lia. change (2 ^ 0) with 1. lia.
Qed.

Lemma round_nearest_even_spec m l :
  0 <= m -> m <= round_nearest_even m l <= m + 1.
Proof.
  intros Hm. unfold round_nearest_even.
  destruct l as [|[]]; try lia. destruct (Z.even m); lia.
Qed.

(** ** Mantissa width of a shifted or bumped mantissa *)

Lemma Zdigits2_nonneg m : 0 <= Zdigits2 m.
Proof. destruct m; simpl; lia. Qed.

Lemma Zdigits2_le a b : 0 <= a <= b -> Zdigits2 a <= Zdigits2 b.
Proof.
  intros [Ha Hab]. destruct (Z.eq_dec a 0) as [->|Hne].
  - apply Zdigits2_nonneg.
  - rewrite !Zdigits2_log2 by lia.
    pose proof (Z.log2_le_mono a b Hab). lia.
Qed.

Lemma Zdigits2_succ a : 0 <= a -> Zdigits2 (a + 1) <= Zdigits2 a + 1.
Proof.
  intros Ha. destruct (Z.eq_dec a 0) as [->|Hne]; [simpl; lia|].
  rewrite !Zdigits2_log2 by lia.
  pose proof (Z.log2_succ_le a). unfold Z.succ in *. lia.
Qed.

Lemma Zdigits2_shifted a k m :
  0 <= k -> 0 < a -> 2 ^ k * a <= m -> Zdigits2 a + k <= Zdigits2 m.
Proof.
  intros Hk Ha Hle.
  assert (0 < 2 ^ k) by (apply Z.pow_pos_nonneg; lia).
  rewrite !Zdigits2_log2 by nia.
  pose proof (Z.log2_mul_pow2 a k Ha Hk) as E.
  pose proof (Z.log2_le_mono (a * 2 ^ k) m) as L.
  rewrite E in L. assert (a * 2 ^ k <= m) by lia. lia.
Qed.

(** ** The result of rounding keeps the sign and, under a size bound,
    is not an infinity *)

Lemma binary_round_aux_sign s m e l :
  0 <= m -> sf_signed s (binary_round_aux prec emax s m e l) = true.
Proof.
  intros Hm. unfold binary_round_aux.
  pose proof (shr_fexp_spec m e l Hm) as H1.
  destruct (shr_fexp prec emax m e l) as [mrs' e'].
  destruct H1 as (_ & H1 & _).
  pose proof (round_nearest_even_spec (shr_m mrs') (loc_of_shr_record mrs') H1) as Hr.
  pose proof (shr_fexp_spec (round_nearest_even (shr_m mrs') (loc_of_shr_record mrs'))
                            e' loc_Exact) as H2.
  destruct (shr_fexp prec emax _ e' loc_Exact) as [mrs'' e''].
  destruct H2 as (_ & H2 & _); [lia|].
  destruct (shr_m mrs'') as [|p|p]; [| |lia]; cbn [sf_signed].
  - apply Bool.eqb_reflx.
  - destruct (e'' <=? emax - prec); apply Bool.eqb_reflx.
Qed.

Lemma binary_round_aux_finite s m e l :
  0 <= m -> e <= 971 -> Zdigits2 m + e <= 1023 ->
  sf_is_finite (binary_round_aux prec emax s m e l) = true.
Proof.
  intros Hm He Hsize. unfold binary_round_aux.
  pose proof (shr_fexp_spec m e l Hm) as H1.
  destruct (shr_fexp prec emax m e l) as [mrs' e'].
  destruct H1 as (He' & H1 & H1').
  set (m2 := round_nearest_even (shr_m mrs') (loc_of_shr_record mrs')).
  pose proof (round_nearest_even_spec (shr_m mrs') (loc_of_shr_record mrs') H1) as Hr.
  fold m2 in Hr.
  pose proof (shr_fexp_spec m2 e' loc_Exact) as H2.
  destruct (shr_fexp prec emax m2 e' loc_Exact) as [mrs'' e''].
  destruct H2 as (He'' & H2 & _); [lia|].
  destruct (shr_m mrs'') as [|p|p]; [reflexivity| |lia].
  assert (Hd : Zdigits2 m2 + e' <= 1024).
  { assert (Zdigits2 m2 <= Zdigits2 (shr_m mrs' + 1)) by (apply Zdigits2_le; lia).
    pose proof (Zdigits2_succ _ H1).
    destruct (Z.eq_dec (shr_m mrs') 0) as [E0|E0].
    - rewrite E0 in *. simpl in *.
      unfold fexp, SpecFloat.emin, prec, emax in He'.
      pose proof (Zdigits2_nonneg m). lia.
    - assert (Zdigits2 (shr_m mrs') + (e' - e) <= Zdigits2 m).
      { apply Zdigits2_shifted; lia. }
      lia. }
  unfold fexp, SpecFloat.emin, prec, emax in *.
  pose proof (Zdigits2_nonneg m).
  replace (e'' <=? 1024 - 53) with true by (symmetry; apply Z.leb_le; lia).
  reflexivity.
Qed.

End FloatRounding.

Module FloatArith.
Import FloatModel FloatFacts FloatRounding.
Local Open Scope Z_scope.

(** ** Classes of results *)

Lemma signed_false_nonneg x : sf_signed false x = true -> sf_nonneg x = true.
Proof. destruct x as [[]|[]| |[] m e]; simpl; congruence. Qed.

Lemma signed_false_finite_pos x :
  sf_signed false x = true -> sf_is_finite x = true -> sf_pos_finite x = true.
Proof. destruct x as [[]|[]| |[] m e]; simpl; congruence. Qed.

(** ** Alignment *)

Lemma iter_xO_pow2 (m d : positive) :
  Zpos (Pos.iter xO m d) = Zpos m * 2 ^ Zpos d.
Proof.
  induction d as [|d IH] using Pos.peano_ind.
  - simpl. lia.
  - rewrite Pos.iter_succ, Pos2Z.inj_succ, Z.pow_succ_r by lia.
    rewrite Pos2Z.inj_xO, IH. lia.
Qed.

Lemma shl_align_le m e e' :
  e' <= e -> Zpos (fst (shl_align m e e')) = Zpos m * 2 ^ (e - e').
Proof.
  intros Hle. unfold shl_align.
  destruct (e' - e) as [|p|p] eqn:Hd; cbn [fst].
  - replace (e - e') with 0 by lia. simpl. lia.
  - lia.
  - rewrite iter_xO_pow2. f_equal. f_equal. lia.
Qed.

Lemma binary_round_sign s m e :
  sf_signed s (binary_round prec emax s m e) = true.
Proof.
  unfold binary_round. destruct (shl_align m e _) as [mz ez].
  apply binary_round_aux_sign. lia.
Qed.

Lemma binary_normalize_nonneg m e :
  0 <= m -> sf_nonneg (binary_normalize prec emax m e false) = true.
Proof.
  intros Hm. destruct m as [|p|p]; [reflexivity| |lia].
  apply signed_false_nonneg, binary_round_sign.
Qed.

(** ** Subtraction *)

Lemma SFsub_diag x :
  sf_is_finite x = true -> SFsub prec emax x x = S754_zero false.
Proof.
  destruct x as [s|s| |s m e]; try discriminate; intros _.
  - now destruct s.
  - cbn [SFsub]. rewrite Z.sub_diag. reflexivity.
Qed.

(** Canonical mantissas: a larger exponent means a larger number. *)
Lemma aligned_le s1 m1 e1 s2 m2 e2 :
  valid_binary (S754_finite s1 m1 e1) = true ->
  valid_binary (S754_finite s2 m2 e2) = true ->
  (e2 + 1075) * 9007199254740992 + Zpos m2
  <= (e1 + 1075) * 9007199254740992 + Zpos m1 ->
  Zpos (fst (shl_align m2 e2 (Z.min e1 e2)))
  <= Zpos (fst (shl_align m1 e1 (Z.min e1 e2))).
Proof.
  intros V1 V2 Hord.
  pose proof (valid_finite_bounds _ _ _ V1) as (B1 & D1 & F1).
  pose proof (valid_finite_bounds _ _ _ V2) as (B2 & D2 & F2).
  pose proof (valid_finite_mantissa _ _ _ V1) as M1.
  pose proof (valid_finite_mantissa _ _ _ V2) as M2.
  assert (He : e2 <= e1) by lia.
  rewrite Z.min_r by exact He.
  rewrite !shl_align_le by lia.
  rewrite Z.sub_diag. change (2 ^ 0) with 1.
  destruct (Z.eq_dec e1 e2) as [->|Hne].
  - rewrite Z.sub_diag. change (2 ^ 0) with 1. lia.
  - assert (Hd : Zpos (digits2_pos m1) = 53) by (apply F1; lia).
    pose proof (pow2_digits_le m1) as Hm1. rewrite Hd in Hm1.
    change (2 ^ (53 - 1)) with 4503599627370496 in Hm1.
    assert (2 ^ 1 <= 2 ^ (e1 - e2)) by (apply Z.pow_le_mono_r; lia).
    change (2 ^ 1) with 2 in *. nia.
Qed.

Lemma SFsub_nonneg x y :
  valid_binary x = true -> valid_binary y = true ->
  sf_is_finite x = true -> sf_is_finite y = true ->
  sf_ord y <= sf_ord x ->
  sf_nonneg (SFsub prec emax x y) = true.
Proof.
  intros Vx Vy Fx Fy Hord.
  destruct x as [sx|sx| |sx mx ex]; try discriminate;
    destruct y as [sy|sy| |sy my ey]; try discriminate.
  - now destruct sx, sy.
  - pose proof (valid_finite_bounds _ _ _ Vy) as (By & _).
    pose proof (valid_finite_mantissa _ _ _ Vy) as My.
    destruct sy; cbn [sf_ord] in Hord; [reflexivity|lia].
  - pose proof (valid_finite_bounds _ _ _ Vx) as (Bx & _).
    pose proof (valid_finite_mantissa _ _ _ Vx) as Mx.
    destruct sx; cbn [sf_ord] in Hord; [lia|reflexivity].
  - cbn [SFsub]. apply binary_normalize_nonneg.
    pose proof (valid_finite_bounds _ _ _ Vx) as (Bx & _).
    pose proof (valid_finite_mantissa _ _ _ Vx) as Mx.
    pose proof (valid_finite_bounds _ _ _ Vy) as (By & _).
    pose proof (valid_finite_mantissa _ _ _ Vy) as My.
    destruct sx, sy; cbn [sf_ord cond_Zopp] in *.
    + assert (H : Zpos (fst (shl_align mx ex (Z.min ey ex)))
                  <= Zpos (fst (shl_align my ey (Z.min ey ex)))).
      { apply (aligned_le true my ey true mx ex Vy Vx). lia. }
      rewrite (Z.min_comm ey ex) in H. lia.
    + lia.
    + lia.
    + pose proof (aligned_le false mx ex false my ey Vx Vy Hord). lia.
Qed.

(** ** Multiplication *)

Lemma SFmul_nonneg a b :
  sf_nonneg a = true -> sf_pos_finite b = true ->
  sf_is_nan (SFmul prec emax a b) || sf_nonneg (SFmul prec emax a b) = true.
Proof.
  intros Ha Hb.
  destruct a as [sa|[]| |[] ma ea]; try discriminate;
    destruct b as [[]|sb| |[] mb eb]; try discriminate; try reflexivity.
  cbn [SFmul xorb]. apply orb_true_iff. right.
  apply signed_false_nonneg, binary_round_aux_sign. lia.
Qed.

Lemma SFmul_zero_l b :
  sf_pos_finite b = true -> SFmul prec emax (S754_zero false) b = S754_zero false.
Proof. destruct b as [[]|sb| |[] mb eb]; try discriminate; reflexivity. Qed.

(** ** Division *)

Lemma SFdiv_finite s1 m1 e1 s2 m2 e2 :
  (Zpos (digits2_pos m1) + e1) - (Zpos (digits2_pos m2) + e2) <= 1022 ->
  sf_is_finite (SFdiv prec emax (S754_finite s1 m1 e1) (S754_finite s2 m2 e2)) = true
  /\ sf_signed (xorb s1 s2)
       (SFdiv prec emax (S754_finite s1 m1 e1) (S754_finite s2 m2 e2)) = true.
Proof.
  intros HD. cbn [SFdiv]. unfold SFdiv_core_binary. cbn [Zdigits2].
  set (D := Zpos (digits2_pos m1) + e1 - (Zpos (digits2_pos m2) + e2)) in *.
  set (e' := Z.min (fexp prec emax D) (e1 - e2)).
  set (s := e1 - e2 - e').
  set (m' := match s with
             | 0 => Zpos m1
             | Zpos _ => Z.shiftl (Zpos m1) s
             | Zneg _ => 0
             end).
  assert (Hs : 0 <= s) by (unfold s, e'; lia).
  assert (Hm' : m' = Zpos m1 * 2 ^ s).
  { unfold m'. destruct s as [|p|p] eqn:Es; [simpl; lia| |lia].
    apply Z.shiftl_mul_pow2. lia. }
  destruct (Z.div_eucl m' (Zpos m2)) as [q r] eqn:Hde.
  assert (Hq : q = m' / Zpos m2) by (unfold Z.div; now rewrite Hde).
  assert (Hpow : 0 < 2 ^ s) by (apply Z.pow_pos_nonneg; lia).
  assert (Hq0 : 0 <= q) by (rewrite Hq; apply Z.div_pos; nia).
  assert (Hqm : Zpos m2 * q <= m') by (rewrite Hq; apply Z.mul_div_le; lia).
  assert (He' : e' <= 969).
  { unfold e', fexp, SpecFloat.emin, prec, emax. lia. }
  assert (Hsize : Zdigits2 q + e' <= 1023).
  { destruct (Z.eq_dec q 0) as [->|Hne]; [simpl; lia|].
    rewrite Zdigits2_log2 by lia.
    pose proof (Z.log2_mul_below (Zpos m2) q eq_refl ltac:(lia)) as Hb.
    pose proof (Z.log2_le_mono _ _ Hqm) as Hmono.
    rewrite Hm', Z.log2_mul_pow2 in Hmono by lia.
    pose proof (digits2_log2 m1). pose proof (digits2_log2 m2).
    unfold s in Hmono. unfold D in HD. lia. }
  split.
  - apply binary_round_aux_finite; lia.
  - apply binary_round_aux_sign; lia.
Qed.

End FloatArith.

Module FloatPrim.
Import FloatModel FloatFacts FloatRounding FloatArith.
Local Open Scope Z_scope.

Lemma Leibniz_eqb_false (x y : float) : x <> y -> Leibniz.eqb x y = false.
Proof.
  intros H. destruct (Leibniz.eqb x y) eqn:E; [|reflexivity].
  apply Leibniz.eqb_spec in E. contradiction.
Qed.

Lemma Leibniz_eqb_refl (x : float) : Leibniz.eqb x x = true.
Proof. now apply Leibniz.eqb_spec. Qed.

Lemma ord_infinity : ord infinity = 18446744073709551616.
Proof. reflexivity. Qed.

Lemma ord_neg_infinity : ord neg_infinity = -18446744073709551616.
Proof. reflexivity. Qed.

Lemma ord_finite_bounds (x : float) :
  is_finite x = true ->
  -18446744073709551616 < ord x < 18446744073709551616.
Proof.
  rewrite is_finite_spec. unfold ord. pose proof (Prim2SF_valid x) as V.
  destruct (Prim2SF x) as [s|s| |s m e]; try discriminate; intros _.
  - simpl. lia.
  - pose proof (valid_finite_bounds _ _ _ V) as (B & _).
    pose proof (valid_finite_mantissa _ _ _ V) as M.
    destruct s; cbn [sf_ord]; lia.
Qed.

Lemma sub_diag (x : float) : is_finite x = true -> (x - x)%float = 0%float.
Proof.
  rewrite is_finite_spec. intros F. apply Prim2SF_inj.
  rewrite sub_spec. unfold SF64sub. now rewrite SFsub_diag.
Qed.

Lemma sub_nonneg (v mn : float) :
  is_finite v = true -> is_finite mn = true -> (v <? mn)%float = false ->
  sf_nonneg (Prim2SF (v - mn)%float) = true.
Proof.
  intros Fv Fm Hlt.
  rewrite ltb_ord in Hlt by (now apply finite_not_nan).
  apply Z.ltb_ge in Hlt. rewrite is_finite_spec in Fv, Fm.
  rewrite sub_spec. apply SFsub_nonneg; auto using Prim2SF_valid.
Qed.

Lemma mul_zero_l (z : float) :
  sf_pos_finite (Prim2SF z) = true -> (0 * z)%float = 0%float.
Proof.
  intros Hz. apply Prim2SF_inj. rewrite mul_spec. unfold SF64mul.
  change (Prim2SF 0) with (S754_zero false). now apply SFmul_zero_l.
Qed.

Lemma nonneg_not_below_zero (h : float) :
  sf_is_nan (Prim2SF h) || sf_nonneg (Prim2SF h) = true ->
  (h <? 0)%float = false.
Proof.
  intros H. destruct (is_nan h) eqn:N.
  - now apply ltb_nan_l.
  - rewrite ltb_ord by (auto; reflexivity). apply Z.ltb_ge.
    change (ord 0) with 0. unfold ord.
    rewrite is_nan_spec in N. rewrite N in H. cbn [orb] in H.
    pose proof (Prim2SF_valid h) as V.
    destruct (Prim2SF h) as [s|[]| |[] m e]; try discriminate; cbn [sf_ord]; try lia.
    pose proof (valid_finite_bounds _ _ _ V) as (B & _). lia.
Qed.

Lemma mul_nonneg (a z : float) :
  sf_nonneg (Prim2SF a) = true -> sf_pos_finite (Prim2SF z) = true ->
  (a * z <? 0)%float = false.
Proof.
  intros Ha Hz. apply nonneg_not_below_zero.
  rewrite mul_spec. now apply SFmul_nonneg.
Qed.

(** A quotient [x / d] of a positive finite [x] by a [d] above a positive
    finite bound [b] whose exponent is not too far below that of [x] is
    [+0] or positive and finite. *)
Lemma div_pos_finite (x b d : float) mx ex mb eb :
  Prim2SF x = S754_finite false mx ex ->
  Prim2SF b = S754_finite false mb eb ->
  Zpos (digits2_pos mx) + ex - (1 + eb) <= 1022 ->
  (b <? d)%float = true ->
  sf_pos_finite (Prim2SF (x / d)%float) = true.
Proof.
  intros Hx Hb Hsize Hlt.
  assert (Nd : is_nan d = false).
  { destruct (is_nan d) eqn:N; [|reflexivity].
    now rewrite (ltb_nan_r b d N) in Hlt. }
  assert (Nb : is_nan b = false) by (rewrite is_nan_spec, Hb; reflexivity).
  rewrite ltb_ord in Hlt by assumption. apply Z.ltb_lt in Hlt.
  unfold ord in Hlt. rewrite Hb in Hlt. cbn [sf_ord] in Hlt.
  pose proof (Prim2SF_valid b) as Vb. rewrite Hb in Vb.
  pose proof (valid_finite_bounds _ _ _ Vb) as (Bb & _).
  pose proof (valid_finite_mantissa _ _ _ Vb) as Mb.
  pose proof (Prim2SF_valid d) as Vd.
  rewrite div_spec, Hx. unfold SF64div.
  rewrite is_nan_spec in Nd.
  destruct (Prim2SF d) as [s|[]| |[] m e]; try discriminate;
    cbn [sf_ord] in Hlt; try lia; try reflexivity.
  - pose proof (valid_finite_bounds _ _ _ Vd) as (Bd & _).
    pose proof (valid_finite_mantissa _ _ _ Vd) as Md. lia.
  - pose proof (valid_finite_bounds _ _ _ Vd) as (Bd & _).
    pose proof (valid_finite_mantissa _ _ _ Vd) as Md.
    assert (He : eb <= e) by lia.
    destruct (SFdiv_finite false mx ex false m e) as [Hf Hs]; [lia|].
    now apply signed_false_finite_pos.
Qed.

End FloatPrim.

Module FloatError.
Import FloatModel FloatFacts FloatRounding FloatArith.
Local Open Scope Z_scope.

(** ** Shifting right keeps the value and records where the lost part
    lies *)

Lemma loc_of_record_of_loc m l : loc_of_shr_record (shr_record_of_loc m l) = l.
Proof. destruct l as [|[]]; reflexivity. Qed.

Lemma shr_1_located (r : shr_record) (N D : Z) :
  0 <= shr_m r -> located (loc_of_shr_record r) N D ->
  exists N',
    located (loc_of_shr_record (shr_1 r)) N' (2 * D)
    /\ shr_m (shr_1 r) * (2 * D) + N' = shr_m r * D + N
    /\ 0 <= shr_m (shr_1 r).
Proof.
  destruct r as [m b c]. cbn [shr_m]. intros Hm [HN Hl].
  destruct m as [|p|p]; [| |lia].
  - exists N. destruct b, c; cbv [located loc_of_shr_record shr_1 shr_m orb] in Hl |- *; lia.
  - destruct p as [p|p|].
    + exists (D + N). destruct b, c; cbv [located loc_of_shr_record shr_1 shr_m orb] in Hl |- *; lia.
    + exists N. destruct b, c; cbv [located loc_of_shr_record shr_1 shr_m orb] in Hl |- *; lia.
    + exists (D + N). destruct b, c; cbv [located loc_of_shr_record shr_1 shr_m orb] in Hl |- *; lia.
Qed.

Lemma iter_shr_1_located (p : positive) :
  forall (r : shr_record) (N D : Z),
    0 <= shr_m r -> located (loc_of_shr_record r) N D ->
    exists N',
      located (loc_of_shr_record (SpecFloat.iter_pos shr_1 p r)) N' (2 ^ Zpos p * D)
      /\ shr_m (SpecFloat.iter_pos shr_1 p r) * (2 ^ Zpos p * D) + N' = shr_m r * D + N
      /\ 0 <= shr_m (SpecFloat.iter_pos shr_1 p r).
Proof.
  induction p as [p IH|p IH|]; intros r N D Hr Hl; cbn [SpecFloat.iter_pos].
  - destruct (shr_1_located r N D Hr Hl) as (N1 & L1 & E1 & P1).
    destruct (IH _ N1 _ P1 L1) as (N2 & L2 & E2 & P2).
    destruct (IH _ N2 _ P2 L2) as (N3 & L3 & E3 & P3).
    exists N3.
    replace (2 ^ Zpos p~1 * D) with (2 ^ Zpos p * (2 ^ Zpos p * (2 * D))).
    + split; [exact L3|]. split; [lia|exact P3].
    + replace (Zpos p~1) with (Zpos p + Zpos p + 1) by lia.
      rewrite !Z.pow_add_r by lia. change (2 ^ 1) with 2. ring.
  - destruct (IH r N D Hr Hl) as (N1 & L1 & E1 & P1).
    destruct (IH _ N1 _ P1 L1) as (N2 & L2 & E2 & P2).
    exists N2.
    replace (2 ^ Zpos p~0 * D) with (2 ^ Zpos p * (2 ^ Zpos p * D)).
    + split; [exact L2|]. split; [lia|exact P2].
    + replace (Zpos p~0) with (Zpos p + Zpos p) by lia.
      rewrite !Z.pow_add_r by lia. ring.
  - change (2 ^ 1) with 2. now apply shr_1_located.
Qed.

(** [shr_fexp m e l], for a value [(m + N / D) * 2 ^ e] whose fraction
    [N / D] lies at [l]: the exponent becomes
    [e' = max e (fexp (digits m + e))], and the value is
    [(m' + N' / D') * 2 ^ e'] with [D' = 2 ^ (e' - e) * D] and [N' / D']
    at the location the record holds. *)
Lemma shr_fexp_located m e l N D :
  0 <= m -> located l N D ->
  exists mrs e',
    shr_fexp prec emax m e l = (mrs, e')
    /\ e' = Z.max e (fexp prec emax (Zdigits2 m + e))
    /\ 0 <= shr_m mrs
    /\ exists N',
         located (loc_of_shr_record mrs) N' (2 ^ (e' - e) * D)
         /\ shr_m mrs * (2 ^ (e' - e) * D) + N' = m * D + N.
Proof.
  intros Hm Hl. unfold shr_fexp, shr.
  destruct (fexp prec emax (Zdigits2 m + e) - e) as [|p|p] eqn:Hn.
  - eexists. eexists. split; [reflexivity|]. split; [lia|].
    rewrite shr_m_of_loc, loc_of_record_of_loc. split; [exact Hm|].
    exists N. replace (e - e) with 0 by lia. change (2 ^ 0) with 1.
    rewrite Z.mul_1_l. split; [exact Hl|reflexivity].
  - destruct (iter_shr_1_located p (shr_record_of_loc m l) N D) as (N' & L & E & P).
    { now rewrite shr_m_of_loc. }
    { now rewrite loc_of_record_of_loc. }
    rewrite shr_m_of_loc in E.
    eexists. eexists. split; [reflexivity|]. split; [lia|]. split; [exact P|].
    exists N'. replace (e + Zpos p - e) with (Zpos p) by lia. split; assumption.
  - eexists. eexists. split; [reflexivity|]. split; [lia|].
    rewrite shr_m_of_loc, loc_of_record_of_loc. split; [exact Hm|].
    exists N. replace (e - e) with 0 by lia. change (2 ^ 0) with 1.
    rewrite Z.mul_1_l. split; [exact Hl|reflexivity].
Qed.

(** Rounding to nearest moves the value by at most one half. *)
Lemma round_nearest_even_located m l N D :
  0 <= m -> located l N D ->
  m <= round_nearest_even m l <= m + 1
  /\ - D <= 2 * (round_nearest_even m l * D - (m * D + N)) <= D.
Proof.
  intros Hm [HN Hl]. unfold round_nearest_even.
  destruct l as [|[]]; try lia. destruct (Z.even m); lia.
Qed.

Lemma fexp_le a b : a <= b -> fexp prec emax a <= fexp prec emax b.
Proof. unfold fexp, SpecFloat.emin, prec, emax. lia. Qed.

Lemma pow2_digits (a : Z) : 0 < a -> 2 ^ (Zdigits2 a - 1) <= a < 2 ^ Zdigits2 a.
Proof.
  intros Ha. rewrite Zdigits2_log2 by exact Ha.
  replace (Z.log2 a + 1 - 1) with (Z.log2 a) by lia.
  pose proof (Z.log2_spec a Ha) as H. unfold Z.succ in H. exact H.
Qed.

Lemma digits_unique (a d : Z) : 0 < d -> 2 ^ (d - 1) <= a < 2 ^ d -> Zdigits2 a = d.
Proof.
  intros Hd [H1 H2].
  assert (0 < a).
  { assert (0 < 2 ^ (d - 1)) by (apply Z.pow_pos_nonneg; lia). lia. }
  rewrite Zdigits2_log2 by assumption.
  assert (E : Z.log2 a = d - 1).
  { apply Z.log2_unique; [lia|]. unfold Z.succ.
    replace (d - 1 + 1) with d by lia. split; assumption. }
  lia.
Qed.

(** ** The error of [binary_round_aux]

    The value rounded is [(m + N / D) * 2 ^ e], with [N / D] at [l].
    When the result is a finite number [p * 2 ^ e''], it differs from
    the value by at most half a unit of the exponent
    [e1 = max e (fexp (digits m + e))] at which the rounding is done, and
    [e''] is [e1] or [e1 + 1]. In the inequality both sides are scaled
    by [D * 2 ^ (- e)]. *)
Lemma binary_round_aux_error s m e l N D :
  0 <= m -> located l N D ->
  let e1 := Z.max e (fexp prec emax (Zdigits2 m + e)) in
  match binary_round_aux prec emax s m e l with
  | S754_finite _ p e'' =>
      e1 <= e'' <= e1 + 1
      /\ - (2 ^ (e1 - e) * D)
         <= 2 * (Zpos p * 2 ^ (e'' - e) * D - (m * D + N))
         <= 2 ^ (e1 - e) * D
  | S754_zero _ => 2 * (m * D + N) <= 2 ^ (e1 - e) * D
  | _ => True
  end.
Proof.
  intros Hm Hl e1. unfold binary_round_aux.
  destruct (shr_fexp_located m e l N D Hm Hl)
    as (mrs' & e' & -> & He' & Hm' & N' & L' & E').
  fold e1 in He'. subst e'.
  set (m' := shr_m mrs') in *.
  set (D' := 2 ^ (e1 - e) * D) in *.
  destruct (round_nearest_even_located m' _ N' D' Hm' L') as [Hr Herr].
  set (m1 := round_nearest_even m' (loc_of_shr_record mrs')) in *.
  assert (HD : 0 < D) by (destruct Hl; lia).
  assert (Hk : 0 <= e1 - e) by lia.
  assert (Hpk : 0 < 2 ^ (e1 - e)) by (apply Z.pow_pos_nonneg; lia).
  destruct (shr_fexp_located m1 e1 loc_Exact 0 1) as (mrs'' & e'' & -> & He'' & Hm'' & N'' & L'' & E'');
    [lia|unfold located; lia|].
  set (m2 := shr_m mrs'') in *.
  (* the second shift is by one place at most, and loses nothing *)
  assert (Hfe : fexp prec emax (Zdigits2 m' + e1) <= e1).
  { destruct (Z.eq_dec m' 0) as [E0|E0].
    - rewrite E0. cbn [Zdigits2]. unfold e1, fexp, SpecFloat.emin, prec, emax. lia.
    - assert (Zdigits2 m' + (e1 - e) <= Zdigits2 m).
      { apply Zdigits2_shifted; try lia.
        destruct L' as [HN' _]. destruct Hl as [HN _]. unfold D' in *.
        assert (H1 : m' * 2 ^ (e1 - e) * D < (m + 1) * D) by lia.
        apply Z.mul_lt_mono_pos_r in H1; lia. }
      pose proof (fexp_le (Zdigits2 m' + e1) (Zdigits2 m + e) ltac:(lia)). lia. }
  assert (Hd1 : Zdigits2 m1 <= Zdigits2 m' + 1).
  { pose proof (Zdigits2_le m1 (m' + 1) ltac:(lia)).
    pose proof (Zdigits2_succ m' Hm'). lia. }
  assert (He2 : e1 <= e'' <= e1 + 1).
  { rewrite He''. unfold fexp, SpecFloat.emin, prec, emax in *. lia. }
  assert (Hexact : m2 * 2 ^ (e'' - e1) = m1).
  { destruct L'' as [HN'' _]. rewrite !Z.mul_1_r in *.
    destruct (Z.eq_dec e'' e1) as [Ee|Ee].
    - rewrite Ee in *. replace (e1 - e1) with 0 in * by lia.
      change (2 ^ 0) with 1 in *. lia.
    - assert (Ee1 : e'' = e1 + 1) by lia.
      replace (e'' - e1) with 1 in * by lia. change (2 ^ 1) with 2 in *.
      (* the mantissa grew by one digit: it is a power of two *)
      assert (Hdig : Zdigits2 m' < Zdigits2 m1).
      { destruct (Z_lt_le_dec (Zdigits2 m') (Zdigits2 m1)) as [H|H]; [exact H|].
        pose proof (fexp_le (Zdigits2 m1 + e1) (Zdigits2 m' + e1) ltac:(lia)). lia. }
      assert (Hm'pos : 0 < m').
      { destruct (Z.eq_dec m' 0) as [E0|E0]; [|lia].
        assert (m1 = 0 \/ m1 = 1) as [E1|E1] by lia; rewrite E1, E0 in *;
          cbn [Zdigits2 digits2_pos] in *;
          unfold e1, fexp, SpecFloat.emin, prec, emax in *; lia. }
      pose proof (pow2_digits m' Hm'pos) as [_ Hup].
      assert (Hm1 : 0 < m1) by lia.
      pose proof (pow2_digits m1 Hm1) as [Hlow _].
      assert (Ed : Zdigits2 m1 = Zdigits2 m' + 1) by lia.
      rewrite Ed in Hlow. replace (Zdigits2 m' + 1 - 1) with (Zdigits2 m') in Hlow by lia.
      assert (Hdpos : 0 < Zdigits2 m').
      { rewrite Zdigits2_log2 by lia. pose proof (Z.log2_nonneg m'). lia. }
      assert (Hpow : 2 ^ Zdigits2 m' = 2 * 2 ^ (Zdigits2 m' - 1)).
      { rewrite <- Z.pow_succ_r by lia. f_equal. lia. }
      lia. }
  destruct m2 as [|p|p] eqn:Em2; [| |lia].
  - (* zero *)
    assert (m1 = 0) by lia. fold D'. lia.
  - replace (e'' <=? emax - prec) with (e'' <=? 971) by reflexivity.
    destruct (e'' <=? 971); [|exact I].
    split; [exact He2|].
    assert (Hsplit : 2 ^ (e'' - e) = 2 ^ (e'' - e1) * 2 ^ (e1 - e)).
    { rewrite <- Z.pow_add_r by lia. f_equal. lia. }
    rewrite Hsplit.
    replace (Zpos p * (2 ^ (e'' - e1) * 2 ^ (e1 - e)) * D) with (m1 * D')
      by (unfold D'; rewrite <- Hexact; ring).
    fold D'. lia.
Qed.

(** ** Division *)

Lemma new_location_located nb k : 0 <= k < nb -> located (new_location nb k) k nb.
Proof.
  intros Hk. unfold new_location, new_location_even, new_location_odd, located.
  split; [exact Hk|].
  destruct (Z.even nb) eqn:Ev.
  - destruct (Z.eqb_spec k 0); [assumption|].
    destruct (Z.compare_spec (2 * k) nb); lia.
  - destruct (Z.eqb_spec k 0); [assumption|].
    assert (Hodd : Z.odd nb = true) by (rewrite <- Z.negb_even, Ev; reflexivity).
    apply Z.odd_spec in Hodd as [a Ha].
    destruct (Z.compare_spec (2 * k + 1) nb); lia.
Qed.

(** The quotient and the location that [SFdiv_core_binary] hands to the
    rounding: [m1 * 2 ^ s = q * m2 + r], with [r / m2] at [l]. *)
Lemma SFdiv_core_located m1 e1 m2 e2 :
  0 < m1 -> 0 < m2 ->
  let e' := Z.min (fexp prec emax (Zdigits2 m1 + e1 - (Zdigits2 m2 + e2))) (e1 - e2) in
  exists q r l,
    SFdiv_core_binary prec emax m1 e1 m2 e2 = (q, e', l)
    /\ q * m2 + r = m1 * 2 ^ (e1 - e2 - e')
    /\ 0 <= q
    /\ located l r m2.
Proof.
  intros H1 H2 e'. unfold SFdiv_core_binary. fold e'.
  set (s := e1 - e2 - e').
  set (m' := match s with
             | 0 => m1
             | Zpos _ => Z.shiftl m1 s
             | Zneg _ => 0
             end).
  assert (Hs : 0 <= s) by (unfold s, e'; lia).
  assert (Hm' : m' = m1 * 2 ^ s).
  { unfold m'. destruct s as [|p|p] eqn:Es; [simpl; lia| |lia].
    apply Z.shiftl_mul_pow2. lia. }
  assert (Hpow : 0 < 2 ^ s) by (apply Z.pow_pos_nonneg; lia).
  pose proof (Z_div_mod m' m2 ltac:(lia)) as Hdm.
  destruct (Z.div_eucl m' m2) as [q r].
  destruct Hdm as [Hdm Hr].
  assert (Hq : 0 <= q) by nia.
  exists q, r, (new_location m2 r). split; [reflexivity|].
  split; [rewrite <- Hm'; lia|]. split; [exact Hq|].
  now apply new_location_located.
Qed.

Lemma digits_between (a lo hi : Z) :
  0 < lo -> 2 ^ (lo - 1) <= a < 2 ^ hi -> lo <= Zdigits2 a <= hi.
Proof.
  intros Hlo [H1 H2].
  assert (Hp : 0 < 2 ^ (lo - 1)) by (apply Z.pow_pos_nonneg; lia).
  assert (Ha : 0 < a) by lia.
  rewrite Zdigits2_log2 by exact Ha.
  pose proof (Z.log2_le_mono _ _ H1) as L1. rewrite Z.log2_pow2 in L1 by lia.
  assert (L2 : Z.log2 a < hi).
  { destruct (Z_lt_le_dec (Z.log2 a) hi) as [H|H]; [exact H|].
    pose proof (Z.log2_spec a Ha) as [Hl _].
    assert (2 ^ hi <= 2 ^ Z.log2 a) by (apply Z.pow_le_mono_r; lia). lia. }
  lia.
Qed.

End FloatError.

Module FloatScale.
Import FloatModel FloatFacts FloatRounding FloatArith FloatError.
Local Open Scope Z_scope.

Ltac pow2_at e k :=
  replace e with k in * by lia;
  let v := eval vm_compute in (2 ^ k) in change (2 ^ k) with v in *.

Lemma normal_mantissa s m e :
  valid_binary (S754_finite s m e) = true -> -1074 < e ->
  Zpos (digits2_pos m) = 53 /\ 4503599627370496 <= Zpos m < 9007199254740992.
Proof.
  intros V He. destruct (valid_finite_bounds _ _ _ V) as (_ & _ & Dn).
  specialize (Dn He). split; [exact Dn|].
  pose proof (pow2_digits_le m) as H1. pose proof (pos_lt_pow2_digits m) as H2.
  rewrite Dn in H1, H2. exact (conj H1 H2).
Qed.

(** [r * (0.3 / r)] for a positive normal [r] of exponent at least -72
    (as every number above 1e-6 has): the result is 0.3 up to 8 units
    in the last place, and up to 1 unit when [r] is below [2 ^ 1020],
    where the quotient is a normal number. *)
Lemma visual_scale_back (r : float) mr er :
  Prim2SF r = S754_finite false mr er -> -72 <= er ->
  exists mh,
    Prim2SF (r * (0.3 / r))%float = S754_finite false mh (-54)
    /\ 5404319552844595 - 8 <= Zpos mh <= 5404319552844595 + 8
    /\ (er <= 967 -> 5404319552844595 - 1 <= Zpos mh <= 5404319552844595 + 1).
Proof.
  intros Hr Her.
  pose proof (Prim2SF_valid r) as V. rewrite Hr in V.
  destruct (valid_finite_bounds _ _ _ V) as (B & _ & _).
  destruct (normal_mantissa _ _ _ V ltac:(lia)) as [Dn Mr].
  pose proof (Prim2SF_valid (r * (0.3 / r))%float) as Vh.
  rewrite mul_spec, div_spec, Hr in Vh |- *.
  change (Prim2SF 0.3) with (S754_finite false 5404319552844595 (-54)) in Vh |- *.
  unfold SF64mul, SF64div in Vh |- *. cbn [SFdiv xorb] in Vh |- *.
  destruct (SFdiv_core_located 5404319552844595 (-54) (Zpos mr) er)
    as (q0 & rem & l & Hcore & Hqr & Hq0 & Hloc); [lia|lia|].
  cbn [Zdigits2] in Hcore, Hqr. rewrite Dn in Hcore, Hqr.
  change (Zpos (digits2_pos 5404319552844595)) with 53 in Hcore, Hqr.
  set (e' := Z.min (fexp prec emax (53 + -54 - (53 + er))) (-54 - er)) in *.
  rewrite Hcore in Vh |- *. clear Hcore.
  set (s := -54 - er - e') in *.
  assert (Hs : (er <= 967 /\ s = 53 /\ e' = -107 - er)
               \/ (er = 968 /\ s = 52 /\ e' = -1074)
               \/ (er = 969 /\ s = 51 /\ e' = -1074)
               \/ (er = 970 /\ s = 50 /\ e' = -1074)
               \/ (er = 971 /\ s = 49 /\ e' = -1074)).
  { unfold s, e', fexp, SpecFloat.emin, prec, emax. lia. }
  destruct Hloc as [Hrem Hloc']. pose proof (conj Hrem Hloc' : located l rem (Zpos mr)) as Hloc.
  (* the quotient before rounding has s or s + 1 digits *)
  assert (Hq0b : 2 ^ (s - 1) <= q0 < 2 ^ (s + 1)).
  { destruct Hs as [(_ & Es & _)|[(_ & Es & _)|[(_ & Es & _)|[(_ & Es & _)|(_ & Es & _)]]]];
      rewrite Es in *;
      match goal with
      | |- 2 ^ ?a <= _ < 2 ^ ?b =>
          let va := eval vm_compute in (2 ^ a) in
          let vb := eval vm_compute in (2 ^ b) in
          change (2 ^ a) with va; change (2 ^ b) with vb
      end;
      match type of Hqr with
      | context [2 ^ ?a] =>
          let va := eval vm_compute in (2 ^ a) in change (2 ^ a) with va in Hqr
      end; nia. }
  assert (Hdq : s <= Zdigits2 q0 <= s + 1).
  { apply digits_between; [lia|exact Hq0b]. }
  set (dq := Zdigits2 q0) in *.
  assert (Hq0pos : 0 < q0).
  { assert (0 < 2 ^ (s - 1)) by (apply Z.pow_pos_nonneg; lia). lia. }
  pose proof (binary_round_aux_error false q0 e' l rem (Zpos mr) Hq0 Hloc) as Herr.
  cbn zeta in Herr. fold dq in Herr.
  pose proof (binary_round_aux_finite false q0 e' l Hq0) as Hfin.
  pose proof (binary_round_aux_sign false q0 e' l Hq0) as Hsign.
  fold dq in Hfin.
  set (e1q := Z.max e' (fexp prec emax (dq + e'))) in *.
  assert (Hk : (e1q = e' /\ dq = s) \/ (e1q = e' /\ dq = s + 1 /\ s < 53)
               \/ (e1q = e' + 1 /\ dq = 54 /\ s = 53)).
  { unfold e1q, fexp, SpecFloat.emin, prec, emax. lia. }
  specialize (Hfin ltac:(lia) ltac:(lia)).
  destruct (binary_round_aux prec emax false q0 e' l) as [sq|sq| |sq mq eq];
    try discriminate Hfin.
  { (* the quotient is not zero *)
    exfalso. rewrite Hqr in Herr.
    destruct Hs as [(_ & Es & _)|[(_ & Es & _)|[(_ & Es & _)|[(_ & Es & _)|(_ & Es & _)]]]];
      rewrite Es in *;
      destruct Hk as [(Ek & _)|[(Ek & _)|(Ek & _)]];
      try (pow2_at (e1q - e') 0); try (pow2_at (e1q - e') 1);
      match type of Herr with
      | context [2 ^ ?a] =>
          let va := eval vm_compute in (2 ^ a) in change (2 ^ a) with va in Herr
      end; lia. }
  cbn [sf_signed] in Hsign. destruct sq; [discriminate Hsign|]. clear Hsign Hfin.
  cbn [SFmul xorb] in Vh |- *.
  destruct Herr as [Heq Herr]. rewrite Hqr in Herr.
  (* the product *)
  rewrite Pos2Z.inj_mul in Vh |- *.
  set (T := Zpos mr * Zpos mq) in *.
  assert (HT : 0 <= T) by (unfold T; lia).
  pose proof (binary_round_aux_error false T (er + eq) loc_Exact 0 1 HT) as Herr2.
  specialize (Herr2 ltac:(unfold located; lia)). cbn zeta in Herr2.
  pose proof (binary_round_aux_finite false T (er + eq) loc_Exact HT) as Hfin2.
  pose proof (binary_round_aux_sign false T (er + eq) loc_Exact HT) as Hsign2.
  assert (Hcase :
    exists a ka, eq - e' = a /\ e1q - e' = ka /\ 0 <= ka <= a /\ a <= ka + 1 /\ ka <= 1
                 /\ (ka = 1 -> s = 53 /\ 9007199254740992 <= q0)).
  { exists (eq - e'), (e1q - e').
    split; [reflexivity|]. split; [reflexivity|].
    split; [lia|]. split; [lia|]. split; [lia|].
    intros Hka. destruct Hk as [(Ek & _)|[(Ek & _)|(Ek & Ed & Es)]]; try lia.
    split; [exact Es|].
    pose proof (pow2_digits q0 Hq0pos) as [Hlow _]. fold dq in Hlow.
    rewrite Ed in Hlow. exact Hlow. }
  destruct Hcase as (a & ka & Ea & Eka & Hka0 & Hka1 & Hka2 & Hka3).
  rewrite Eka in Herr.
  replace (Zpos mq * 2 ^ (eq - e') * Zpos mr) with (T * 2 ^ a) in Herr
    by (rewrite Ea; unfold T; ring).
  (* the digits of the product *)
  assert (HTd : Zdigits2 T = 53 + s - a
                /\ - (2 ^ ka * Zpos mr) <= 2 * (T * 2 ^ a - 5404319552844595 * 2 ^ s)
                   <= 2 ^ ka * Zpos mr).
  { split; [|exact Herr]. apply digits_unique; [lia|].
    assert (Ha : a = 0 \/ a = 1 \/ a = 2) by lia.
    assert (Hkab : ka = 0 \/ ka = 1) by lia.
    destruct Hs as [(_ & Es & _)|[(_ & Es & _)|[(_ & Es & _)|[(_ & Es & _)|(_ & Es & _)]]]];
      rewrite Es in *;
      destruct Ha as [Ea'|[Ea'|Ea']]; rewrite Ea' in *;
      destruct Hkab as [Ek'|Ek']; rewrite Ek' in *; try lia;
      repeat match goal with
      | H : context [2 ^ ?k] |- _ =>
          let v := eval vm_compute in (2 ^ k) in change (2 ^ k) with v in H
      | |- context [2 ^ ?k] =>
          let v := eval vm_compute in (2 ^ k) in change (2 ^ k) with v
      end; lia. }
  destruct HTd as [HTd _]. rewrite HTd in Herr2, Hfin2.
  assert (Hexp : er + eq = -54 - s + a) by (unfold s in *; lia).
  assert (He1h : Z.max (er + eq) (fexp prec emax (53 + s - a + (er + eq))) = -54).
  { unfold fexp, SpecFloat.emin, prec, emax. lia. }
  rewrite He1h in Herr2.
  specialize (Hfin2 ltac:(lia) ltac:(lia)).
  destruct (binary_round_aux prec emax false T (er + eq) loc_Exact) as [sh|sh| |sh mh eh];
    try discriminate Hfin2.
  { (* the product is not zero *)
    exfalso.
    assert (Ha : a = 0 \/ a = 1 \/ a = 2) by lia.
    assert (Hkab : ka = 0 \/ ka = 1) by lia.
    rewrite !Z.mul_1_r, Z.add_0_r in Herr2.
    replace (-54 - (er + eq)) with (s - a) in Herr2 by lia.
    destruct Hs as [(_ & Es & _)|[(_ & Es & _)|[(_ & Es & _)|[(_ & Es & _)|(_ & Es & _)]]]];
      rewrite Es in *;
      destruct Ha as [Ea'|[Ea'|Ea']]; rewrite Ea' in *;
      destruct Hkab as [Ek'|Ek']; rewrite Ek' in *; try lia;
      repeat match goal with
      | H : context [2 ^ ?k] |- _ =>
          let v := eval vm_compute in (2 ^ k) in change (2 ^ k) with v in H
      end; lia. }
  cbn [sf_signed] in Hsign2. destruct sh; [discriminate Hsign2|].
  destruct Herr2 as [Heh Herr2].
  rewrite !Z.mul_1_r, Z.add_0_r in Herr2.
  replace (-54 - (er + eq)) with (s - a) in Herr2 by lia.
  assert (Hmh : eh = -54 /\ 5404319552844595 - 8 <= Zpos mh <= 5404319552844595 + 8
                /\ (er <= 967 -> 5404319552844595 - 1 <= Zpos mh <= 5404319552844595 + 1)).
  { destruct (normal_mantissa _ _ _ Vh ltac:(lia)) as [_ Mh].
    assert (Ha : a = 0 \/ a = 1 \/ a = 2) by lia.
    assert (Hkab : ka = 0 \/ ka = 1) by lia.
    assert (Heh' : eh = -54 \/ eh = -53) by lia.
    destruct Hs as [(Hle & Es & He')|[(Hle & Es & He')|[(Hle & Es & He')|[(Hle & Es & He')|(Hle & Es & He')]]]];
      rewrite Es in *;
      destruct Ha as [Ea'|[Ea'|Ea']]; rewrite Ea' in *;
      destruct Hkab as [Ek'|Ek']; rewrite Ek' in *; try lia;
      destruct Heh' as [Eh|Eh]; rewrite Eh in *;
      try (replace (-54 - (er + eq)) with (s - a) in Herr2 by lia);
      try (replace (-53 - (er + eq)) with (s - a + 1) in Herr2 by lia);
      rewrite ?Es, ?Ea' in Herr2;
      repeat match goal with
      | H : context [2 ^ ?k] |- _ =>
          let v := eval vm_compute in (2 ^ k) in change (2 ^ k) with v in H
      end;
      try (specialize (Hka3 eq_refl)); nia. }
  destruct Hmh as (-> & Hb8 & Hb1).
  exists mh. split; [reflexivity|]. split; assumption.
Qed.

End FloatScale.

Module FloatSum.
Import FloatModel FloatFacts FloatRounding FloatArith FloatError.
Local Open Scope Z_scope.

(** ** Alignment *)

Lemma shl_align_snd m e e' : e' <= e -> snd (shl_align m e e') = e'.
Proof.
  intros Hle. unfold shl_align.
  destruct (e' - e) as [|p|p] eqn:Hd; cbn [snd]; lia.
Qed.

Lemma shl_align_above m e e' : e <= e' -> shl_align m e e' = (m, e).
Proof.
  intros Hle. unfold shl_align.
  destruct (e' - e) as [|p|p] eqn:Hd; [reflexivity|reflexivity|lia].
Qed.

(** ** The error of a rounding without lost bits before it

    [binary_round s p e] rounds [p * 2 ^ e]: the result differs from it
    by at most [2 ^ (-53)] times it, and is not zero. *)
Lemma binary_round_error s p e :
  -1074 <= e ->
  match binary_round prec emax s p e with
  | S754_finite _ p' e' =>
      -1074 <= e'
      /\ 2 ^ 53 * Z.abs (Zpos p' * 2 ^ (e' + 1074) - Zpos p * 2 ^ (e + 1074))
         <= Zpos p * 2 ^ (e + 1074)
  | S754_zero _ => False
  | _ => True
  end.
Proof.
  intros He. unfold binary_round.
  set (f := fexp prec emax (Zpos (digits2_pos p) + e)).
  assert (Hf : -1074 <= f) by (unfold f, fexp, SpecFloat.emin, prec, emax; lia).
  destruct (shl_align p e f) as [mz ez] eqn:Hal.
  assert (Hmz : Zpos mz * 2 ^ (ez + 1074) = Zpos p * 2 ^ (e + 1074)
                /\ ez = Z.min e f
                /\ Zdigits2 (Zpos mz) + ez = Zpos (digits2_pos p) + e).
  { destruct (Z_le_gt_dec f e) as [Hle|Hgt].
    - pose proof (shl_align_le p e f Hle) as H1.
      pose proof (shl_align_snd p e f Hle) as H2.
      rewrite Hal in H1, H2. cbn [fst snd] in H1, H2. subst ez.
      split; [|split; [lia|]].
      + rewrite H1, <- Z.mul_assoc, <- Z.pow_add_r by lia. do 2 f_equal. lia.
      + assert (Hd : Zdigits2 (Zpos mz) = Zpos (digits2_pos p) + (e - f)).
        { rewrite H1. rewrite Zdigits2_log2 by (apply Z.mul_pos_pos; [lia|apply Z.pow_pos_nonneg; lia]).
          rewrite Z.log2_mul_pow2 by lia. rewrite digits2_log2. lia. }
        lia.
    - rewrite shl_align_above in Hal by lia. injection Hal as <- <-.
      split; [reflexivity|]. split; [lia|reflexivity]. }
  destruct Hmz as (Hval & Hez & Hdig).
  pose proof (binary_round_aux_error s (Zpos mz) ez loc_Exact 0 1) as Herr.
  specialize (Herr ltac:(lia) ltac:(unfold located; lia)).
  cbn zeta in Herr. rewrite Hdig in Herr. fold f in Herr.
  set (e1 := Z.max ez f) in *.
  assert (Hpz : 0 < 2 ^ (ez + 1074)) by (apply Z.pow_pos_nonneg; lia).
  (* half a unit of the rounding exponent is at most 2^-53 of the value *)
  assert (Hhalf : 2 ^ 53 * 2 ^ (e1 - ez) <= 2 * Zpos mz \/ e1 = ez).
  { destruct (Z.eq_dec e1 ez) as [E|Hne]; [now right|left].
    assert (Ef : e1 = f /\ ez = e /\ e < f) by (unfold e1 in *; lia).
    destruct Ef as (Ef & Ee & Hlt). subst ez.
    assert (Hfe : f = Zpos (digits2_pos p) + e - 53).
    { unfold f, fexp, SpecFloat.emin, prec, emax in *. lia. }
    assert (Hmzp : mz = p).
    { rewrite shl_align_above in Hal by lia. now injection Hal. }
    subst mz.
    match goal with
    | |- 2 ^ 53 * 2 ^ ?k <= _ =>
        replace k with (Zpos (digits2_pos p) - 53) by lia
    end.
    pose proof (pow2_digits_le p) as Hlow.
    assert (Hd53 : 53 < Zpos (digits2_pos p)) by lia.
    assert (E : 2 ^ 53 * 2 ^ (Zpos (digits2_pos p) - 53)
                = 2 * 2 ^ (Zpos (digits2_pos p) - 1)).
    { rewrite <- Z.pow_add_r by lia.
      replace (53 + (Zpos (digits2_pos p) - 53)) with (1 + (Zpos (digits2_pos p) - 1))
        by lia.
      rewrite Z.pow_add_r by lia. reflexivity. }
    rewrite E. lia. }
  destruct (binary_round_aux prec emax s (Zpos mz) ez loc_Exact) as [s'|s'| |s' p' e'];
    try exact I.
  - (* zero *)
    rewrite Z.mul_1_r, Z.add_0_r in Herr.
    destruct Hhalf as [Hh|Hh].
    + assert (0 < 2 ^ (e1 - ez)) by (apply Z.pow_pos_nonneg; unfold e1; lia).
      change (2 ^ 53) with 9007199254740992 in Hh. lia.
    + rewrite Hh, Z.sub_diag in Herr. change (2 ^ 0) with 1 in Herr. lia.
  - destruct Herr as [He' Herr]. rewrite !Z.mul_1_r, Z.add_0_r in Herr.
    split; [unfold e1 in *; lia|].
    rewrite <- Hval.
    assert (Hsplit : 2 ^ (e' + 1074) = 2 ^ (e' - ez) * 2 ^ (ez + 1074)).
    { rewrite <- Z.pow_add_r by (unfold e1 in *; lia). f_equal. lia. }
    rewrite Hsplit.
    replace (Zpos p' * (2 ^ (e' - ez) * 2 ^ (ez + 1074)) - Zpos mz * 2 ^ (ez + 1074))
      with ((Zpos p' * 2 ^ (e' - ez) - Zpos mz) * 2 ^ (ez + 1074)) by ring.
    rewrite Z.abs_mul, (Z.abs_eq (2 ^ (ez + 1074))) by lia.
    rewrite Z.mul_assoc. apply Z.mul_le_mono_nonneg_r; [lia|].
    destruct Hhalf as [Hh|Hh].
    + assert (0 < 2 ^ (e1 - ez)) by (apply Z.pow_pos_nonneg; unfold e1; lia).
      change (2 ^ 53) with 9007199254740992 in *. lia.
    + rewrite Hh, Z.sub_diag in Herr. change (2 ^ 0) with 1 in Herr.
      replace (Zpos p' * 2 ^ (e' - ez) - Zpos mz) with 0 by lia. simpl. lia.
Qed.

Lemma binary_round_units s p e :
  -1074 <= e ->
  sf_is_finite (binary_round prec emax s p e) = true ->
  2 ^ 53 * Z.abs (sf_units (binary_round prec emax s p e)
                  - cond_Zopp s (Zpos p * 2 ^ (e + 1074)))
  <= Zpos p * 2 ^ (e + 1074).
Proof.
  intros He Hfin.
  pose proof (binary_round_error s p e He) as Herr.
  pose proof (binary_round_sign s p e) as Hsign.
  destruct (binary_round prec emax s p e) as [s'|s'| |s' p' e'];
    try discriminate Hfin; [contradiction|].
  cbn [sf_signed] in Hsign. apply Bool.eqb_prop in Hsign. subst s'.
  destruct Herr as [_ Herr]. cbn [sf_units].
  destruct s; cbn [cond_Zopp]; [|exact Herr].
  replace (- (Zpos p' * 2 ^ (e' + 1074)) - - (Zpos p * 2 ^ (e + 1074)))
    with (- (Zpos p' * 2 ^ (e' + 1074) - Zpos p * 2 ^ (e + 1074))) by ring.
  now rewrite Z.abs_opp.
Qed.

Lemma binary_normalize_units m e :
  -1074 <= e ->
  sf_is_finite (binary_normalize prec emax m e false) = true ->
  2 ^ 53 * Z.abs (sf_units (binary_normalize prec emax m e false) - m * 2 ^ (e + 1074))
  <= Z.abs (m * 2 ^ (e + 1074)).
Proof.
  intros He Hfin.
  assert (Hp : 0 < 2 ^ (e + 1074)) by (apply Z.pow_pos_nonneg; lia).
  destruct m as [|p|p]; cbn [binary_normalize] in *.
  - cbn [sf_units]. rewrite Z.mul_0_l. simpl. lia.
  - pose proof (binary_round_units false p e He Hfin) as H.
    cbn [cond_Zopp] in H.
    rewrite (Z.abs_eq (Zpos p * 2 ^ (e + 1074)))
      by (apply Z.mul_nonneg_nonneg; lia).
    exact H.
  - pose proof (binary_round_units true p e He Hfin) as H.
    cbn [cond_Zopp] in H.
    replace (Zneg p * 2 ^ (e + 1074)) with (- (Zpos p * 2 ^ (e + 1074))) by lia.
    rewrite Z.abs_opp, (Z.abs_eq (Zpos p * 2 ^ (e + 1074)))
      by (apply Z.mul_nonneg_nonneg; lia).
    exact H.
Qed.

(** ** Sums and differences *)

Lemma aligned_units s m e ez :
  ez <= e -> -1074 <= ez ->
  cond_Zopp s (Zpos (fst (shl_align m e ez))) * 2 ^ (ez + 1074)
  = sf_units (S754_finite s m e).
Proof.
  intros Hle Hez. rewrite shl_align_le by exact Hle. cbn [sf_units].
  assert (E : 2 ^ (e + 1074) = 2 ^ (e - ez) * 2 ^ (ez + 1074)).
  { rewrite <- Z.pow_add_r by lia. f_equal. lia. }
  rewrite E. destruct s; cbn [cond_Zopp]; ring.
Qed.

Lemma SFadd_units x y :
  valid_binary x = true -> valid_binary y = true ->
  sf_is_finite x = true -> sf_is_finite y = true ->
  sf_is_finite (SFadd prec emax x y) = true ->
  2 ^ 53 * Z.abs (sf_units (SFadd prec emax x y) - (sf_units x + sf_units y))
  <= Z.abs (sf_units x + sf_units y).
Proof.
  intros Vx Vy Fx Fy Fr.
  destruct x as [sx|sx| |sx mx ex]; try discriminate Fx;
    destruct y as [sy|sy| |sy my ey]; try discriminate Fy.
  - destruct sx, sy; cbn; lia.
  - cbn [SFadd sf_units]. rewrite Z.add_0_l, Z.sub_diag. simpl. lia.
  - cbn [SFadd sf_units]. rewrite Z.add_0_r, Z.sub_diag. simpl. lia.
  - cbn [SFadd] in *.
    pose proof (valid_finite_bounds _ _ _ Vx) as (Bx & _).
    pose proof (valid_finite_bounds _ _ _ Vy) as (By & _).
    set (ez := Z.min ex ey) in *.
    rewrite <- (aligned_units sx mx ex ez), <- (aligned_units sy my ey ez)
      by (unfold ez; lia).
    rewrite <- Z.mul_add_distr_r.
    apply binary_normalize_units; [unfold ez; lia|exact Fr].
Qed.

Lemma SFsub_units x y :
  valid_binary x = true -> valid_binary y = true ->
  sf_is_finite x = true -> sf_is_finite y = true ->
  sf_is_finite (SFsub prec emax x y) = true ->
  2 ^ 53 * Z.abs (sf_units (SFsub prec emax x y) - (sf_units x - sf_units y))
  <= Z.abs (sf_units x - sf_units y).
Proof.
  intros Vx Vy Fx Fy Fr.
  destruct x as [sx|sx| |sx mx ex]; try discriminate Fx;
    destruct y as [sy|sy| |sy my ey]; try discriminate Fy.
  - destruct sx, sy; cbn; lia.
  - cbn [SFsub sf_units]. rewrite Z.sub_0_l.
    replace (cond_Zopp (negb sy) (Zpos my * 2 ^ (ey + 1074))
             - - cond_Zopp sy (Zpos my * 2 ^ (ey + 1074))) with 0
      by (destruct sy; cbn [negb cond_Zopp]; ring).
    simpl. lia.
  - cbn [SFsub sf_units]. rewrite Z.sub_0_r, Z.sub_diag. simpl. lia.
  - cbn [SFsub] in *.
    pose proof (valid_finite_bounds _ _ _ Vx) as (Bx & _).
    pose proof (valid_finite_bounds _ _ _ Vy) as (By & _).
    set (ez := Z.min ex ey) in *.
    rewrite <- (aligned_units sx mx ex ez), <- (aligned_units sy my ey ez)
      by (unfold ez; lia).
    rewrite <- Z.mul_sub_distr_r.
    apply binary_normalize_units; [unfold ez; lia|exact Fr].
Qed.

Lemma add_units (x y : float) :
  is_finite x = true -> is_finite y = true -> is_finite (x + y)%float = true ->
  2 ^ 53 * Z.abs (units (x + y)%float - (units x + units y))
  <= Z.abs (units x + units y).
Proof.
  rewrite !is_finite_spec. unfold units. rewrite add_spec. unfold SF64add.
  intros Fx Fy Fr. apply SFadd_units; auto using Prim2SF_valid.
Qed.

Lemma sub_units (x y : float) :
  is_finite x = true -> is_finite y = true -> is_finite (x - y)%float = true ->
  2 ^ 53 * Z.abs (units (x - y)%float - (units x - units y))
  <= Z.abs (units x - units y).
Proof.
  rewrite !is_finite_spec. unfold units. rewrite sub_spec. unfold SF64sub.
  intros Fx Fy Fr. apply SFsub_units; auto using Prim2SF_valid.
Qed.

Lemma add_not_finite (x y : float) :
  is_finite x = false -> is_finite (x + y)%float = false.
Proof.
  rewrite !is_finite_spec, add_spec. unfold SF64add.
  destruct (Prim2SF x) as [s|s| |s m e]; try discriminate; intros _;
    destruct (Prim2SF y) as [s'|s'| |s' m' e']; try reflexivity;
    destruct s, s'; reflexivity.
Qed.

(** Taking [h] away and adding it back: the result is within
    [2 ^ (-51)] times [|t| + |h|] of [t]. *)
Lemma sub_add_back (t h : float) :
  is_finite t = true -> is_finite h = true ->
  is_finite ((t - h) + h)%float = true ->
  2 ^ 51 * Z.abs (units ((t - h) + h)%float - units t)
  <= Z.abs (units t) + Z.abs (units h).
Proof.
  intros Ft Fh Fr.
  assert (Fu : is_finite (t - h)%float = true).
  { destruct (is_finite (t - h)%float) eqn:E; [reflexivity|].
    now rewrite (add_not_finite _ h E) in Fr. }
  pose proof (sub_units t h Ft Fh Fu) as H1.
  pose proof (add_units (t - h)%float h Fu Fh Fr) as H2.
  change (2 ^ 53) with 9007199254740992 in *.
  change (2 ^ 51) with 2251799813685248. lia.
Qed.

End FloatSum.

(* ================================================================== *)
(** * Facts on the resolver *)
(* ================================================================== *)

Module ResolverFacts.
Import Resolver.

(** ** [findVariable] *)

Lemma includes_lower_iff candidates name :
  Js.includes (map Js.toLowerCase candidates) name = true
  <-> exists c, In c candidates /\ name = Js.toLowerCase c.
Proof.
  unfold Js.includes. rewrite existsb_exists. split.
  - intros (lc & Hin & Heq). apply in_map_iff in Hin as (c & <- & Hc).
    apply String.eqb_eq in Heq. now exists c.
  - intros (c & Hc & ->). exists (Js.toLowerCase c). split.
    + now apply in_map.
    + apply String.eqb_refl.
Qed.

Lemma find_first_split {A} (f : A -> bool) (l : list A) (v : A) :
  find f l = Some v ->
  exists before after,
    l = before ++ v :: after /\ f v = true
    /\ forall u, In u before -> f u = false.
Proof.
  induction l as [|a l IH]; simpl; [discriminate|].
  destruct (f a) eqn:Ha.
  - intros [= ->]. exists [], l. repeat split; auto. intros u [].
  - intros Hv. destruct (IH Hv) as (before & after & -> & Hfv & Hb).
    exists (a :: before), after. repeat split; auto.
    intros u [<-|Hu]; auto.
Qed.

Lemma find_none_iff_all_false {A} (l : list A) :
  find (fun _ => false) l = None.
Proof. induction l; simpl; auto. Qed.

Lemma find_ext_in {A} (f g : A -> bool) (l : list A) :
  (forall x, In x l -> f x = g x) -> find f l = find g l.
Proof.
  induction l as [|a l IH]; intros H; [reflexivity|].
  cbn [find]. rewrite (H a (or_introl eq_refl)).
  destruct (g a); [reflexivity|]. apply IH. intros x Hx. apply H. now right.
Qed.

(** When at most one variable of the dataset matches the candidates,
    the order of the dataset and the order of the candidates choose the
    same variable. *)
Lemma findVariable_by_priority_when_unique reader candidates :
  (forall u v, In u (variables reader) -> In v (variables reader) ->
               matchesCandidate candidates u -> matchesCandidate candidates v ->
               u = v) ->
  findVariable reader candidates = findVariableByPriority reader candidates.
Proof.
  induction candidates as [|c cs IH]; intros Huniq.
  - unfold findVariable. cbn [map findVariableByPriority].
    apply (find_none_iff_all_false (variables reader)).
  - cbn [findVariableByPriority].
    destruct (find (fun v => String.eqb (Js.toLowerCase (var_name v)) (Js.toLowerCase c))
                   (variables reader)) as [v|] eqn:Hc.
    + apply find_some in Hc as [Hin Hv]. apply String.eqb_eq in Hv.
      assert (Mv : matchesCandidate (c :: cs) v)
        by (exists c; split; [now left|exact Hv]).
      destruct (findVariable reader (c :: cs)) as [w|] eqn:Hw.
      * f_equal. unfold findVariable in Hw. apply find_some in Hw as [Hinw Hmw].
        apply includes_lower_iff in Hmw. apply (Huniq w v); auto.
      * unfold findVariable in Hw.
        pose proof (find_none _ _ Hw v Hin) as Hn. cbv beta in Hn.
        apply includes_lower_iff in Mv. congruence.
    + rewrite <- IH.
      * unfold findVariable. apply find_ext_in. intros x Hx.
        pose proof (find_none _ _ Hc x Hx) as Hn. cbv beta in Hn.
        unfold Js.includes. cbn [map existsb]. now rewrite Hn.
      * intros u v Hu Hv (cu & Hcu & Eu) (cv & Hcv & Ev).
        apply (Huniq u v Hu Hv); [exists cu|exists cv]; split; auto; now right.
Qed.

Lemma parseNetCDF_needs_lat_and_lon fileName reader :
  findVariable reader LAT_CANDIDATES = None
  \/ findVariable reader LON_CANDIDATES = None ->
  parseNetCDF fileName reader = Throw ErrLatLonNotFound.
Proof.
  unfold parseNetCDF. intros [-> | ->]; [reflexivity|].
  now destruct (findVariable reader LAT_CANDIDATES).
Qed.

(** ** The stripping loops *)

Lemma declaredDims_names reader v :
  declaredDims reader v
  = map (fun name => (name, dimensionSize reader name)) (dimNamesOf v).
Proof. unfold declaredDims, dimNamesOf. now rewrite map_map. Qed.

Lemma dimNamesOf_strings name dims data :
  ~ In "" dims ->
  dimNamesOf {| var_name := name; var_dimensions := map DimString dims;
                var_data := data |} = dims.
Proof.
  unfold dimNamesOf. cbn [var_dimensions]. rewrite map_map.
  induction dims as [|d dims IH]; intros Hno; [reflexivity|].
  cbn [map]. rewrite IH by (intros H; apply Hno; now right). f_equal.
  unfold parseDimensionName. cbn [truthy].
  destruct (String.eqb_spec d "") as [->|_]; [|reflexivity].
  exfalso. apply Hno. now left.
Qed.

Lemma stripLeading_nil latN lonN data :
  stripLeading latN lonN data [] = (data, []).
Proof. reflexivity. Qed.

Lemma stripLeading_two latN lonN data a b :
  stripLeading latN lonN data [a; b] = (data, [a; b]).
Proof. destruct a; reflexivity. Qed.

Lemma stripTrailing_two a b : stripTrailing [a; b] = [a; b].
Proof. reflexivity. Qed.

Lemma stripLeading_time latN lonN data t rest :
  2 <= List.length rest -> t <> latN -> t <> lonN ->
  stripLeading latN lonN data ((t, 1) :: rest)
  = stripLeading latN lonN (Js.slice0 data (sliceSize rest)) rest.
Proof.
  intros Hlen Hlat Hlon. cbn [stripLeading].
  replace (2 <? List.length ((t, 1) :: rest)) with true
    by (symmetry; apply Nat.ltb_lt; simpl; lia).
  apply String.eqb_neq in Hlat, Hlon. rewrite Hlat, Hlon. reflexivity.
Qed.

Lemma sliceSize_two a b :
  sliceSize [a; b] = Js.or_else (snd a) 1 * Js.or_else (snd b) 1.
Proof. unfold sliceSize. simpl. lia. Qed.

Lemma or_else_pos v d : 0 < v -> Js.or_else v d = v.
Proof. unfold Js.or_else. destruct v; [lia|reflexivity]. Qed.

(** [reshapeElevationGrid] once two dimensions remain. *)
Lemma reshape_with_two_dims reader v latN lonN latCount lonCount first second :
  strippedDims reader v latN lonN = [first; second] ->
  reshapeElevationGrid reader v latN lonN latCount lonCount
  = reshapeTwo (strippedData reader v latN lonN) first second
               latN lonN latCount lonCount.
Proof.
  unfold strippedDims, strippedData, reshapeElevationGrid. intros H.
  destruct (declaredDims reader v) as [|d ds] eqn:Hd.
  - discriminate H.
  - cbn [List.length Nat.eqb].
    destruct (stripLeading latN lonN (getDataVariable reader (var_name v)) (d :: ds))
      as [data' dims'] eqn:Hs.
    cbn [fst snd] in *. rewrite H. reflexivity.
Qed.

(** ** The fills read only the first [latCount * lonCount] values *)

Lemma index_firstn data n k :
  k < n -> Js.index (firstn n data) k = Js.index data k.
Proof.
  intros Hk. unfold Js.index. rewrite nth_error_firstn.
  apply Nat.ltb_lt in Hk. now rewrite Hk.
Qed.

Lemma fillLatMajor_firstn data n latCount lonCount :
  latCount * lonCount <= n ->
  fillLatMajor (firstn n data) latCount lonCount = fillLatMajor data latCount lonCount.
Proof.
  intros Hn. unfold fillLatMajor. apply map_ext_in. intros j Hj.
  apply map_ext_in. intros i Hi. apply in_seq in Hj, Hi.
  apply index_firstn. nia.
Qed.

Lemma fillLonMajor_firstn data n latCount lonCount :
  latCount * lonCount <= n ->
  fillLonMajor (firstn n data) latCount lonCount = fillLonMajor data latCount lonCount.
Proof.
  intros Hn. unfold fillLonMajor. apply map_ext_in. intros j Hj.
  apply map_ext_in. intros i Hi. apply in_seq in Hj, Hi.
  apply index_firstn. nia.
Qed.

Lemma length_firstn_ltb {A} (data : list A) n :
  (List.length (firstn n data) <? n) = (List.length data <? n).
Proof.
  rewrite length_firstn.
  destruct (Nat.ltb_spec (List.length data) n);
    [apply Nat.ltb_lt | apply Nat.ltb_ge]; lia.
Qed.

Lemma stripLeading_prefix latN lonN dims :
  forall data, exists n,
    fst (stripLeading latN lonN data dims) = firstn n data.
Proof.
  induction dims as [|[name size] rest IH]; intros data.
  - exists (List.length data). simpl. now rewrite firstn_all.
  - cbn [stripLeading].
    destruct ((2 <? List.length ((name, size) :: rest)) && (size =? 1)
              && negb (name =? latN)%string && negb (name =? lonN)%string).
    + destruct (IH (Js.slice0 data (sliceSize rest))) as [n Hn].
      exists (Nat.min n (sliceSize rest)). rewrite Hn. unfold Js.slice0.
      apply firstn_firstn.
    + exists (List.length data). simpl. now rewrite firstn_all.
Qed.

(** A buffer cut to [n >= latCount * lonCount] values is reshaped like
    the whole buffer, provided [n] is the size the length check uses. *)
Lemma reshapeTwo_firstn data first second latN lonN latCount lonCount :
  latCount * lonCount
  <= firstSizeOf latN latCount lonCount first
     * secondSizeOf lonN latCount lonCount second ->
  reshapeTwo
    (firstn (firstSizeOf latN latCount lonCount first
             * secondSizeOf lonN latCount lonCount second) data)
    first second latN lonN latCount lonCount
  = reshapeTwo data first second latN lonN latCount lonCount.
Proof.
  intros Hle. unfold reshapeTwo. rewrite length_firstn_ltb.
  rewrite fillLatMajor_firstn, fillLonMajor_firstn by exact Hle.
  reflexivity.
Qed.

Lemma reshapeTwo_cases data first second latN lonN latCount lonCount :
  firstSizeOf latN latCount lonCount first
  * secondSizeOf lonN latCount lonCount second <= List.length data ->
  reshapeTwo data first second latN lonN latCount lonCount
  = Ok (fillLatMajor data latCount lonCount)
  \/ reshapeTwo data first second latN lonN latCount lonCount
     = Ok (fillLonMajor data latCount lonCount)
  \/ reshapeTwo data first second latN lonN latCount lonCount
     = Throw ErrDimensionOrder.
Proof.
  intros Hlen. unfold reshapeTwo. apply Nat.ltb_ge in Hlen. rewrite Hlen.
  destruct (_ && (secondSizeOf lonN latCount lonCount second =? lonCount)); auto.
  destruct (_ && (secondSizeOf lonN latCount lonCount second =? latCount)); auto.
Qed.

Lemma reshapeTwo_too_short data first second latN lonN latCount lonCount :
  reshapeTwo data first second latN lonN latCount lonCount = Throw ErrDataTooShort
  <-> List.length data
      < firstSizeOf latN latCount lonCount first
        * secondSizeOf lonN latCount lonCount second.
Proof.
  unfold reshapeTwo.
  destruct (Nat.ltb_spec (List.length data)
              (firstSizeOf latN latCount lonCount first
               * secondSizeOf lonN latCount lonCount second)) as [Hlt|Hge].
  - split; auto.
  - split; [|lia].
    destruct (_ && (secondSizeOf lonN latCount lonCount second =? lonCount));
      [discriminate|].
    destruct (_ && (secondSizeOf lonN latCount lonCount second =? latCount));
      discriminate.
Qed.

End ResolverFacts.

(* ================================================================== *)
(** * Facts on the terrain builder and the scene *)
(* ================================================================== *)

Module TerrainFacts.
Import Three Viewer FloatModel FloatFacts FloatRounding FloatArith FloatPrim.

(** ** Validation *)

Lemma validateGrid_ok lat lon grid :
  validateGrid lat lon grid = Ok tt
  <-> 2 <= List.length lat /\ 2 <= List.length lon
      /\ List.length grid = List.length lat
      /\ forall row, In row grid -> List.length row = List.length lon.
Proof.
  unfold validateGrid.
  destruct (Nat.ltb_spec (List.length lat) 2) as [H1|H1];
    [split; [discriminate|lia]|].
  destruct (Nat.ltb_spec (List.length lon) 2) as [H2|H2];
    [split; [discriminate|lia]|].
  destruct (Nat.eqb_spec (List.length grid) (List.length lat)) as [H3|H3];
    cbn [negb]; [|split; [discriminate|intros (_ & _ & ? & _); contradiction]].
  destruct (forallb _ grid) eqn:H4; cbn [negb].
  - split; [|reflexivity]. intros _. repeat split; auto.
    intros row Hrow. rewrite forallb_forall in H4.
    now apply Nat.eqb_eq, H4.
  - split; [discriminate|]. intros (_ & _ & _ & H).
    assert (forallb (fun row => List.length row =? List.length lon) grid = true).
    { apply forallb_forall. intros row Hrow. now apply Nat.eqb_eq, H. }
    congruence.
Qed.

(** ** The scan loops as one fold over the entries *)

Lemma map_nth_seq {A} (l : list A) (d : A) :
  map (fun i => nth i l d) (seq 0 (List.length l)) = l.
Proof.
  induction l as [|a l IH]; [reflexivity|].
  cbn [List.length seq map nth]. f_equal.
  rewrite <- seq_shift, map_map. exact IH.
Qed.

Lemma fold_left_map {A B C} (f : A -> B -> A) (g : C -> B) (l : list C) (a : A) :
  fold_left (fun acc x => f acc (g x)) l a = fold_left f (map g l) a.
Proof. revert a. induction l as [|x l IH]; intros a; simpl; auto. Qed.

Lemma scanRow_fold (row : list Js.value) acc :
  scanRow (List.length row) acc row = fold_left scanStep row acc.
Proof.
  unfold scanRow.
  rewrite (fold_left_map scanStep (fun i => nth i row Js.undefined)).
  now rewrite map_nth_seq.
Qed.

Lemma scanGrid_concat (grid : Resolver.Grid) (L : nat) :
  (forall row, In row grid -> List.length row = L) ->
  scanGrid grid L = fold_left scanStep (List.concat grid) (infinity, neg_infinity).
Proof.
  unfold scanGrid. generalize (infinity, neg_infinity).
  induction grid as [|row grid IH]; intros acc Hrows; [reflexivity|].
  cbn [fold_left List.concat]. rewrite fold_left_app.
  pose proof (Hrows row (or_introl eq_refl)) as Hrow.
  assert (E : scanRow L acc row = fold_left scanStep row acc)
    by (rewrite <- Hrow; apply scanRow_fold).
  rewrite E.
  apply IH. intros r Hr. apply Hrows. now right.
Qed.

(** ** What the scan computes on finite entries *)

Lemma scan_finite (l : list Js.value) :
  (forall v, In v l -> Js.Number_isFinite v = true) ->
  forall mn mx, is_nan mn = false -> is_nan mx = false ->
    is_nan (fst (fold_left scanStep l (mn, mx))) = false
    /\ is_nan (snd (fold_left scanStep l (mn, mx))) = false
    /\ (fst (fold_left scanStep l (mn, mx)) = mn
        \/ In (Js.num (fst (fold_left scanStep l (mn, mx)))) l)
    /\ (snd (fold_left scanStep l (mn, mx)) = mx
        \/ In (Js.num (snd (fold_left scanStep l (mn, mx)))) l)
    /\ (ord (fst (fold_left scanStep l (mn, mx))) <= ord mn)%Z
    /\ (ord mx <= ord (snd (fold_left scanStep l (mn, mx))))%Z
    /\ forall f, In (Js.num f) l ->
         (ord (fst (fold_left scanStep l (mn, mx))) <= ord f
          <= ord (snd (fold_left scanStep l (mn, mx))))%Z.
Proof.
  induction l as [|v l IH]; intros Hfin mn mx Nmn Nmx.
  - cbn [fold_left fst snd]. repeat split; auto; try lia;
      match goal with H : In _ [] |- _ => destruct H end.
  - pose proof (Hfin v (or_introl eq_refl)) as Fv.
    destruct v as [| |b|n|a]; try discriminate Fv. cbn [Js.Number_isFinite] in Fv.
    pose proof (finite_not_nan n Fv) as Nn.
    set (mn1 := if (n <? mn)%float then n else mn).
    set (mx1 := if (mx <? n)%float then n else mx).
    assert (E : scanStep (mn, mx) (Js.num n) = (mn1, mx1)).
    { unfold scanStep. cbn [Js.Number_isFinite Js.toNumber]. now rewrite Fv. }
    cbn [fold_left]. rewrite E.
    assert (Nmn1 : is_nan mn1 = false) by (unfold mn1; destruct (n <? mn)%float; auto).
    assert (Nmx1 : is_nan mx1 = false) by (unfold mx1; destruct (mx <? n)%float; auto).
    assert (Omn1 : (ord mn1 <= ord mn /\ ord mn1 <= ord n)%Z).
    { unfold mn1. rewrite ltb_ord by assumption.
      destruct (Z.ltb_spec (ord n) (ord mn)); lia. }
    assert (Omx1 : (ord mx <= ord mx1 /\ ord n <= ord mx1)%Z).
    { unfold mx1. rewrite ltb_ord by assumption.
      destruct (Z.ltb_spec (ord mx) (ord n)); lia. }
    assert (Imn1 : mn1 = mn \/ mn1 = n) by (unfold mn1; destruct (n <? mn)%float; auto).
    assert (Imx1 : mx1 = mx \/ mx1 = n) by (unfold mx1; destruct (mx <? n)%float; auto).
    destruct (IH (fun u Hu => Hfin u (or_intror Hu)) mn1 mx1 Nmn1 Nmx1)
      as (R1 & R2 & R3 & R4 & R5 & R6 & R7).
    split; [exact R1|]. split; [exact R2|].
    split.
    { destruct R3 as [R3|R3]; [|right; now right].
      rewrite R3. destruct Imn1 as [->| ->]; [now left|right; now left]. }
    split.
    { destruct R4 as [R4|R4]; [|right; now right].
      rewrite R4. destruct Imx1 as [->| ->]; [now left|right; now left]. }
    split; [lia|]. split; [lia|].
    intros f [Hf|Hf]; [injection Hf as <-; lia|apply (R7 f Hf)].
Qed.

(** On a grid of finite entries that is not empty, [minElev] and
    [maxElev] are entries of the grid and bound every entry. *)
Lemma minmax_finite (grid : Resolver.Grid) (L : nat) :
  (forall row, In row grid -> List.length row = L) ->
  (forall v, In v (List.concat grid) -> Js.Number_isFinite v = true) ->
  List.concat grid <> [] ->
  In (Js.num (minElevOf grid L)) (List.concat grid)
  /\ In (Js.num (maxElevOf grid L)) (List.concat grid)
  /\ forall f, In (Js.num f) (List.concat grid) ->
       (ord (minElevOf grid L) <= ord f <= ord (maxElevOf grid L))%Z.
Proof.
  intros Hrows Hfin Hne. unfold minElevOf, maxElevOf.
  rewrite (scanGrid_concat grid L Hrows).
  destruct (scan_finite (List.concat grid) Hfin infinity neg_infinity eq_refl eq_refl)
    as (_ & _ & R3 & R4 & _ & _ & R7).
  set (r := fold_left scanStep (List.concat grid) (infinity, neg_infinity)) in *.
  destruct (List.concat grid) as [|v0 l0] eqn:Hc; [contradiction|].
  pose proof (Hfin v0 (or_introl eq_refl)) as F0.
  destruct v0 as [| |b|f0|a]; try discriminate F0. cbn [Js.Number_isFinite] in F0.
  pose proof (ord_finite_bounds f0 F0) as B0.
  pose proof (R7 f0 (or_introl eq_refl)) as O0.
  assert (Nmin : fst r <> infinity).
  { intros E. rewrite E, ord_infinity in O0. lia. }
  assert (Nmax : snd r <> neg_infinity).
  { intros E. rewrite E, ord_neg_infinity in O0. lia. }
  rewrite (Leibniz_eqb_false _ _ Nmin), (Leibniz_eqb_false _ _ Nmax).
  repeat split.
  - destruct R3; [contradiction|assumption].
  - destruct R4; [contradiction|assumption].
  - apply R7, H.
  - apply R7, H.
Qed.

(** ** Entries and positions *)

Lemma entry_in_concat (grid : Resolver.Grid) (L : nat) row col :
  (forall r, In r grid -> List.length r = L) ->
  row < List.length grid -> col < L ->
  In (nth col (nth row grid []) Js.undefined) (List.concat grid).
Proof.
  intros Hrows Hr Hc. apply in_concat. exists (nth row grid []).
  assert (In (nth row grid []) grid) by now apply nth_In.
  split; [assumption|]. apply nth_In. now rewrite (Hrows _ H).
Qed.

Lemma in_concat_entry (grid : Resolver.Grid) (L : nat) v :
  (forall r, In r grid -> List.length r = L) ->
  In v (List.concat grid) ->
  exists row col, row < List.length grid /\ col < L
                  /\ nth col (nth row grid []) Js.undefined = v.
Proof.
  intros Hrows Hv. apply in_concat in Hv as (r & Hr & Hv).
  destruct (In_nth _ _ [] Hr) as (row & Hrow & Er).
  destruct (In_nth _ _ Js.undefined Hv) as (col & Hcol & Ec).
  exists row, col. rewrite Er. rewrite (Hrows _ Hr) in Hcol. auto.
Qed.

(** ** The vertex loop *)

Lemma vertexHeight_at (grid : Resolver.Grid) (L : nat) minElev zScaleBase row col :
  col < L ->
  vertexHeight grid (L - 1) minElev zScaleBase (row * L + col)
  = ((Js.toNumber (nth col (nth row grid []) Js.undefined) - minElev)
     * zScaleBase)%float.
Proof.
  intros Hc. unfold vertexHeight.
  replace (L - 1 + 1) with L by lia.
  rewrite (Nat.add_comm (row * L) col), Nat.Div0.mod_add, Nat.div_add by lia.
  rewrite Nat.mod_small, Nat.div_small by lia. reflexivity.
Qed.

Lemma terrainHeights_length (grid : Resolver.Grid) (L latLength : nat) :
  1 <= L -> 1 <= latLength ->
  List.length (terrainHeights grid L latLength) = latLength * L.
Proof.
  intros HL Hlat. unfold terrainHeights, vertexCountOf.
  rewrite length_map, length_seq. nia.
Qed.

Lemma terrainHeights_nth (grid : Resolver.Grid) (L latLength : nat) row col d :
  row < latLength -> col < L ->
  nth (row * L + col) (terrainHeights grid L latLength) d
  = ((Js.toNumber (nth col (nth row grid []) Js.undefined) - minElevOf grid L)
     * zScaleBaseOf grid L)%float.
Proof.
  intros Hr Hc.
  assert (Hi : row * L + col < vertexCountOf (L - 1) (latLength - 1)).
  { unfold vertexCountOf. nia. }
  unfold terrainHeights.
  rewrite (nth_indep _ d (vertexHeight grid (L - 1) (minElevOf grid L)
                                       (zScaleBaseOf grid L) 0))
    by (now rewrite length_map, length_seq).
  rewrite map_nth, seq_nth by exact Hi. cbn [Nat.add].
  now apply vertexHeight_at.
Qed.

Lemma terrainHeights_in (grid : Resolver.Grid) (L latLength : nat) h :
  1 <= L -> 1 <= latLength ->
  In h (terrainHeights grid L latLength) ->
  exists row col, row < latLength /\ col < L
    /\ h = ((Js.toNumber (nth col (nth row grid []) Js.undefined) - minElevOf grid L)
            * zScaleBaseOf grid L)%float.
Proof.
  intros HL Hlat Hin. unfold terrainHeights in Hin.
  apply in_map_iff in Hin as (i & <- & Hi). apply in_seq in Hi.
  unfold vertexCountOf in Hi.
  exists (i / L), (i mod L).
  assert (i mod L < L) by (apply Nat.mod_upper_bound; lia).
  assert (i / L < latLength).
  { apply Nat.Div0.div_lt_upper_bound. nia. }
  repeat split; auto.
  rewrite <- (vertexHeight_at grid L _ _ (i / L) (i mod L)) by assumption.
  f_equal. pose proof (Nat.div_mod_eq i L). nia.
Qed.

End TerrainFacts.

Module ViewerFacts.
Import Three Viewer FloatModel FloatFacts FloatRounding FloatArith FloatPrim TerrainFacts.
Import FloatScale FloatSum.

(** ** Comparisons the program makes *)

Lemma Math_max_gt (a b : float) : (b <? a)%float = true -> Js.Math_max a b = a.
Proof.
  intros Hlt. unfold Js.Math_max.
  assert (Na : is_nan a = false).
  { destruct (is_nan a) eqn:N; [|reflexivity]. now rewrite (ltb_nan_r b a N) in Hlt. }
  assert (Nb : is_nan b = false).
  { destruct (is_nan b) eqn:N; [|reflexivity]. now rewrite (ltb_nan_l b a N) in Hlt. }
  rewrite Na, Nb, Hlt. cbn [orb].
  rewrite ltb_ord in Hlt |- * by assumption.
  apply Z.ltb_lt in Hlt.
  now replace (ord a <? ord b)%Z with false by (symmetry; apply Z.ltb_ge; lia).
Qed.

Lemma positive_not_le_zero (t : float) :
  (0 <? t)%float = true -> (t <=? 0)%float = false.
Proof.
  intros Hlt.
  assert (Nt : is_nan t = false).
  { destruct (is_nan t) eqn:N; [|reflexivity]. now rewrite (ltb_nan_r 0 t N) in Hlt. }
  rewrite ltb_ord in Hlt by (auto; reflexivity).
  rewrite leb_ord by (auto; reflexivity).
  apply Z.ltb_lt in Hlt. apply Z.leb_gt. exact Hlt.
Qed.

Lemma not_finite_outside_unit (h : float) :
  is_finite h = false ->
  ((0 <=? h)%float && (h <=? FIXED_VISUAL_SCALE)%float) = false.
Proof.
  intros F. destruct (is_nan h) eqn:N.
  - rewrite (leb_nan_l h FIXED_VISUAL_SCALE N). apply andb_false_r.
  - rewrite !leb_ord by (auto; reflexivity).
    rewrite is_finite_spec in F. rewrite is_nan_spec in N. unfold ord at 2 3.
    destruct (Prim2SF h) as [s|[]| |s m e]; try discriminate; reflexivity.
Qed.

(** A value that [ToNumber] does not make finite fails
    [Number.isFinite]; [null] and the booleans fail it too, though
    [ToNumber] makes them finite. *)
Lemma isFinite_toNumber (v : Js.value) :
  Js.Number_isFinite v = true -> is_finite (Js.toNumber v) = true.
Proof. destruct v; try discriminate. exact (fun H => H). Qed.

Lemma scanStep_skips (acc : Js.number * Js.number) (v : Js.value) :
  Js.Number_isFinite v = false -> scanStep acc v = acc.
Proof. intros H. unfold scanStep. now rewrite H. Qed.

(** The scale factor when the range is above the epsilon floor. *)
Lemma zScaleBase_unclamped (grid : Resolver.Grid) (L : nat) :
  (EPSILON <? maxElevOf grid L - minElevOf grid L)%float = true ->
  zScaleBaseOf grid L
  = (FIXED_VISUAL_SCALE / (maxElevOf grid L - minElevOf grid L))%float
  /\ sf_pos_finite (Prim2SF (zScaleBaseOf grid L)) = true.
Proof.
  intros Hlt. unfold zScaleBaseOf, elevRangeOf.
  rewrite (Math_max_gt _ _ Hlt). split; [reflexivity|].
  apply (div_pos_finite FIXED_VISUAL_SCALE EPSILON _
           5404319552844595 (-54) 4722366482869645 (-72));
    [reflexivity|reflexivity|vm_compute; discriminate|exact Hlt].
Qed.

(** ** The height written at the maximum *)

(** A finite number above the epsilon floor is positive and normal. *)
Lemma above_epsilon_normal (r : float) :
  (EPSILON <? r)%float = true -> is_finite r = true ->
  exists mr er, Prim2SF r = S754_finite false mr er /\ (-72 <= er)%Z.
Proof.
  intros Hlt F.
  rewrite ltb_ord in Hlt by (auto using finite_not_nan; reflexivity).
  apply Z.ltb_lt in Hlt. unfold ord in Hlt.
  change (Prim2SF EPSILON) with (S754_finite false 4722366482869645 (-72)) in Hlt.
  cbn [sf_ord] in Hlt. rewrite is_finite_spec in F.
  pose proof (Prim2SF_valid r) as V.
  destruct (Prim2SF r) as [s|s| |s m e]; try discriminate F; cbn [sf_ord] in Hlt;
    [lia|].
  pose proof (valid_finite_bounds _ _ _ V) as (B & _).
  pose proof (valid_finite_mantissa _ _ _ V) as M.
  destruct s; [lia|]. exists m, e. split; [reflexivity|lia].
Qed.

(** [r * (0.3 / r)], the height at an entry that holds [maxElev] when
    the range is [r]: within 8 units in the last place of 0.3, and
    within one unit when [r] is below [2 ^ 1020]. *)
Lemma max_height_near_visual_scale (r : float) :
  (EPSILON <? r)%float = true -> is_finite r = true ->
  let h := (r * (FIXED_VISUAL_SCALE / r))%float in
  (0.29999999999999954 <=? h)%float = true
  /\ (h <=? 0.30000000000000043)%float = true
  /\ ((r <? 0x1p1020)%float = true ->
      h = 0.29999999999999993%float \/ h = 0.3%float
      \/ h = 0.30000000000000004%float).
Proof.
  intros Hlt F h.
  destruct (above_epsilon_normal r Hlt F) as (mr & er & Hr & Her).
  destruct (visual_scale_back r mr er Hr Her) as (mh & Hh & H8 & H1).
  change (r * (0.3 / r))%float with h in Hh.
  assert (Nh : is_nan h = false) by (rewrite is_nan_spec, Hh; reflexivity).
  assert (Oh : ord h = (1021 * 9007199254740992 + Zpos mh)%Z).
  { unfold ord. rewrite Hh. reflexivity. }
  split; [|split].
  - rewrite leb_ord by (auto; reflexivity). apply Z.leb_le. rewrite Oh.
    change (ord 0.29999999999999954)
      with (1021 * 9007199254740992 + 5404319552844587)%Z. lia.
  - rewrite leb_ord by (auto; reflexivity). apply Z.leb_le. rewrite Oh.
    change (ord 0.30000000000000043)
      with (1021 * 9007199254740992 + 5404319552844603)%Z. lia.
  - intros Hbelow.
    rewrite ltb_ord in Hbelow by (auto using finite_not_nan; reflexivity).
    apply Z.ltb_lt in Hbelow. unfold ord in Hbelow. rewrite Hr in Hbelow.
    change (Prim2SF 0x1p1020) with (S754_finite false 4503599627370496 968) in Hbelow.
    cbn [sf_ord] in Hbelow.
    pose proof (Prim2SF_valid r) as V. rewrite Hr in V.
    destruct (normal_mantissa _ _ _ V ltac:(lia)) as [_ Mr].
    specialize (H1 ltac:(lia)).
    assert (Hm : mh = 5404319552844594%positive \/ mh = 5404319552844595%positive
                 \/ mh = 5404319552844596%positive) by lia.
    destruct Hm as [->|[->| ->]];
      [left|right; left|right; right]; apply Prim2SF_inj; rewrite Hh; reflexivity.
Qed.

(** A number above one number and below a finite one is finite. *)
Lemma below_finite_is_finite (a r b : float) :
  (a <? r)%float = true -> (r <? b)%float = true -> is_finite b = true ->
  is_finite r = true.
Proof.
  intros Ha Hb Fb.
  assert (Nr : is_nan r = false).
  { destruct (is_nan r) eqn:N; [|reflexivity]. now rewrite (ltb_nan_r a r N) in Ha. }
  assert (Na : is_nan a = false).
  { destruct (is_nan a) eqn:N; [|reflexivity]. now rewrite (ltb_nan_l a r N) in Ha. }
  rewrite ltb_ord in Ha, Hb by (auto using finite_not_nan).
  apply Z.ltb_lt in Ha, Hb.
  pose proof (ord_finite_bounds b Fb) as Bb.
  assert (Ba : (-18446744073709551616 <= ord a)%Z).
  { unfold ord. pose proof (Prim2SF_valid a) as V.
    destruct (Prim2SF a) as [s|[]| |[] m e]; cbn [sf_ord]; try lia;
      pose proof (valid_finite_bounds _ _ _ V) as (B & _);
      pose proof (valid_finite_mantissa _ _ _ V) as M; lia. }
  rewrite is_finite_spec. rewrite is_nan_spec in Nr.
  change (ord r) with (sf_ord (Prim2SF r)) in Ha, Hb.
  destruct (Prim2SF r) as [s|[]| |s m e]; try discriminate Nr; try reflexivity;
    cbn [sf_ord] in Ha, Hb; lia.
Qed.

(** When the range of finite elevations overflows, the height at the
    maximum is NaN. *)
Lemma max_height_on_overflow (mx mn : float) :
  is_finite mx = true -> is_finite mn = true -> (mx <? mn)%float = false ->
  is_finite (mx - mn)%float = false ->
  is_nan ((mx - mn) * (FIXED_VISUAL_SCALE / (mx - mn)))%float = true.
Proof.
  intros Fx Fn Hge Hnf.
  pose proof (sub_nonneg mx mn Fx Fn Hge) as Hs.
  rewrite is_finite_spec in Hnf.
  assert (E : (mx - mn)%float = infinity).
  { apply Prim2SF_inj. change (Prim2SF infinity) with (S754_infinity false).
    destruct (Prim2SF (mx - mn)%float) as [s|[]| |s m e]; try discriminate; reflexivity. }
  rewrite E. reflexivity.
Qed.

(** Half of a finite positive thickness is [+0] or positive and
    finite. *)
Lemma half_pos_finite (t : float) :
  is_finite t = true -> (0 <? t)%float = true ->
  sf_pos_finite (Prim2SF (t / 2)%float) = true.
Proof.
  intros Ft Hlt.
  rewrite ltb_ord in Hlt by (auto using finite_not_nan; reflexivity).
  apply Z.ltb_lt in Hlt. change (ord 0) with 0%Z in Hlt. unfold ord in Hlt.
  rewrite is_finite_spec in Ft. pose proof (Prim2SF_valid t) as V.
  rewrite div_spec. unfold SF64div.
  change (Prim2SF 2) with (S754_finite false 4503599627370496 (-51)).
  destruct (Prim2SF t) as [s|s| |s m e]; cbn [sf_is_finite] in Ft;
    try discriminate; cbn [sf_ord] in Hlt; try lia.
  pose proof (valid_finite_bounds _ _ _ V) as (B & D & _).
  pose proof (valid_finite_mantissa _ _ _ V) as M.
  destruct s; [lia|].
  destruct (SFdiv_finite false m e false 4503599627370496 (-51)) as [Hf Hs].
  { change (Zpos (digits2_pos 4503599627370496)) with 53%Z. lia. }
  now apply signed_false_finite_pos.
Qed.

(** Exactly flush on a terrain whose lowest point is at height 0. *)
Lemma flush_at_zero (t : float) :
  is_finite t = true -> (0 <? t)%float = true ->
  ((0 - t / 2) + t / 2)%float = 0%float.
Proof.
  intros Ft Hlt.
  pose proof (half_pos_finite t Ft Hlt) as Hh.
  apply Prim2SF_inj. rewrite add_spec, sub_spec.
  change (Prim2SF 0) with (S754_zero false).
  unfold SF64add, SF64sub.
  destruct (Prim2SF (t / 2)%float) as [[]|s| |[] m e];
    cbn [sf_pos_finite] in Hh; try discriminate.
  - reflexivity.
  - cbn [SFsub negb SFadd cond_Zopp]. rewrite Z.add_opp_diag_l. reflexivity.
Qed.

(** Flush within the rounding of the two operations, elsewhere: the
    distance from the top face to [topZ] is at most [2 ^ (-51)] times
    [|topZ| + thickness / 2]. The three values are counted in units of
    [2 ^ (-1074)]. *)
Lemma flush_within_rounding (topZ t : float) :
  is_finite topZ = true -> is_finite t = true -> (0 <? t)%float = true ->
  is_finite ((topZ - t / 2) + t / 2)%float = true ->
  (0 <= units (t / 2)%float
   /\ 2 ^ 51 * Z.abs (units ((topZ - t / 2) + t / 2)%float - units topZ)
      <= Z.abs (units topZ) + units (t / 2)%float)%Z.
Proof.
  intros Fz Ft Hlt Ftop.
  pose proof (half_pos_finite t Ft Hlt) as Hh.
  assert (Fh : is_finite (t / 2)%float = true).
  { rewrite is_finite_spec.
    destruct (Prim2SF (t / 2)%float) as [[]|s| |[] m e]; try discriminate Hh;
      reflexivity. }
  assert (Hpos : (0 <= units (t / 2)%float)%Z).
  { unfold units.
    destruct (Prim2SF (t / 2)%float) as [[]|s| |[] m e]; try discriminate Hh;
      cbn [sf_units cond_Zopp]; lia. }
  split; [exact Hpos|].
  pose proof (sub_add_back topZ (t / 2)%float Fz Fh Ftop) as H.
  rewrite (Z.abs_eq (units (t / 2)%float)) in H by exact Hpos. exact H.
Qed.

(** ** [rebuildBase] and [buildTerrainFromGrid] *)

Lemma rebuildBase_terrainMesh sfo thickness st :
  terrainMesh (rebuildBase sfo thickness st) = terrainMesh st.
Proof.
  unfold rebuildBase. destruct (terrainMesh st) as [mesh|] eqn:E; [|exact E].
  destruct (negb (is_finite thickness) || (thickness <=? 0)%float); [exact E|].
  destruct (minNotFinite _); exact E.
Qed.

Lemma buildTerrainFromGrid_threw cb sfo ui lat lon grid options st e :
  validateGrid lat lon grid = Throw e ->
  buildTerrainFromGrid cb sfo ui lat lon grid options st = Threw e st.
Proof. intros H. unfold buildTerrainFromGrid. now rewrite H. Qed.

Lemma buildTerrainFromGrid_completed cb sfo ui lat lon grid options st :
  validateGrid lat lon grid = Ok tt ->
  exists st' mesh,
    buildTerrainFromGrid cb sfo ui lat lon grid options st = Completed st'
    /\ terrainMesh st' = Some mesh
    /\ heights (terrain_geometry mesh)
       = terrainHeights grid (List.length lon) (List.length lat).
Proof.
  intros H. pose proof H as Hv. apply validateGrid_ok in Hv as (H1 & H2 & _).
  unfold buildTerrainFromGrid. rewrite H.
  replace (List.length lon - 1 <=? 0) with false
    by (symmetry; apply Nat.leb_gt; lia).
  replace (List.length lat - 1 <=? 0) with false
    by (symmetry; apply Nat.leb_gt; lia).
  cbn [orb]. eexists. eexists. split; [reflexivity|].
  cbn [terrainMesh]. rewrite rebuildBase_terrainMesh. cbn [terrainMesh].
  split; reflexivity.
Qed.

End ViewerFacts.

Module SceneFacts.
Import Three Viewer.
Import FloatModel FloatFacts FloatPrim TerrainFacts ViewerFacts.

Lemma validateGrid_throws lat lon grid :
  List.length lat < 2 \/ List.length lon < 2
  \/ List.length grid <> List.length lat
  \/ (exists row, In row grid /\ List.length row <> List.length lon) ->
  exists e, validateGrid lat lon grid = Throw e.
Proof.
  intros H. destruct (validateGrid lat lon grid) as [[]|e] eqn:E; [|now exists e].
  apply validateGrid_ok in E as (H1 & H2 & H3 & H4).
  destruct H as [H|[H|[H|(row & Hrow & H)]]]; try lia.
  specialize (H4 row Hrow). contradiction.
Qed.

Lemma buildTerrainFromGrid_threw_inv cb sfo ui lat lon grid options st e st' :
  buildTerrainFromGrid cb sfo ui lat lon grid options st = Threw e st' ->
  st' = st /\ validateGrid lat lon grid = Throw e.
Proof.
  intros H. destruct (validateGrid lat lon grid) as [[]|e'] eqn:E.
  - destruct (buildTerrainFromGrid_completed cb sfo ui lat lon grid options st E)
      as (s & mesh & Hb & _). congruence.
  - rewrite (buildTerrainFromGrid_threw cb sfo ui lat lon grid options st e' E) in H.
    injection H as <- <-. auto.
Qed.

(** A dataset comes out of [parseNetCDF] only when every resolution step
    succeeded. *)
Lemma parseNetCDF_ok_inv fileName reader ds :
  Resolver.parseNetCDF fileName reader = Ok ds ->
  exists latVar lonVar elevVar latCount lonCount,
    Resolver.findVariable reader Resolver.LAT_CANDIDATES = Some latVar
    /\ Resolver.findVariable reader Resolver.LON_CANDIDATES = Some lonVar
    /\ 2 <= List.length (Resolver.getDataVariable reader (Resolver.var_name latVar))
    /\ 2 <= List.length (Resolver.getDataVariable reader (Resolver.var_name lonVar))
    /\ Resolver.findElevationVariable reader
         (Resolver.coordinateDimName latVar) (Resolver.coordinateDimName lonVar)
       = Some elevVar
    /\ Resolver.reshapeElevationGrid reader elevVar
         (Resolver.coordinateDimName latVar) (Resolver.coordinateDimName lonVar)
         latCount lonCount
       = Ok (Resolver.elevation ds).
Proof.
  unfold Resolver.parseNetCDF.
  destruct (Resolver.findVariable reader Resolver.LAT_CANDIDATES) as [latVar|];
    [|discriminate].
  destruct (Resolver.findVariable reader Resolver.LON_CANDIDATES) as [lonVar|];
    [|discriminate].
  destruct (_ || _) eqn:Hshort; [discriminate|].
  apply orb_false_iff in Hshort as [H1 H2].
  apply Nat.ltb_ge in H1, H2.
  destruct (Resolver.findElevationVariable reader _ _) as [elevVar|] eqn:Helev;
    [|discriminate].
  match goal with
  | |- context [Resolver.reshapeElevationGrid reader elevVar ?a ?b ?c ?d] =>
      destruct (Resolver.reshapeElevationGrid reader elevVar a b c d)
        as [g|e] eqn:Hre; [|discriminate];
      cbn [bind]; destruct g as [|row0 g']; [discriminate|];
      intros [= <-]; exists latVar, lonVar, elevVar, c, d
  end.
  cbn [Resolver.elevation]. repeat split; auto.
Qed.

Lemma loadNcFile_cases cb sfo ui fileName reader st :
  match snd (loadNcFile cb sfo ui fileName reader st) with
  | StatusError e =>
      fst (loadNcFile cb sfo ui fileName reader st) = st
      /\ (Resolver.parseNetCDF fileName reader = Throw e
          \/ exists ds,
               Resolver.parseNetCDF fileName reader = Ok ds
               /\ validateGrid (Resolver.lat ds) (Resolver.lon ds)
                               (Resolver.elevation ds) = Throw e)
  | StatusSuccess =>
      exists ds,
        Resolver.parseNetCDF fileName reader = Ok ds
        /\ validateGrid (Resolver.lat ds) (Resolver.lon ds)
                        (Resolver.elevation ds) = Ok tt
        /\ terrainMesh (fst (loadNcFile cb sfo ui fileName reader st)) <> None
  end.
Proof.
  unfold loadNcFile.
  destruct (Resolver.parseNetCDF fileName reader) as [ds|e] eqn:Hp;
    [|cbn [fst snd]; auto].
  destruct (buildTerrainFromGrid _ _ _ _ _ _ _ _) as [st'|e st'] eqn:Hb; cbn [fst snd].
  - exists ds. split; [reflexivity|].
    destruct (validateGrid (Resolver.lat ds) (Resolver.lon ds) (Resolver.elevation ds))
      as [[]|e] eqn:Hv.
    + split; [reflexivity|].
      destruct (buildTerrainFromGrid_completed cb sfo ui _ _ _
                  {| fileNameBase := Resolver.fileBaseName ds; sourceLabel := fileName |}
                  st Hv) as (s & mesh & Hb' & Hm & _).
      rewrite Hb in Hb'. injection Hb' as <-. now rewrite Hm.
    + rewrite (buildTerrainFromGrid_threw cb sfo ui _ _ _ _ st e Hv) in Hb.
      discriminate.
  - apply buildTerrainFromGrid_threw_inv in Hb as [-> Hv].
    split; [reflexivity|]. right. now exists ds.
Qed.

End SceneFacts.

(* ================================================================== *)
(** * The claims *)
(* ================================================================== *)

Module ResolverClaims.
Import Resolver Examples ResolverFacts.

(** C2, as the claim states it, fails: in a dataset that lists
    [latitude] before [lat], [findVariable] returns [latitude], while the
    first candidate of the priority list that names a variable is [lat];
    and with the two variables swapped it returns [lat]. The variable
    chosen follows the order of the dataset, not the order of the
    candidate list. *)
Lemma findVariable_follows_dataset_order :
  findVariable ncLatitudeFirst LAT_CANDIDATES = Some var_latitude
  /\ findVariableByPriority ncLatitudeFirst LAT_CANDIDATES = Some var_lat
  /\ findVariable ncLatFirst LAT_CANDIDATES = Some var_lat.
Proof. repeat split. Qed.

(** C2, amended: [findVariable] returns the first variable, in the order
    of the dataset, whose name is (letter case apart) any one of the
    candidates, and nothing when no variable has such a name; this is
    the choice of the priority order whenever at most one variable of
    the dataset matches; and [parseNetCDF] throws its
    latitude/longitude error as soon as the latitude or the longitude
    variable is not found. *)
Theorem findVariable_first_variable_that_matches :
  forall (reader : NetCDFReader) (candidates : list string),
    match findVariable reader candidates with
    | Some v =>
        exists before after,
          variables reader = before ++ v :: after
          /\ matchesCandidate candidates v
          /\ forall u, In u before -> ~ matchesCandidate candidates u
    | None =>
        forall u, In u (variables reader) -> ~ matchesCandidate candidates u
    end
    /\ ((forall u v, In u (variables reader) -> In v (variables reader) ->
                     matchesCandidate candidates u ->
                     matchesCandidate candidates v -> u = v) ->
        findVariable reader candidates = findVariableByPriority reader candidates)
    /\ forall fileName,
        (findVariable reader LAT_CANDIDATES = None
         \/ findVariable reader LON_CANDIDATES = None) ->
        parseNetCDF fileName reader = Throw ErrLatLonNotFound.
Proof.
  intros reader candidates. split; [|split].
  - unfold findVariable, matchesCandidate.
    destruct (find _ (variables reader)) as [v|] eqn:Hfind.
    + apply find_first_split in Hfind as (before & after & Hvars & Hv & Hb).
      exists before, after. split; [exact Hvars|]. split.
      * now apply includes_lower_iff.
      * intros u Hu Hm. apply includes_lower_iff in Hm.
        specialize (Hb u Hu). cbv beta in Hb. congruence.
    + intros u Hu Hm. apply includes_lower_iff in Hm.
      pose proof (find_none _ _ Hfind u Hu) as Hn. cbv beta in Hn. congruence.
  - apply findVariable_by_priority_when_unique.
  - intros fileName. apply parseNetCDF_needs_lat_and_lon.
Qed.

(** C3, as the claim states it, fails: an elevation variable over two
    dimensions [a] and [b] of size 2, neither of them the latitude or the
    longitude dimension, in a file with two latitudes and two longitudes,
    is reshaped latitude-major without any error. *)
Lemma reshape_accepts_square_unnamed_dims :
  strippedDims ncSquare var_square "lat" "lon" = [("a", 2); ("b", 2)]
  /\ reshapeElevationGrid ncSquare var_square "lat" "lon" 2 2
     = Ok [[Js.num 1; Js.num 2]; [Js.num 3; Js.num 4]]%float.
Proof. split; reflexivity. Qed.

(** C3, amended: when the two remaining dimensions have the same declared
    size [n > 0], the first of them is (letter case apart) neither the
    latitude nor the longitude dimension, and the buffer holds at least
    [n * n] values, the dimension-order error is thrown exactly when [n]
    differs from the latitude count or from the longitude count; when [n]
    equals both, the grid is filled latitude-major. *)
Theorem reshape_equal_sizes_without_name_match :
  forall reader v latDimName lonDimName latCount lonCount name1 name2 n,
    strippedDims reader v latDimName lonDimName = [(name1, n); (name2, n)] ->
    0 < n ->
    Js.toLowerCase name1 <> Js.toLowerCase latDimName ->
    Js.toLowerCase name1 <> Js.toLowerCase lonDimName ->
    n * n <= List.length (strippedData reader v latDimName lonDimName) ->
    reshapeElevationGrid reader v latDimName lonDimName latCount lonCount
    = if (n =? latCount) && (n =? lonCount)
      then Ok (fillLatMajor (strippedData reader v latDimName lonDimName)
                            latCount lonCount)
      else Throw ErrDimensionOrder.
Proof.
  intros reader v latN lonN latCount lonCount name1 name2 n Hdims Hn Hlat Hlon Hlen.
  rewrite (reshape_with_two_dims _ _ _ _ latCount lonCount _ _ Hdims).
  unfold reshapeTwo, firstSizeOf, secondSizeOf. cbn [fst snd].
  rewrite !(or_else_pos _ _ Hn).
  apply Nat.ltb_ge in Hlen. rewrite Hlen.
  apply String.eqb_neq in Hlat, Hlon. rewrite Hlat, Hlon. cbn [orb].
  destruct (n =? latCount), (n =? lonCount); reflexivity.
Qed.

Lemma reshape_equal_sizes_without_name_match_witness :
  strippedDims ncSquare var_square "lat" "lon" = [("a", 2); ("b", 2)]
  /\ 2 * 2 <= List.length (strippedData ncSquare var_square "lat" "lon")
  /\ reshapeElevationGrid ncSquare var_square "lat" "lon" 2 3
     = Throw ErrDimensionOrder.
Proof.
  split; [reflexivity|]. split; [simpl; lia|].
  apply (reshape_equal_sizes_without_name_match
           ncSquare var_square "lat" "lon" 2 3 "a" "b" 2).
  - reflexivity.
  - lia.
  - discriminate.
  - discriminate.
  - simpl. lia.
Defined.

(** C4, as the claim states it, fails: when the latitude dimension is
    declared with size 0 (a record dimension, three records), the buffer
    of a variable over [(time, lat, lon)] is cut to [1 * 2] values by the
    stripping of [time], and the length check then fails, while the same
    buffer under [(lat, lon)] is reshaped into a 3 x 2 grid. The slice
    takes a declared size of 0 for 1, the sizes checked afterwards take
    it for the resolved count. *)
Lemma leading_time_dimension_changes_the_result :
  dimNamesOf var_withTime = "time" :: dimNamesOf var_withoutTime
  /\ dimensionSize ncRecordLat "time" = 1
  /\ getDataVariable ncRecordLat (var_name var_withTime)
     = getDataVariable ncRecordLat (var_name var_withoutTime)
  /\ reshapeElevationGrid ncRecordLat var_withTime "lat" "lon" 3 2
     = Throw ErrDataTooShort
  /\ reshapeElevationGrid ncRecordLat var_withoutTime "lat" "lon" 3 2
     = Ok [[Js.num 1; Js.num 2]; [Js.num 3; Js.num 4]; [Js.num 5; Js.num 6]]%float.
Proof. repeat split. Qed.

(** C4, amended: a variable over [(t, latDim, lonDim)], where [t] has
    size 1 and is neither [latDim] nor [lonDim], is reshaped exactly like
    the same flat buffer declared over [(latDim, lonDim)], provided the
    declared sizes of [latDim] and [lonDim] are not 0 and their product
    is at least [latCount * lonCount] (as it is when the declared sizes
    are the resolved counts): the leading dimension is stripped and the
    buffer cut to the product of the two sizes that remain. *)
Theorem leading_time_dimension_is_stripped :
  forall reader vTime vPlain t latDim lonDim latCount lonCount,
    dimNamesOf vTime = [t; latDim; lonDim] ->
    dimNamesOf vPlain = [latDim; lonDim] ->
    getDataVariable reader (var_name vTime)
    = getDataVariable reader (var_name vPlain) ->
    dimensionSize reader t = 1 ->
    t <> latDim ->
    t <> lonDim ->
    0 < dimensionSize reader latDim ->
    0 < dimensionSize reader lonDim ->
    latCount * lonCount <= dimensionSize reader latDim * dimensionSize reader lonDim ->
    reshapeElevationGrid reader vTime latDim lonDim latCount lonCount
    = reshapeElevationGrid reader vPlain latDim lonDim latCount lonCount.
Proof.
  intros reader vTime vPlain t latDim lonDim latCount lonCount
         HdT HdP Hdata Ht Hlat Hlon Hs1 Hs2 Hle.
  set (first := (latDim, dimensionSize reader latDim)).
  set (second := (lonDim, dimensionSize reader lonDim)).
  assert (HdeclT : declaredDims reader vTime = [(t, 1); first; second]).
  { rewrite declaredDims_names, HdT. simpl. now rewrite Ht. }
  assert (HdeclP : declaredDims reader vPlain = [first; second]).
  { now rewrite declaredDims_names, HdP. }
  assert (Hf : firstSizeOf latDim latCount lonCount first = dimensionSize reader latDim).
  { unfold firstSizeOf, first. cbn [fst snd]. now apply or_else_pos. }
  assert (Hsnd : secondSizeOf lonDim latCount lonCount second = dimensionSize reader lonDim).
  { unfold secondSizeOf, second. cbn [fst snd]. now apply or_else_pos. }
  assert (Hslice : sliceSize [first; second]
                   = dimensionSize reader latDim * dimensionSize reader lonDim).
  { rewrite sliceSize_two. unfold first, second. cbn [snd].
    now rewrite !or_else_pos. }
  rewrite (@reshape_with_two_dims reader vTime latDim lonDim latCount lonCount first second).
  2:{ unfold strippedDims. rewrite HdeclT.
      rewrite stripLeading_time by (simpl; auto).
      rewrite stripLeading_two. reflexivity. }
  rewrite (@reshape_with_two_dims reader vPlain latDim lonDim latCount lonCount first second).
  2:{ unfold strippedDims. rewrite HdeclP, stripLeading_two. reflexivity. }
  unfold strippedData. rewrite HdeclT, HdeclP.
  rewrite stripLeading_time by (simpl; auto).
  rewrite !stripLeading_two. cbn [fst]. rewrite Hdata, Hslice.
  unfold Js.slice0. rewrite <- Hf at 1. rewrite <- Hsnd at 1.
  apply reshapeTwo_firstn. now rewrite Hf, Hsnd.
Qed.

Lemma leading_time_dimension_is_stripped_witness :
  dimNamesOf var_time23 = ["time"; "lat"; "lon"]
  /\ dimNamesOf var_plain23 = ["lat"; "lon"]
  /\ dimensionSize ncTime23 "time" = 1
  /\ dimensionSize ncTime23 "lat" = 2
  /\ dimensionSize ncTime23 "lon" = 3
  /\ reshapeElevationGrid ncTime23 var_time23 "lat" "lon" 2 3
     = reshapeElevationGrid ncTime23 var_plain23 "lat" "lon" 2 3.
Proof.
  do 5 (split; [reflexivity|]).
  apply (leading_time_dimension_is_stripped
           ncTime23 var_time23 var_plain23 "time" "lat" "lon" 2 3);
    try reflexivity; try discriminate; vm_compute; lia.
Defined.

(** C10, as the claim states it, fails: two buffers of six values that
    agree on their first four, declared over [(LAT = 2, lon = 2)] in a
    file with three latitudes, pass the length check (4 values are
    asked for) and give different grids: the two values beyond the
    product of the declared sizes fill the third row. *)
Lemma surplus_values_reach_the_grid :
  strippedDims ncUpperLat var_upperLat "lat" "lon" = [("LAT", 2); ("lon", 2)]
  /\ firstn (2 * 2) (getDataVariable ncUpperLat (var_name var_upperLat))
     = firstn (2 * 2) (getDataVariable ncUpperLat (var_name var_upperLat_other))
  /\ reshapeElevationGrid ncUpperLat var_upperLat "lat" "lon" 3 2
     = Ok [[Js.num 1; Js.num 2]; [Js.num 3; Js.num 4]; [Js.num 5; Js.num 6]]%float
  /\ reshapeElevationGrid ncUpperLat var_upperLat_other "lat" "lon" 3 2
     = Ok [[Js.num 1; Js.num 2]; [Js.num 3; Js.num 4]; [Js.num 8; Js.num 9]]%float.
Proof. repeat split. Qed.

(** C10, amended: once two dimensions remain, [reshapeElevationGrid]
    throws its buffer-length error if and only if the buffer left by the
    stripping (a leading part of the flat buffer) is strictly shorter
    than [firstSize * secondSize], a declared size of 0 being replaced by
    the resolved count; a buffer at least that long is accepted by the
    length check, and the result is then the dimension-order error or one
    of the two fills, which read the first [latCount * lonCount] values
    of the buffer and no other. *)
Theorem reshape_length_check :
  forall reader v latDimName lonDimName latCount lonCount first second,
    strippedDims reader v latDimName lonDimName = [first; second] ->
    let data := strippedData reader v latDimName lonDimName in
    let totalSize :=
      firstSizeOf latDimName latCount lonCount first
      * secondSizeOf lonDimName latCount lonCount second in
    let used := firstn (latCount * lonCount) data in
    let outcome :=
      reshapeElevationGrid reader v latDimName lonDimName latCount lonCount in
    (exists n, data = firstn n (getDataVariable reader (var_name v)))
    /\ (outcome = Throw ErrDataTooShort <-> List.length data < totalSize)
    /\ (totalSize <= List.length data ->
        outcome = Ok (fillLatMajor used latCount lonCount)
        \/ outcome = Ok (fillLonMajor used latCount lonCount)
        \/ outcome = Throw ErrDimensionOrder).
Proof.
  intros reader v latN lonN latCount lonCount first second Hdims
         data totalSize used outcome.
  subst outcome. rewrite (reshape_with_two_dims _ _ _ _ latCount lonCount _ _ Hdims).
  fold data. split; [|split].
  - apply stripLeading_prefix.
  - apply reshapeTwo_too_short.
  - intros Hlen. subst used.
    rewrite fillLatMajor_firstn, fillLonMajor_firstn by lia.
    now apply reshapeTwo_cases.
Qed.

Lemma reshape_length_check_witness :
  strippedDims ncRecordLat var_withTime "lat" "lon" = [("lat", 0); ("lon", 2)]
  /\ List.length (strippedData ncRecordLat var_withTime "lat" "lon") = 2
  /\ firstSizeOf "lat" 3 2 ("lat", 0) * secondSizeOf "lon" 3 2 ("lon", 2) = 6
  /\ reshapeElevationGrid ncRecordLat var_withTime "lat" "lon" 3 2
     = Throw ErrDataTooShort.
Proof.
  do 3 (split; [reflexivity|]).
  apply (reshape_length_check ncRecordLat var_withTime "lat" "lon" 3 2
           ("lat", 0) ("lon", 2)).
  - reflexivity.
  - simpl. lia.
Defined.

End ResolverClaims.

Module TerrainClaims.
Import Three Viewer ViewerExamples.
Import FloatModel FloatFacts FloatRounding FloatArith FloatPrim TerrainFacts ViewerFacts.

(** C1, as the claim states it, fails: on the valid 2 x 2 grid
    [[0, 37], [37, 0]], whose elevations are finite and whose range 37 is
    above the epsilon floor, the heights written are
    [0, 0.30000000000000004, 0.30000000000000004, 0]: no height is
    [FIXED_VISUAL_SCALE], since [37 * (0.3 / 37)] is not [0.3] in binary64
    arithmetic. And when the range of finite elevations overflows
    ([-1e308] and [1e308]), the scale is 0 and the height at the maximum
    is NaN. *)
Lemma max_height_misses_visual_scale :
  validateGrid lat01 lon01 grid37 = Ok tt
  /\ forallb (forallb Js.Number_isFinite) grid37 = true
  /\ (EPSILON <? maxElevOf grid37 2 - minElevOf grid37 2)%float = true
  /\ option_map (fun mesh => heights (terrain_geometry mesh))
       (terrainMesh
          (sceneOf (buildTerrainFromGrid (fun _ => unitBox) (fun _ _ => unitBox)
                      controls1 lat01 lon01 grid37 options0 initialScene)))
     = Some [0; 0.30000000000000004; 0.30000000000000004; 0]%float
  /\ forallb (fun h => negb (h =? FIXED_VISUAL_SCALE)%float)
       (terrainHeights grid37 2 2) = true
  /\ forallb (forallb Js.Number_isFinite) gridOverflow = true
  /\ (EPSILON <? maxElevOf gridOverflow 2 - minElevOf gridOverflow 2)%float = true
  /\ terrainHeights gridOverflow 2 2 = [0; nan; 0; 0]%float.
Proof. repeat split; vm_compute; reflexivity. Qed.

(** C1, amended: for every valid grid whose elevations are all finite and
    whose range [maxElev - minElev] is strictly above the epsilon floor,
    [buildTerrainFromGrid] completes and writes one height per grid
    node, the height of node [(row, col)] being
    [(elevation[row][col] - minElev) * (0.3 / (maxElev - minElev))] in
    binary64 arithmetic; [minElev] and [maxElev] are entries of the grid
    and bound every entry; every node holding [minElev] has height
    exactly 0 and no height is below 0. Every node holding [maxElev] has
    a height within 8 units in the last place of 0.3 (from
    0.29999999999999954 to 0.30000000000000043) when the range is a
    finite number, and within one unit (0.29999999999999993, 0.3 or
    0.30000000000000004) when the range is below [2 ^ 1020]; when the
    range overflows to [Infinity] that height is NaN. *)
Theorem heights_of_finite_grid :
  forall (computeBoundingBox : PlaneGeometry -> Box3)
         (setFromObject : Vector3 -> TerrainMesh -> Box3)
         (ui : Controls) (lat lon : list Js.number) (grid : Resolver.Grid)
         (options : Options) (st : Scene),
    validateGrid lat lon grid = Ok tt ->
    (forall row v, In row grid -> In v row -> Js.Number_isFinite v = true) ->
    (EPSILON <? maxElevOf grid (List.length lon) - minElevOf grid (List.length lon))%float
    = true ->
    let L := List.length lon in
    let minElev := minElevOf grid L in
    let maxElev := maxElevOf grid L in
    let scale := (FIXED_VISUAL_SCALE / (maxElev - minElev))%float in
    let entry row col := nth col (nth row grid []) Js.undefined in
    let inGrid row col := row < List.length lat /\ col < L in
    exists st' mesh,
      buildTerrainFromGrid computeBoundingBox setFromObject ui lat lon grid options st
      = Completed st'
      /\ terrainMesh st' = Some mesh
      /\ List.length (heights (terrain_geometry mesh)) = List.length lat * L
      /\ (forall row col, inGrid row col ->
            nth (row * L + col) (heights (terrain_geometry mesh)) nan
            = ((Js.toNumber (entry row col) - minElev) * scale)%float)
      /\ (exists row col, inGrid row col /\ entry row col = Js.num minElev)
      /\ (exists row col, inGrid row col /\ entry row col = Js.num maxElev)
      /\ (forall row col, inGrid row col ->
            (Js.toNumber (entry row col) <? minElev)%float = false
            /\ (maxElev <? Js.toNumber (entry row col))%float = false)
      /\ (forall row col, inGrid row col -> entry row col = Js.num minElev ->
            nth (row * L + col) (heights (terrain_geometry mesh)) nan = 0%float)
      /\ (forall row col, inGrid row col -> entry row col = Js.num maxElev ->
            let h := nth (row * L + col) (heights (terrain_geometry mesh)) nan in
            h = ((maxElev - minElev) * scale)%float
            /\ (is_finite (maxElev - minElev)%float = true ->
                (0.29999999999999954 <=? h)%float = true
                /\ (h <=? 0.30000000000000043)%float = true)
            /\ ((maxElev - minElev <? 0x1p1020)%float = true ->
                h = 0.29999999999999993%float \/ h = 0.3%float
                \/ h = 0.30000000000000004%float)
            /\ (is_finite (maxElev - minElev)%float = false -> is_nan h = true))
      /\ (forall h, In h (heights (terrain_geometry mesh)) -> (h <? 0)%float = false).
Proof.
  intros cb sfo ui lat lon grid options st Hvalid Hfin Hrange
         L minElev maxElev scale entry inGrid.
  pose proof Hvalid as Hv. apply validateGrid_ok in Hv as (Hlat & Hlon & Hrows & Hcols).
  fold L in Hlon, Hcols, Hrange. fold minElev maxElev in Hrange.
  destruct (buildTerrainFromGrid_completed cb sfo ui lat lon grid options st Hvalid)
    as (st' & mesh & Hbuild & Hmesh & Hheights).
  fold L in Hheights.
  (* the entries *)
  assert (Hfin' : forall v, In v (List.concat grid) -> Js.Number_isFinite v = true).
  { intros v Hin. apply in_concat in Hin as (row & Hrow & Hin). eauto. }
  assert (Hne : List.concat grid <> []).
  { destruct grid as [|[|v row] grid']; cbn [List.length] in *; try lia.
    - specialize (Hcols [] (or_introl eq_refl)). cbn in Hcols. lia.
    - discriminate. }
  destruct (minmax_finite grid L Hcols Hfin' Hne) as (Imin & Imax & Hbound).
  fold minElev maxElev in Imin, Imax, Hbound.
  assert (Fmin : is_finite minElev = true) by exact (Hfin' _ Imin).
  assert (Fmax : is_finite maxElev = true) by exact (Hfin' _ Imax).
  destruct (zScaleBase_unclamped grid L Hrange) as [Hscale Hclass].
  fold minElev maxElev scale in Hscale.
  assert (Hentry : forall row col, inGrid row col ->
            exists f, entry row col = Js.num f /\ is_finite f = true
                      /\ (ord minElev <= ord f <= ord maxElev)%Z).
  { intros row col [Hr Hc].
    assert (Hin : In (entry row col) (List.concat grid))
      by (apply (entry_in_concat grid L); auto; lia).
    pose proof (Hfin' _ Hin) as F. destruct (entry row col) as [| |b|f|a] eqn:E;
      try discriminate F. exists f. repeat split; auto; now apply Hbound. }
  assert (Hnth : forall row col, inGrid row col ->
            nth (row * L + col) (heights (terrain_geometry mesh)) nan
            = ((Js.toNumber (entry row col) - minElev) * scale)%float).
  { intros row col [Hr Hc]. rewrite Hheights, <- Hscale.
    now apply terrainHeights_nth. }
  exists st', mesh.
  split; [exact Hbuild|]. split; [exact Hmesh|].
  split; [rewrite Hheights; apply terrainHeights_length; lia|].
  split; [exact Hnth|].
  split.
  { destruct (in_concat_entry grid L _ Hcols Imin) as (row & col & Hr & Hc & E).
    exists row, col. unfold inGrid. repeat split; try exact E; try exact Hc; lia. }
  split.
  { destruct (in_concat_entry grid L _ Hcols Imax) as (row & col & Hr & Hc & E).
    exists row, col. unfold inGrid. repeat split; try exact E; try exact Hc; lia. }
  split.
  { intros row col Hin. destruct (Hentry row col Hin) as (f & -> & Ff & Hf).
    cbn [Js.toNumber]. rewrite !ltb_ord by (auto using finite_not_nan).
    split; apply Z.ltb_ge; lia. }
  split.
  { intros row col Hin E. rewrite (Hnth row col Hin), E. cbn [Js.toNumber].
    rewrite (sub_diag minElev Fmin). apply mul_zero_l.
    now rewrite <- Hscale. }
  split.
  { intros row col Hin E h.
    assert (Eh : h = ((maxElev - minElev) * scale)%float).
    { unfold h. rewrite (Hnth row col Hin), E. reflexivity. }
    split; [exact Eh|]. rewrite Eh. unfold scale.
    split; [|split].
    - intros Frange.
      destruct (max_height_near_visual_scale _ Hrange Frange) as (H1 & H2 & _).
      now split.
    - intros Hbelow.
      assert (Frange : is_finite (maxElev - minElev)%float = true).
      { apply below_finite_is_finite with (a := EPSILON) (b := 0x1p1020%float);
          [exact Hrange|exact Hbelow|reflexivity]. }
      destruct (max_height_near_visual_scale _ Hrange Frange) as (_ & _ & H3).
      now apply H3.
    - intros Hover. apply max_height_on_overflow; auto.
      rewrite ltb_ord by (auto using finite_not_nan). apply Z.ltb_ge.
      apply (Hbound maxElev Imax). }
  intros h Hh. rewrite Hheights in Hh.
  apply terrainHeights_in in Hh as (row & col & Hr & Hc & ->); [|lia|lia].
  destruct (Hentry row col (conj Hr Hc)) as (f & E & Ff & Hf).
  fold (entry row col). rewrite E. cbn [Js.toNumber].
  apply mul_nonneg; [|exact Hclass].
  apply sub_nonneg; auto.
  rewrite ltb_ord by (auto using finite_not_nan). apply Z.ltb_ge.
  unfold minElev in Hf |- *. lia.
Qed.

Lemma heights_of_finite_grid_witness :
  validateGrid lat01 lon01 grid10 = Ok tt
  /\ (EPSILON <? maxElevOf grid10 2 - minElevOf grid10 2)%float = true
  /\ exists st' mesh,
       buildTerrainFromGrid (fun _ => unitBox) (fun _ _ => unitBox)
         controls1 lat01 lon01 grid10 options0 initialScene
       = Completed st'
       /\ terrainMesh st' = Some mesh
       /\ List.length (heights (terrain_geometry mesh)) = 2 * 2
       /\ forall h, In h (heights (terrain_geometry mesh)) -> (h <? 0)%float = false.
Proof.
  split; [reflexivity|]. split; [vm_compute; reflexivity|].
  destruct (heights_of_finite_grid (fun _ => unitBox) (fun _ _ => unitBox)
              controls1 lat01 lon01 grid10 options0 initialScene)
    as (st' & mesh & H1 & H2 & H3 & _ & _ & _ & _ & _ & _ & H10).
  - reflexivity.
  - intros row v Hrow Hv.
    cbv [grid10 In] in Hrow.
    destruct Hrow as [<-|[<-|[]]]; cbv [In] in Hv;
      destruct Hv as [<-|[<-|[]]]; reflexivity.
  - vm_compute. reflexivity.
  - exists st', mesh. auto.
Defined.

(** C8, as the claim states it, fails: an entry that is not a finite
    number need not give a height that is not finite. A [null] of the
    sample file fails [Number.isFinite] and is skipped by the scan, but
    the vertex loop converts it to 0: on [[null, 1], [2, 1]] the heights
    are [-0.3, 0, 0.3, 0], and on [[null, -1], [1, 0]] they are
    [0.15, 0, 0.3, 0.15], all finite, the second list within the range
    from 0 to 0.3. *)
Lemma null_entry_gives_finite_height :
  validateGrid lat01 lon01 gridNull = Ok tt
  /\ Js.Number_isFinite (nth 0 (nth 0 gridNull []) Js.undefined) = false
  /\ existsb (existsb Js.Number_isFinite) gridNull = true
  /\ option_map (fun mesh => heights (terrain_geometry mesh))
       (terrainMesh
          (sceneOf (buildTerrainFromGrid (fun _ => unitBox) (fun _ _ => unitBox)
                      controls1 lat01 lon01 gridNull options0 initialScene)))
     = Some [-0.3; 0; 0.3; 0]%float
  /\ forallb is_finite (terrainHeights gridNull 2 2) = true
  /\ validateGrid lat01 lon01 gridNullInside = Ok tt
  /\ Js.Number_isFinite (nth 0 (nth 0 gridNullInside []) Js.undefined) = false
  /\ terrainHeights gridNullInside 2 2 = [0.15; 0; 0.3; 0.15]%float
  /\ forallb (fun h => (0 <=? h)%float && (h <=? FIXED_VISUAL_SCALE)%float)
       (terrainHeights gridNullInside 2 2) = true.
Proof. repeat split; vm_compute; reflexivity. Qed.

(** C8, amended: on a grid of valid shape [buildTerrainFromGrid]
    completes, whatever the entries. An entry that fails
    [Number.isFinite] is skipped by the scan of the minimum and the
    maximum, not by the vertex loop, which writes
    [(ToNumber(entry) - minElev) * zScaleBase] at its node. When
    [ToNumber(entry)] is not finite (NaN, an infinity, [undefined], or
    another value that converts to one of these) the height is not
    finite, so it lies outside the range from 0 to
    [FIXED_VISUAL_SCALE]. An entry that is not a number but converts to
    a finite one ([null], a boolean), gets the height of that number:
    [(0 - minElev) * zScaleBase] for [null]. *)
Theorem skipped_entry_height :
  forall (computeBoundingBox : PlaneGeometry -> Box3)
         (setFromObject : Vector3 -> TerrainMesh -> Box3)
         (ui : Controls) (lat lon : list Js.number) (grid : Resolver.Grid)
         (options : Options) (st : Scene) (row col : nat),
    validateGrid lat lon grid = Ok tt ->
    row < List.length lat ->
    col < List.length lon ->
    let entry := nth col (nth row grid []) Js.undefined in
    Js.Number_isFinite entry = false ->
    exists st' mesh,
      buildTerrainFromGrid computeBoundingBox setFromObject ui lat lon grid options st
      = Completed st'
      /\ terrainMesh st' = Some mesh
      /\ (forall acc, scanStep acc entry = acc)
      /\ let h := nth (row * List.length lon + col)
                      (heights (terrain_geometry mesh)) 0%float in
         In h (heights (terrain_geometry mesh))
         /\ h = ((Js.toNumber entry - minElevOf grid (List.length lon))
                 * zScaleBaseOf grid (List.length lon))%float
         /\ (is_finite (Js.toNumber entry) = false ->
             is_finite h = false
             /\ ((0 <=? h)%float && (h <=? FIXED_VISUAL_SCALE)%float) = false)
         /\ (entry = Js.null ->
             h = ((0 - minElevOf grid (List.length lon))
                  * zScaleBaseOf grid (List.length lon))%float).
Proof.
  intros cb sfo ui lat lon grid options st row col Hvalid Hr Hc entry Hnf.
  pose proof Hvalid as Hv. apply validateGrid_ok in Hv as (Hlat & Hlon & _).
  destruct (buildTerrainFromGrid_completed cb sfo ui lat lon grid options st Hvalid)
    as (st' & mesh & Hbuild & Hmesh & Hheights).
  exists st', mesh. split; [exact Hbuild|]. split; [exact Hmesh|].
  split; [intros acc; now apply scanStep_skips|].
  cbv zeta. rewrite Hheights.
  assert (Hlen : row * List.length lon + col
                 < List.length (terrainHeights grid (List.length lon) (List.length lat))).
  { rewrite terrainHeights_length by lia. nia. }
  split; [now apply nth_In|].
  rewrite (terrainHeights_nth grid _ _ row col 0%float Hr Hc). fold entry.
  split; [reflexivity|]. split.
  - intros Hinf.
    assert (F : is_finite ((Js.toNumber entry - minElevOf grid (List.length lon))
                           * zScaleBaseOf grid (List.length lon))%float = false).
    { apply mul_not_finite, sub_not_finite, Hinf. }
    split; [exact F|]. now apply not_finite_outside_unit.
  - intros ->. reflexivity.
Qed.

Lemma skipped_entry_height_witness :
  validateGrid lat01 lon01 gridNaN = Ok tt
  /\ Js.Number_isFinite (nth 1 (nth 0 gridNaN []) Js.undefined) = false
  /\ exists st' mesh,
       buildTerrainFromGrid (fun _ => unitBox) (fun _ _ => unitBox)
         controls1 lat01 lon01 gridNaN options0 initialScene
       = Completed st'
       /\ terrainMesh st' = Some mesh
       /\ is_finite (nth 1 (heights (terrain_geometry mesh)) 0%float) = false.
Proof.
  split; [reflexivity|]. split; [reflexivity|].
  destruct (skipped_entry_height
              (fun _ => unitBox) (fun _ _ => unitBox)
              controls1 lat01 lon01 gridNaN options0 initialScene 0 1)
    as (st' & mesh & H1 & H2 & _ & _ & _ & H3 & _).
  - reflexivity.
  - simpl. lia.
  - simpl. lia.
  - reflexivity.
  - exists st', mesh. split; [exact H1|]. split; [exact H2|].
    apply H3. reflexivity.
Defined.

End TerrainClaims.

Module SceneClaims.
Import Three Viewer ViewerExamples.
Import FloatModel FloatFacts FloatPrim TerrainFacts ViewerFacts SceneFacts.

(** C5, as the claim states it, fails: the top face of the plate is
    [(topZ - thickness / 2) + thickness / 2] in binary64 arithmetic,
    which is not always [topZ]. Loading [[0, 37], [37, 0]] while the z
    scale is -3 and the thickness is 5 gives a terrain group that
    reaches down to [topZ = -0.9000000000000001], and a plate centred at
    [-3.4000000000000004] whose top face is at [-0.9000000000000004].
    With heights stored in single precision the group reaches down to
    [-0.9000000357627869], and setting the thickness to 0.3 then gives a
    top face at [-0.9000000357627868]. *)
Lemma top_face_misses_topZ :
  terrainGroup_scale mirroredScene = vec 1 1 (-3)
  /\ option_map (fun mesh => heights (terrain_geometry mesh)) (terrainMesh mirroredScene)
     = Some [0; 0.30000000000000004; 0.30000000000000004; 0]%float
  /\ minNotFinite mirroredBox = false
  /\ z (box_min mirroredBox) = (-0.9000000000000001)%float
  /\ option_map (fun plate => (box_depth (base_geometry plate), z (base_position plate)))
       (baseMesh mirroredScene)
     = Some (5, -3.4000000000000004)%float
  /\ option_map (fun plate => (z (base_position plate)
                               + box_depth (base_geometry plate) / 2)%float)
       (baseMesh mirroredScene)
     = Some (-0.9000000000000004)%float
  /\ (-0.9000000000000004 =? -0.9000000000000001)%float = false
  /\ minNotFinite mirroredBoxSingle = false
  /\ z (box_min mirroredBoxSingle) = (-0.9000000357627869)%float
  /\ option_map (fun plate => (z (base_position plate)
                               + box_depth (base_geometry plate) / 2)%float)
       (baseMesh (applyThickness (fun _ _ => mirroredBoxSingle) 0.3%float
                    mirroredScene))
     = Some (-0.9000000357627868)%float
  /\ (-0.9000000357627868 =? -0.9000000357627869)%float = false.
Proof. repeat split; vm_compute; reflexivity. Qed.

(** C5, amended: with a terrain loaded, a finite thickness above 0 and a
    bounding box whose minimum is finite, [rebuildBase] leaves a plate
    that is a box of depth [thickness] centred at height
    [topZ - thickness / 2], [topZ] being the minimum of the terrain
    group's world-space bounding box along z, and centred in x and y on
    the centre of that box; its width and height are the x and y sizes
    of the box (floored at the epsilon), whatever the scale of the
    terrain group. The top face [z + thickness / 2] of the plate is
    [(topZ - thickness / 2) + thickness / 2] as binary64 arithmetic
    evaluates it: exactly [topZ] when [topZ] is 0, the height at which
    the builder puts the lowest point of the terrain, and, whenever it
    is a finite number, within [2 ^ (-51)] times
    [|topZ| + thickness / 2] of [topZ] (the values being counted in
    units of [2 ^ (-1074)]). *)
Theorem base_plate_flush_under_terrain :
  forall (setFromObject : Vector3 -> TerrainMesh -> Box3)
         (thickness : Js.number) (st : Scene) (mesh : TerrainMesh),
    terrainMesh st = Some mesh ->
    is_finite thickness = true ->
    (0 <? thickness)%float = true ->
    minNotFinite (setFromObject (terrainGroup_scale st) mesh) = false ->
    let bbox := setFromObject (terrainGroup_scale st) mesh in
    let topZ := z (box_min bbox) in
    exists plate,
      baseMesh (rebuildBase setFromObject thickness st) = Some plate
      /\ terrainMesh (rebuildBase setFromObject thickness st) = Some mesh
      /\ box_depth (base_geometry plate) = thickness
      /\ z (base_position plate) = (topZ - thickness / 2)%float
      /\ x (base_position plate) = x (getCenter bbox)
      /\ y (base_position plate) = y (getCenter bbox)
      /\ box_width (base_geometry plate) = Js.Math_max (x (getSize bbox)) EPSILON
      /\ box_height (base_geometry plate) = Js.Math_max (y (getSize bbox)) EPSILON
      /\ (z (base_position plate) + box_depth (base_geometry plate) / 2)%float
         = ((topZ - thickness / 2) + thickness / 2)%float
      /\ (topZ = 0%float ->
          (z (base_position plate) + box_depth (base_geometry plate) / 2)%float = topZ)
      /\ (is_finite (z (base_position plate)
                     + box_depth (base_geometry plate) / 2)%float = true ->
          (2 ^ 51 * Z.abs (units (z (base_position plate)
                                  + box_depth (base_geometry plate) / 2)%float
                           - units topZ)
           <= Z.abs (units topZ) + units (thickness / 2)%float)%Z).
Proof.
  intros sfo thickness st mesh Hmesh Ft Hpos Hbox bbox topZ.
  exists (plateFor bbox thickness).
  assert (Hbuilt : rebuildBase sfo thickness st
                   = set_baseMesh (Some (plateFor bbox thickness)) st).
  { unfold rebuildBase. rewrite Hmesh, Ft, (positive_not_le_zero _ Hpos).
    cbn [negb orb]. now rewrite Hbox. }
  rewrite Hbuilt. cbn [baseMesh terrainMesh set_baseMesh].
  split; [reflexivity|]. split; [exact Hmesh|].
  unfold plateFor. cbn [base_geometry base_position box_depth box_width box_height x y z].
  do 7 (split; [reflexivity|]). split.
  - fold topZ. intros ->. now apply flush_at_zero.
  - fold topZ. intros Ftop.
    apply flush_within_rounding; auto.
    unfold minNotFinite in Hbox. fold bbox in Hbox.
    apply orb_false_iff in Hbox as [_ Hz]. apply negb_false_iff in Hz. exact Hz.
Qed.

Lemma base_plate_flush_under_terrain_witness :
  terrainMesh loadedScene = Some (plane [0; 0.3; 0.3; 0]%float)
  /\ is_finite 5%float = true
  /\ (0 <? 5)%float = true
  /\ minNotFinite unitBox = false
  /\ exists plate,
       baseMesh (rebuildBase (fun _ _ => unitBox) 5%float loadedScene) = Some plate
       /\ z (base_position plate) = (-2.5)%float
       /\ (z (base_position plate) + box_depth (base_geometry plate) / 2)%float
          = 0%float.
Proof.
  do 4 (split; [reflexivity|]).
  destruct (base_plate_flush_under_terrain (fun _ _ => unitBox) 5%float loadedScene
              (plane [0; 0.3; 0.3; 0]%float))
    as (plate & H1 & _ & _ & H4 & _ & _ & _ & _ & _ & H9 & _).
  - reflexivity.
  - reflexivity.
  - reflexivity.
  - reflexivity.
  - exists plate. split; [exact H1|]. split; [rewrite H4; reflexivity|].
    apply H9. reflexivity.
Defined.

(** C6: a load that ends on an error leaves the scene as it was: the
    error comes either from [parseNetCDF] (a resolution step failed) or
    from the validation at the head of [buildTerrainFromGrid], both
    before [clearModel] and before any mesh is built. Every structural
    defect (lat or lon shorter than 2, a row count that differs from the
    lat length, a row length that differs from the lon length) makes the
    validation throw, with the scene untouched; and a dataset comes out
    of [parseNetCDF] only if the latitude, longitude and elevation
    variables were found and the elevation was reshaped. *)
Theorem failed_load_leaves_scene_untouched :
  forall (computeBoundingBox : PlaneGeometry -> Box3)
         (setFromObject : Vector3 -> TerrainMesh -> Box3)
         (ui : Controls) (fileName : string) (reader : Resolver.NetCDFReader)
         (st : Scene),
    match snd (loadNcFile computeBoundingBox setFromObject ui fileName reader st) with
    | StatusError e =>
        fst (loadNcFile computeBoundingBox setFromObject ui fileName reader st) = st
        /\ (Resolver.parseNetCDF fileName reader = Throw e
            \/ exists ds,
                 Resolver.parseNetCDF fileName reader = Ok ds
                 /\ validateGrid (Resolver.lat ds) (Resolver.lon ds)
                                 (Resolver.elevation ds) = Throw e)
    | StatusSuccess =>
        exists ds,
          Resolver.parseNetCDF fileName reader = Ok ds
          /\ validateGrid (Resolver.lat ds) (Resolver.lon ds)
                          (Resolver.elevation ds) = Ok tt
          /\ terrainMesh
               (fst (loadNcFile computeBoundingBox setFromObject ui fileName reader st))
             <> None
    end
    /\ (forall lat lon grid options,
          List.length lat < 2 \/ List.length lon < 2
          \/ List.length grid <> List.length lat
          \/ (exists row, In row grid /\ List.length row <> List.length lon) ->
          exists e,
            buildTerrainFromGrid computeBoundingBox setFromObject ui
                                 lat lon grid options st
            = Threw e st)
    /\ (forall ds,
          Resolver.parseNetCDF fileName reader = Ok ds ->
          exists latVar lonVar elevVar latCount lonCount,
            Resolver.findVariable reader Resolver.LAT_CANDIDATES = Some latVar
            /\ Resolver.findVariable reader Resolver.LON_CANDIDATES = Some lonVar
            /\ 2 <= List.length (Resolver.getDataVariable reader (Resolver.var_name latVar))
            /\ 2 <= List.length (Resolver.getDataVariable reader (Resolver.var_name lonVar))
            /\ Resolver.findElevationVariable reader
                 (Resolver.coordinateDimName latVar)
                 (Resolver.coordinateDimName lonVar)
               = Some elevVar
            /\ Resolver.reshapeElevationGrid reader elevVar
                 (Resolver.coordinateDimName latVar)
                 (Resolver.coordinateDimName lonVar) latCount lonCount
               = Ok (Resolver.elevation ds)).
Proof.
  intros cb sfo ui fileName reader st. split; [|split].
  - apply loadNcFile_cases.
  - intros lat lon grid options H.
    destruct (validateGrid_throws lat lon grid H) as [e He].
    exists e. now apply buildTerrainFromGrid_threw.
  - intros ds. apply parseNetCDF_ok_inv.
Qed.

(** C9: with a terrain loaded and a finite thickness above 0,
    [rebuildBase] returns without touching anything when the minimum of
    the bounding box is not finite on some axis, so an earlier plate
    stays as it was; whereas a thickness that is not finite or not above
    0 removes the plate. *)
Theorem rebuildBase_keeps_stale_plate :
  forall (setFromObject : Vector3 -> TerrainMesh -> Box3)
         (thickness : Js.number) (st : Scene) (mesh : TerrainMesh),
    terrainMesh st = Some mesh ->
    is_finite thickness = true ->
    (0 <? thickness)%float = true ->
    minNotFinite (setFromObject (terrainGroup_scale st) mesh) = true ->
    rebuildBase setFromObject thickness st = st
    /\ forall bad : Js.number,
         is_finite bad = false \/ (bad <=? 0)%float = true ->
         baseMesh (rebuildBase setFromObject bad st) = None.
Proof.
  intros sfo thickness st mesh Hmesh Ft Hpos Hbox. split.
  - unfold rebuildBase.
    rewrite Hmesh, Ft, (positive_not_le_zero _ Hpos). cbn [negb orb].
    now rewrite Hbox.
  - intros bad Hbad. unfold rebuildBase. rewrite Hmesh.
    replace (negb (is_finite bad) || (bad <=? 0)%float) with true; [reflexivity|].
    symmetry. destruct Hbad as [-> | ->]; [reflexivity|apply orb_true_r].
Qed.

Lemma rebuildBase_keeps_stale_plate_witness :
  terrainMesh loadedScene = Some (plane [0; 0.3; 0.3; 0]%float)
  /\ is_finite 7%float = true
  /\ (0 <? 7)%float = true
  /\ minNotFinite nanBox = true
  /\ baseMesh loadedScene = Some plate5
  /\ rebuildBase (fun _ _ => nanBox) 7%float loadedScene = loadedScene
  /\ baseMesh (rebuildBase (fun _ _ => nanBox) 0%float loadedScene) = None.
Proof.
  do 5 (split; [reflexivity|]).
  destruct (rebuildBase_keeps_stale_plate (fun _ _ => nanBox) 7%float loadedScene
              (plane [0; 0.3; 0.3; 0]%float)) as [H1 H2];
    try reflexivity.
  split; [exact H1|]. apply H2. right. reflexivity.
Defined.

End SceneClaims.

(* ================================================================== *)
(** * Further facts on the resolver *)
(* ================================================================== *)

Module GridFacts.
Import Resolver ResolverFacts.

Lemma fillLatMajor_length data latCount lonCount :
  List.length (fillLatMajor data latCount lonCount) = latCount.
Proof. unfold fillLatMajor. now rewrite length_map, length_seq. Qed.

Lemma fillLonMajor_length data latCount lonCount :
  List.length (fillLonMajor data latCount lonCount) = latCount.
Proof. unfold fillLonMajor. now rewrite length_map, length_seq. Qed.

Lemma fillLatMajor_rows data latCount lonCount row :
  In row (fillLatMajor data latCount lonCount) -> List.length row = lonCount.
Proof.
  unfold fillLatMajor. intros H. apply in_map_iff in H as (j & <- & _).
  now rewrite length_map, length_seq.
Qed.

Lemma fillLonMajor_rows data latCount lonCount row :
  In row (fillLonMajor data latCount lonCount) -> List.length row = lonCount.
Proof.
  unfold fillLonMajor. intros H. apply in_map_iff in H as (j & <- & _).
  now rewrite length_map, length_seq.
Qed.

Lemma index_defined data k : k < List.length data -> Js.index data k <> Js.undefined.
Proof.
  intros H. unfold Js.index.
  destruct (nth_error data k) eqn:E; [discriminate|].
  apply nth_error_None in E. lia.
Qed.

Lemma fillLatMajor_defined data latCount lonCount row e :
  latCount * lonCount <= List.length data ->
  In row (fillLatMajor data latCount lonCount) -> In e row -> e <> Js.undefined.
Proof.
  unfold fillLatMajor. intros Hlen Hrow He.
  apply in_map_iff in Hrow as (j & <- & Hj). apply in_seq in Hj.
  apply in_map_iff in He as (i & <- & Hi). apply in_seq in Hi.
  apply index_defined. nia.
Qed.

Lemma fillLonMajor_defined data latCount lonCount row e :
  latCount * lonCount <= List.length data ->
  In row (fillLonMajor data latCount lonCount) -> In e row -> e <> Js.undefined.
Proof.
  unfold fillLonMajor. intros Hlen Hrow He.
  apply in_map_iff in Hrow as (j & <- & Hj). apply in_seq in Hj.
  apply in_map_iff in He as (i & <- & Hi). apply in_seq in Hi.
  apply index_defined. nia.
Qed.

(** What a successful [reshapeTwo] returns. *)
Lemma reshapeTwo_ok data first second latN lonN latCount lonCount g :
  reshapeTwo data first second latN lonN latCount lonCount = Ok g ->
  g = fillLatMajor data latCount lonCount \/ g = fillLonMajor data latCount lonCount.
Proof.
  unfold reshapeTwo.
  destruct (List.length data <? _); [discriminate|].
  destruct (_ && (secondSizeOf lonN latCount lonCount second =? lonCount)).
  - intros [= <-]. now left.
  - destruct (_ && (secondSizeOf lonN latCount lonCount second =? latCount)).
    + intros [= <-]. now right.
    + discriminate.
Qed.

Lemma reshapeTwo_errors data first second latN lonN latCount lonCount e :
  reshapeTwo data first second latN lonN latCount lonCount = Throw e ->
  e = ErrDataTooShort \/ e = ErrDimensionOrder.
Proof.
  unfold reshapeTwo.
  destruct (List.length data <? _); [intros [= <-]; now left|].
  destruct (_ && (secondSizeOf lonN latCount lonCount second =? lonCount));
    [discriminate|].
  destruct (_ && (secondSizeOf lonN latCount lonCount second =? latCount));
    [discriminate|].
  intros [= <-]. now right.
Qed.

(** [reshapeElevationGrid] is [reshapeTwo] on what the loops leave, or
    one of its two own errors. *)
Lemma reshape_unfold reader v latN lonN latCount lonCount :
  reshapeElevationGrid reader v latN lonN latCount lonCount
  = if List.length (declaredDims reader v) =? 0 then Throw ErrNoDimensionInfo
    else match strippedDims reader v latN lonN with
         | [first; second] =>
             reshapeTwo (strippedData reader v latN lonN) first second
                        latN lonN latCount lonCount
         | _ => Throw ErrNotTwoDimensions
         end.
Proof.
  unfold reshapeElevationGrid, strippedDims, strippedData.
  destruct (List.length (declaredDims reader v) =? 0); [reflexivity|].
  destruct (stripLeading latN lonN (getDataVariable reader (var_name v))
                         (declaredDims reader v)) as [data dims].
  reflexivity.
Qed.

Lemma reshape_ok reader v latN lonN latCount lonCount g :
  reshapeElevationGrid reader v latN lonN latCount lonCount = Ok g ->
  g = fillLatMajor (strippedData reader v latN lonN) latCount lonCount
  \/ g = fillLonMajor (strippedData reader v latN lonN) latCount lonCount.
Proof.
  rewrite reshape_unfold.
  destruct (List.length (declaredDims reader v) =? 0); [discriminate|].
  destruct (strippedDims reader v latN lonN) as [|first [|second [|]]];
    try discriminate.
  apply reshapeTwo_ok.
Qed.

Lemma reshape_errors reader v latN lonN latCount lonCount e :
  reshapeElevationGrid reader v latN lonN latCount lonCount = Throw e ->
  In e [ErrNoDimensionInfo; ErrNotTwoDimensions; ErrDataTooShort; ErrDimensionOrder].
Proof.
  rewrite reshape_unfold.
  destruct (List.length (declaredDims reader v) =? 0);
    [intros [= <-]; simpl; tauto|].
  destruct (strippedDims reader v latN lonN) as [|first [|second [|]]];
    try (intros [= <-]; simpl; tauto).
  intros H. apply reshapeTwo_errors in H as [-> | ->]; simpl; tauto.
Qed.

Lemma reshape_length reader v latN lonN latCount lonCount g :
  reshapeElevationGrid reader v latN lonN latCount lonCount = Ok g ->
  List.length g = latCount /\ forall row, In row g -> List.length row = lonCount.
Proof.
  intros H. apply reshape_ok in H as [-> | ->].
  - split; [apply fillLatMajor_length|apply fillLatMajor_rows].
  - split; [apply fillLonMajor_length|apply fillLonMajor_rows].
Qed.

(** Reading a concatenation of rows of the same length. *)
Lemma index_app_l (a b : list Js.number) k :
  k < List.length a -> Js.index (a ++ b) k = Js.index a k.
Proof. intros H. unfold Js.index. now rewrite nth_error_app1. Qed.

Lemma index_app_r (a b : list Js.number) k :
  Js.index (a ++ b) (List.length a + k) = Js.index b k.
Proof.
  unfold Js.index. rewrite nth_error_app2 by lia.
  now replace (List.length a + k - List.length a) with k by lia.
Qed.

Lemma index_all (row : list Js.number) :
  map (Js.index row) (seq 0 (List.length row)) = map Js.num row.
Proof.
  induction row as [|a row IH]; [reflexivity|].
  cbn [List.length]. rewrite <- cons_seq, <- seq_shift, map_cons, map_map.
  cbn [map]. f_equal. exact IH.
Qed.

Lemma fillLatMajor_concat (rows : list (list Js.number)) (C : nat) :
  (forall row, In row rows -> List.length row = C) ->
  fillLatMajor (List.concat rows) (List.length rows) C = map (map Js.num) rows.
Proof.
  unfold fillLatMajor. induction rows as [|row rows IH]; intros Hrows;
    [reflexivity|].
  assert (Hrow : List.length row = C) by (apply Hrows; now left).
  cbn [List.length List.concat].
  rewrite <- cons_seq, <- seq_shift, map_cons, map_map. cbn [map]. f_equal.
  - transitivity (map (Js.index row) (seq 0 C)).
    + apply map_ext_in. intros i Hi. apply in_seq in Hi.
      cbn [Nat.mul Nat.add]. apply index_app_l. lia.
    + rewrite <- Hrow. apply index_all.
  - rewrite <- IH by (intros r Hr; apply Hrows; now right).
    apply map_ext. intros j. apply map_ext. intros i.
    replace (S j * C + i) with (List.length row + (j * C + i)) by (rewrite Hrow; lia).
    apply index_app_r.
Qed.

Lemma fillLonMajor_concat (cols : list (list Js.number)) (R : nat) :
  (forall col, In col cols -> List.length col = R) ->
  fillLonMajor (List.concat cols) R (List.length cols)
  = map (fun j => map (fun col => Js.index col j) cols) (seq 0 R).
Proof.
  intros Hcols. unfold fillLonMajor. apply map_ext_in. intros j Hj.
  apply in_seq in Hj. clear - Hcols Hj.
  induction cols as [|col cols IH]; [reflexivity|].
  assert (Hcol : List.length col = R) by (apply Hcols; now left).
  cbn [List.length List.concat].
  rewrite <- cons_seq, <- seq_shift, map_cons, map_map. cbn [map]. f_equal.
  - cbn [Nat.mul Nat.add]. apply index_app_l. lia.
  - rewrite <- IH by (intros r Hr; apply Hcols; now right).
    apply map_ext. intros i.
    replace (S i * R + j) with (List.length col + (i * R + j)) by (rewrite Hcol; lia).
    apply index_app_r.
Qed.

Lemma concat_length_rect {A} (rows : list (list A)) (C : nat) :
  (forall row, In row rows -> List.length row = C) ->
  List.length (List.concat rows) = List.length rows * C.
Proof.
  induction rows as [|row rows IH]; intros H; [reflexivity|].
  cbn [List.concat List.length]. rewrite length_app.
  rewrite IH by (intros r Hr; apply H; now right).
  rewrite (H row) by now left. simpl. lia.
Qed.

(** A variable declared over exactly two dimensions is not stripped. *)
Lemma reshape_two_declared reader v latN lonN latCount lonCount first second :
  declaredDims reader v = [first; second] ->
  reshapeElevationGrid reader v latN lonN latCount lonCount
  = reshapeTwo (getDataVariable reader (var_name v)) first second
               latN lonN latCount lonCount.
Proof.
  intros H. unfold reshapeElevationGrid. rewrite H.
  cbn [List.length Nat.eqb]. rewrite stripLeading_two, stripTrailing_two.
  reflexivity.
Qed.

(** Reading a buffer that is the concatenation of the rows, over two
    dimensions whose declared size is the count, or 0 under the exact
    name of the coordinate dimension. *)
Lemma reshapeTwo_row_major (rows : list (list Js.number)) (C : nat)
      name1 s1 name2 s2 latN lonN :
  (forall row, In row rows -> List.length row = C) ->
  0 < List.length rows -> 0 < C ->
  s1 = List.length rows \/ (s1 = 0 /\ name1 = latN) ->
  s2 = C \/ (s2 = 0 /\ name2 = lonN) ->
  reshapeTwo (List.concat rows) (name1, s1) (name2, s2)
             latN lonN (List.length rows) C
  = Ok (map (map Js.num) rows).
Proof.
  intros Hrows HR HC H1 H2.
  assert (E1 : firstSizeOf latN (List.length rows) C (name1, s1) = List.length rows).
  { unfold firstSizeOf. cbn [fst snd]. destruct H1 as [-> | [-> ->]].
    - now apply or_else_pos.
    - now rewrite String.eqb_refl. }
  assert (E2 : secondSizeOf lonN (List.length rows) C (name2, s2) = C).
  { unfold secondSizeOf. cbn [fst snd]. destruct H2 as [-> | [-> ->]].
    - now apply or_else_pos.
    - now rewrite String.eqb_refl. }
  unfold reshapeTwo. rewrite E1, E2.
  rewrite (concat_length_rect rows C Hrows), Nat.ltb_irrefl.
  rewrite !Nat.eqb_refl, orb_true_r. cbn [andb].
  now rewrite fillLatMajor_concat.
Qed.

End GridFacts.

Module StripFacts.
Import Resolver ResolverFacts Terms.

Lemma stripLeading_dims latN lonN dims :
  forall data,
    let kept := snd (stripLeading latN lonN data dims) in
    exists pre,
      dims = pre ++ kept
      /\ Forall (strippable latN lonN) pre
      /\ (pre <> [] -> 2 <= List.length kept)
      /\ (2 < List.length kept ->
          match kept with
          | d :: _ => ~ strippable latN lonN d
          | [] => False
          end).
Proof.
  induction dims as [|[name size] rest IH]; intros data.
  - exists []. cbn. repeat split; auto; try lia. congruence.
  - cbn [stripLeading].
    destruct ((2 <? List.length ((name, size) :: rest)) && (size =? 1)
              && negb (name =? latN)%string && negb (name =? lonN)%string) eqn:E.
    + apply andb_true_iff in E as [E E4]. apply andb_true_iff in E as [E E3].
      apply andb_true_iff in E as [E1 E2].
      apply Nat.ltb_lt in E1. apply Nat.eqb_eq in E2.
      apply negb_true_iff, String.eqb_neq in E3.
      apply negb_true_iff, String.eqb_neq in E4.
      destruct (IH (Js.slice0 data (sliceSize rest))) as (pre & Hd & Hpre & H2 & Hstop).
      exists ((name, size) :: pre). cbn zeta. repeat split.
      * cbn [app]. now f_equal.
      * constructor; [|exact Hpre]. now repeat split.
      * intros _. destruct pre as [|p pre'].
        -- cbn [app] in Hd. rewrite <- Hd. cbn [List.length] in E1. lia.
        -- apply H2. discriminate.
      * exact Hstop.
    + exists []. cbn [snd app]. repeat split; auto; try congruence.
      intros Hlen [S1 [S2 S3]]. cbn [fst snd] in *.
      apply Nat.ltb_lt in Hlen. rewrite Hlen in E. subst size.
      apply String.eqb_neq in S2, S3. rewrite S2, S3 in E. discriminate.
Qed.

Lemma removelast_length {A} (l : list A) :
  List.length (removelast l) = List.length l - 1.
Proof.
  induction l as [|a [|b l] IH]; [reflexivity|reflexivity|].
  change (removelast (a :: b :: l)) with (a :: removelast (b :: l)).
  cbn [List.length] in *. lia.
Qed.

Lemma stripTrailing_loop_spec turns :
  forall dims, List.length dims <= turns ->
    let kept := stripTrailing_loop turns dims in
    exists post,
      dims = kept ++ post
      /\ Forall (fun d => snd d = 1) post
      /\ (post <> [] -> 2 <= List.length kept)
      /\ (2 < List.length kept -> snd (last kept ("", 0)) <> 1)
      /\ (List.length dims <= 2 -> kept = dims)
      /\ (2 <= List.length dims -> hd ("", 0) kept = hd ("", 0) dims).
Proof.
  induction turns as [|turns IH]; intros dims Hlen; cbn zeta.
  - exists []. destruct dims; [|cbn in Hlen; lia].
    cbn. repeat split; auto; try lia. congruence.
  - cbn [stripTrailing_loop].
    destruct ((2 <? List.length dims) && (snd (last dims ("", 0)) =? 1)) eqn:E.
    + apply andb_true_iff in E as [E1 E2].
      apply Nat.ltb_lt in E1. apply Nat.eqb_eq in E2.
      assert (Hne : dims <> []) by (intros ->; cbn in E1; lia).
      pose proof (app_removelast_last ("", 0) Hne) as Hsplit.
      pose proof (removelast_length dims) as Hrl.
      destruct (IH (removelast dims)) as (post & Hd & Hpost & H2 & Hstop & Hsmall & Hhd);
        [lia|].
      exists (post ++ [last dims ("", 0)]). repeat split.
      * rewrite app_assoc, <- Hd. exact Hsplit.
      * apply Forall_app. split; [exact Hpost|]. now constructor.
      * intros _. destruct post as [|p post'].
        -- cbn [app] in Hd. rewrite app_nil_r in Hd. rewrite <- Hd. lia.
        -- apply H2. discriminate.
      * exact Hstop.
      * lia.
      * intros _. rewrite Hhd by lia.
        destruct dims as [|a [|b dims']]; cbn in E1; try lia. reflexivity.
    + exists []. rewrite app_nil_r. repeat split; auto; try congruence.
      intros Hlen' Hone. apply Nat.ltb_lt in Hlen'. rewrite Hlen' in E.
      apply Nat.eqb_eq in Hone. rewrite Hone in E. discriminate.
Qed.

Lemma strip_spec latN lonN data dims :
  let kept := stripTrailing (snd (stripLeading latN lonN data dims)) in
  exists pre post,
    dims = pre ++ kept ++ post
    /\ Forall (strippable latN lonN) pre
    /\ Forall (fun d => snd d = 1) post
    /\ (2 <= List.length dims -> 2 <= List.length kept)
    /\ (List.length dims <= 2 -> kept = dims)
    /\ (2 < List.length kept ->
        snd (last kept ("", 0)) <> 1
        /\ ~ strippable latN lonN (hd ("", 0) kept)).
Proof.
  cbn zeta.
  destruct (stripLeading_dims latN lonN dims data) as (pre & Hd & Hpre & H2 & Hstop).
  cbn zeta in *.
  set (mid := snd (stripLeading latN lonN data dims)) in *.
  destruct (stripTrailing_loop_spec (List.length mid) mid (le_n _))
    as (post & Hm & Hpost & H2' & Hstop' & Hsmall & Hhd).
  cbn zeta in *. fold (stripTrailing mid) in *.
  set (kept := stripTrailing mid) in *.
  assert (Hlen : List.length dims
                 = List.length pre + (List.length kept + List.length post)).
  { rewrite Hd, Hm. now rewrite !length_app. }
  assert (Hmid : List.length mid = List.length kept + List.length post).
  { rewrite Hm. now rewrite length_app. }
  exists pre, post. split; [|split; [|split; [|split; [|split]]]].
  - now rewrite <- Hm.
  - exact Hpre.
  - exact Hpost.
  - intros H. destruct post as [|p post'].
    + destruct pre as [|q pre'].
      * cbn [List.length] in *. lia.
      * assert (2 <= List.length mid) by (apply H2; discriminate).
        cbn [List.length] in Hmid. lia.
    + apply H2'. discriminate.
  - intros H. destruct pre as [|q pre'].
    + cbn [app] in Hd. rewrite Hd. apply Hsmall. rewrite <- Hd. exact H.
    + assert (2 <= List.length mid) by (apply H2; discriminate).
      rewrite Hd, length_app in H. cbn [List.length] in H. lia.
  - intros Hk. split; [now apply Hstop'|].
    rewrite Hhd by lia.
    assert (Hm2 : 2 < List.length mid) by lia.
    specialize (Hstop Hm2). destruct mid as [|d mid']; [contradiction|].
    exact Hstop.
Qed.

End StripFacts.

Module NameFacts.
Import Resolver.

Lemma string_length_append (a b : string) :
  String.length (a ++ b)%string = String.length a + String.length b.
Proof. induction a as [|c a IH]; cbn; [reflexivity|now rewrite IH]. Qed.

Lemma toLowerCase_length (s : string) :
  String.length (Js.toLowerCase s) = String.length s.
Proof. induction s as [|c s IH]; cbn; [reflexivity|now rewrite IH]. Qed.

Lemma substring_all (s : string) : substring 0 (String.length s) s = s.
Proof. induction s as [|c s IH]; cbn; [reflexivity|now rewrite IH]. Qed.

Lemma substring_split (s : string) :
  forall k, k <= String.length s ->
    (substring 0 k s ++ substring k (String.length s - k) s)%string = s.
Proof.
  induction s as [|c s IH]; intros [|k] Hk; cbn in Hk |- *; try lia.
  - reflexivity.
  - now rewrite substring_all.
  - f_equal. apply IH. lia.
Qed.

Lemma substring_prefix_length (s : string) :
  forall k, k <= String.length s -> String.length (substring 0 k s) = k.
Proof.
  induction s as [|c s IH]; intros [|k] Hk; cbn in Hk |- *; try lia.
  f_equal. apply IH. lia.
Qed.

Lemma substring_suffix (pre suf : string) :
  substring (String.length pre) (String.length suf) (pre ++ suf)%string = suf.
Proof.
  induction pre as [|c pre IH]; cbn.
  - apply substring_all.
  - exact IH.
Qed.

Lemma append_nil_r (s : string) : (s ++ "")%string = s.
Proof. induction s as [|c s IH]; cbn; [reflexivity|now rewrite IH]. Qed.

(** The test of [stripNcSuffix]: the name ends in [.nc], letter case
    apart. *)
Lemma nc_suffix_test (name : string) :
  (3 <=? String.length name)
  && String.eqb (Js.toLowerCase (substring (String.length name - 3) 3 name)) ".nc"
  = true
  <-> exists pre suf, name = (pre ++ suf)%string /\ Js.toLowerCase suf = ".nc".
Proof.
  split.
  - intros H. apply andb_true_iff in H as [H1 H2].
    apply Nat.leb_le in H1. apply String.eqb_eq in H2.
    exists (substring 0 (String.length name - 3) name),
           (substring (String.length name - 3) 3 name).
    split; [|exact H2].
    pose proof (substring_split name (String.length name - 3)) as Hs.
    replace (String.length name - (String.length name - 3)) with 3 in Hs by lia.
    symmetry. apply Hs. lia.
  - intros (pre & suf & -> & Hsuf).
    assert (Hlen : String.length suf = 3).
    { rewrite <- toLowerCase_length, Hsuf. reflexivity. }
    rewrite string_length_append, Hlen.
    replace (String.length pre + 3 - 3) with (String.length pre) by lia.
    pose proof (substring_suffix pre suf) as Hs. rewrite Hlen in Hs.
    rewrite Hs, Hsuf.
    apply andb_true_iff. split; [apply Nat.leb_le; lia|reflexivity].
Qed.

End NameFacts.

Module ParseFacts.
Import Resolver ResolverFacts Terms GridFacts.

Lemma resolvedCount_pos reader v :
  2 <= List.length (getDataVariable reader (var_name v)) ->
  1 <= resolvedCount reader v.
Proof.
  intros H. unfold resolvedCount.
  destruct (dimensionMap_get reader (coordinateDimName v)) as [n|]; [|lia].
  unfold Js.or_else. destruct (n =? 0) eqn:E; [lia|].
  apply Nat.eqb_neq in E. lia.
Qed.

Lemma resolvedCount_consistent reader v :
  coordinateConsistent reader v ->
  resolvedCount reader v = List.length (getDataVariable reader (var_name v)).
Proof.
  unfold coordinateConsistent, resolvedCount.
  destruct (dimensionMap_get reader (coordinateDimName v)) as [n|]; [|reflexivity].
  unfold Js.or_else. intros [-> | ->]; [reflexivity|].
  destruct (_ =? 0) eqn:E; [|reflexivity].
  apply Nat.eqb_eq in E. now rewrite E.
Qed.

(** The steps of [parseNetCDF], in the order of the code. *)
Lemma parseNetCDF_steps fileName reader :
  match findVariable reader LAT_CANDIDATES, findVariable reader LON_CANDIDATES with
  | Some latVar, Some lonVar =>
      let latData := getDataVariable reader (var_name latVar) in
      let lonData := getDataVariable reader (var_name lonVar) in
      if (List.length latData <? 2) || (List.length lonData <? 2)
      then parseNetCDF fileName reader = Throw ErrLatLonDataTooShort
      else
        match findElevationVariable reader (coordinateDimName latVar)
                                    (coordinateDimName lonVar) with
        | None => parseNetCDF fileName reader = Throw ErrElevationNotFound
        | Some elevVar =>
            match reshapeElevationGrid reader elevVar
                    (coordinateDimName latVar) (coordinateDimName lonVar)
                    (resolvedCount reader latVar) (resolvedCount reader lonVar) with
            | Throw e => parseNetCDF fileName reader = Throw e
            | Ok grid =>
                parseNetCDF fileName reader
                = Ok {| lat := firstn (resolvedCount reader latVar) latData;
                        lon := firstn (resolvedCount reader lonVar) lonData;
                        elevation := grid;
                        fileBaseName := fileBaseNameOf fileName |}
            end
        end
  | _, _ => parseNetCDF fileName reader = Throw ErrLatLonNotFound
  end.
Proof.
  unfold parseNetCDF.
  destruct (findVariable reader LAT_CANDIDATES) as [latVar|]; [|reflexivity].
  destruct (findVariable reader LON_CANDIDATES) as [lonVar|]; [|reflexivity].
  cbn zeta.
  destruct ((List.length (getDataVariable reader (var_name latVar)) <? 2)
            || (List.length (getDataVariable reader (var_name lonVar)) <? 2)) eqn:E;
    [reflexivity|].
  apply orb_false_iff in E as [E1 E2]. apply Nat.ltb_ge in E1, E2.
  destruct (findElevationVariable reader (coordinateDimName latVar)
                                  (coordinateDimName lonVar)) as [elevVar|];
    [|reflexivity].
  fold (resolvedCount reader latVar). fold (resolvedCount reader lonVar).
  destruct (reshapeElevationGrid reader elevVar (coordinateDimName latVar)
              (coordinateDimName lonVar) (resolvedCount reader latVar)
              (resolvedCount reader lonVar)) as [grid|e] eqn:R; [|reflexivity].
  cbn [bind].
  pose proof (reshape_length _ _ _ _ _ _ _ R) as [Hlen Hrows].
  pose proof (resolvedCount_pos reader latVar E1) as Hpos.
  destruct grid as [|row0 rest]; [cbn in Hlen; lia|].
  unfold Js.slice0. rewrite Hlen. rewrite (Hrows row0) by now left.
  reflexivity.
Qed.

End ParseFacts.

(* ================================================================== *)
(** * Further properties of the resolver *)
(* ================================================================== *)

Module ResolverProperties.
Import Resolver ResolverFacts Terms.
Import GridFacts StripFacts NameFacts ParseFacts.
Import Examples MoreExamples.

(** X1: a grid returned by [reshapeElevationGrid] has [latCount] rows
    of [lonCount] entries each, whichever of the two fills produced
    it; and when the buffer left by the stripping loops holds at least
    [latCount * lonCount] values, no entry of the grid is
    [undefined]. *)
Theorem reshape_grid_shape :
  forall reader v latDimName lonDimName latCount lonCount grid,
    reshapeElevationGrid reader v latDimName lonDimName latCount lonCount = Ok grid ->
    List.length grid = latCount
    /\ (forall row, In row grid -> List.length row = lonCount)
    /\ (latCount * lonCount
        <= List.length (strippedData reader v latDimName lonDimName) ->
        forall row e, In row grid -> In e row -> e <> Js.undefined).
Proof.
  intros reader v latN lonN latCount lonCount grid H.
  pose proof (reshape_length _ _ _ _ _ _ _ H) as [Hlen Hrows].
  split; [exact Hlen|]. split; [exact Hrows|].
  intros Hdata row e. apply reshape_ok in H as [-> | ->].
  - now apply fillLatMajor_defined.
  - now apply fillLonMajor_defined.
Qed.

Lemma reshape_grid_shape_witness :
  exists grid,
    reshapeElevationGrid ncTime23 var_time23 "lat" "lon" 2 3 = Ok grid
    /\ List.length grid = 2
    /\ forall row, In row grid -> List.length row = 3.
Proof.
  eexists. split; [reflexivity|].
  destruct (reshape_grid_shape ncTime23 var_time23 "lat" "lon" 2 3 _ eq_refl)
    as (H1 & H2 & _).
  split; [exact H1|exact H2].
Defined.

(** X2: reshaping inverts row-major flattening. A variable declared
    over two dimensions whose buffer is the concatenation of [R] rows
    of [C] numbers ([R] and [C] not 0) is returned, for [latCount = R]
    and [lonCount = C], as these rows, provided each declared size is
    the count ([R] for the first, [C] for the second), or is 0 (a
    record dimension) under the exact name of the coordinate
    dimension. When both sizes are declared, the names of the
    dimensions play no role. *)
Theorem reshape_of_row_major_buffer :
  forall reader v latDimName lonDimName name1 size1 name2 size2
         (rows : list (list Js.number)) (C : nat),
    declaredDims reader v = [(name1, size1); (name2, size2)] ->
    getDataVariable reader (var_name v) = List.concat rows ->
    (forall row, In row rows -> List.length row = C) ->
    0 < List.length rows ->
    0 < C ->
    size1 = List.length rows \/ (size1 = 0 /\ name1 = latDimName) ->
    size2 = C \/ (size2 = 0 /\ name2 = lonDimName) ->
    reshapeElevationGrid reader v latDimName lonDimName (List.length rows) C
    = Ok (map (map Js.num) rows).
Proof.
  intros reader v latN lonN name1 s1 name2 s2 rows C Hdims Hdata Hrows HR HC H1 H2.
  rewrite (reshape_two_declared _ _ _ _ _ _ _ _ Hdims), Hdata.
  now apply reshapeTwo_row_major.
Qed.

Lemma reshape_of_row_major_buffer_witness :
  reshapeElevationGrid ncSquare var_square "lon" "lat" 2 2
  = Ok [[Js.num 1; Js.num 2]; [Js.num 3; Js.num 4]]%float
  /\ reshapeElevationGrid ncRecordLat var_withoutTime "lat" "lon" 3 2
     = Ok [[Js.num 1; Js.num 2]; [Js.num 3; Js.num 4]; [Js.num 5; Js.num 6]]%float.
Proof.
  split.
  - apply (reshape_of_row_major_buffer ncSquare var_square "lon" "lat"
             "a" 2 "b" 2 [[1; 2]; [3; 4]]%float 2).
    + reflexivity.
    + reflexivity.
    + intros row [<- | [<- | []]]; reflexivity.
    + simpl. lia.
    + lia.
    + now left.
    + now left.
  - apply (reshape_of_row_major_buffer ncRecordLat var_withoutTime "lat" "lon"
             "lat" 0 "lon" 2 [[1; 2]; [3; 4]; [5; 6]]%float 2).
    + reflexivity.
    + reflexivity.
    + intros row [<- | [<- | [<- | []]]]; reflexivity.
    + simpl. lia.
    + lia.
    + right. now split.
    + now left.
Defined.

(** X3: a buffer stored longitude-major comes back transposed. A
    variable declared over two dimensions of non-zero sizes [C] and
    [R], [R <> C], whose buffer is the concatenation of [C] columns of
    [R] numbers is returned, for [latCount = R] and [lonCount = C], as
    [R] rows: row [j] holds the [j]-th number of each column, in the
    order of the columns. The names of the dimensions play no role. *)
Theorem reshape_of_column_major_buffer :
  forall reader v latDimName lonDimName name1 name2
         (cols : list (list Js.number)) (R : nat),
    declaredDims reader v = [(name1, List.length cols); (name2, R)] ->
    getDataVariable reader (var_name v) = List.concat cols ->
    (forall col, In col cols -> List.length col = R) ->
    0 < List.length cols ->
    0 < R ->
    R <> List.length cols ->
    reshapeElevationGrid reader v latDimName lonDimName R (List.length cols)
    = Ok (map (fun j => map (fun col => Js.index col j) cols) (seq 0 R)).
Proof.
  intros reader v latN lonN name1 name2 cols R Hdims Hdata Hcols HC HR Hne.
  rewrite (reshape_two_declared _ _ _ _ _ _ _ _ Hdims), Hdata.
  unfold reshapeTwo, firstSizeOf, secondSizeOf. cbn [fst snd].
  rewrite (or_else_pos _ _ HC), (or_else_pos _ _ HR).
  rewrite (concat_length_rect cols R Hcols), Nat.ltb_irrefl.
  apply Nat.eqb_neq in Hne. rewrite Hne, andb_false_r.
  rewrite !Nat.eqb_refl, orb_true_r. cbn [andb].
  now rewrite fillLonMajor_concat.
Qed.

Lemma reshape_of_column_major_buffer_witness :
  reshapeElevationGrid ncLonMajor var_lonMajor "lat" "lon" 2 3
  = Ok [[Js.num 1; Js.num 2; Js.num 3]; [Js.num 4; Js.num 5; Js.num 6]]%float.
Proof.
  apply (reshape_of_column_major_buffer ncLonMajor var_lonMajor "lat" "lon"
           "lon" "lat" [[1; 4]; [2; 5]; [3; 6]]%float 2).
  - reflexivity.
  - reflexivity.
  - intros col [<- | [<- | [<- | []]]]; reflexivity.
  - simpl. lia.
  - lia.
  - simpl. lia.
Defined.

(** X4: [parseNetCDF] throws one of seven errors only: its own three
    and the four of [reshapeElevationGrid]. The read of
    [elevationGrid[0].length] never fails: a grid that
    [reshapeElevationGrid] returned to it has at least one row. *)
Theorem parseNetCDF_error_kinds :
  forall fileName reader,
    match parseNetCDF fileName reader with
    | Throw e =>
        In e [ErrLatLonNotFound; ErrLatLonDataTooShort; ErrElevationNotFound;
              ErrNoDimensionInfo; ErrNotTwoDimensions; ErrDataTooShort;
              ErrDimensionOrder]
    | Ok ds => elevation ds <> []
    end.
Proof.
  intros fileName reader. pose proof (parseNetCDF_steps fileName reader) as H.
  destruct (findVariable reader LAT_CANDIDATES) as [latVar|];
    [|rewrite H; simpl; tauto].
  destruct (findVariable reader LON_CANDIDATES) as [lonVar|];
    [|rewrite H; simpl; tauto].
  cbn zeta in H.
  destruct ((List.length (getDataVariable reader (var_name latVar)) <? 2)
            || (List.length (getDataVariable reader (var_name lonVar)) <? 2)) eqn:E;
    [rewrite H; simpl; tauto|].
  apply orb_false_iff in E as [E1 _]. apply Nat.ltb_ge in E1.
  destruct (findElevationVariable reader (coordinateDimName latVar)
                                  (coordinateDimName lonVar)) as [elevVar|];
    [|rewrite H; simpl; tauto].
  destruct (reshapeElevationGrid reader elevVar (coordinateDimName latVar)
              (coordinateDimName lonVar) (resolvedCount reader latVar)
              (resolvedCount reader lonVar)) as [grid|e] eqn:R; rewrite H.
  - cbn [elevation]. apply reshape_length in R as [Hlen _].
    pose proof (resolvedCount_pos reader latVar E1).
    intros ->. cbn in Hlen. lia.
  - apply reshape_errors in R. cbn [In] in *. tauto.
Qed.

(** X5: the dataset that [parseNetCDF] returns. Its elevation grid has
    [latCount] rows of [lonCount] entries, both counts at least 1; its
    [lat] and [lon] are the first [latCount] and [lonCount] values of
    the coordinate variables (all of them when there are fewer); its
    base name comes from the file name. *)
Theorem parsed_dataset_shape :
  forall fileName reader ds,
    parseNetCDF fileName reader = Ok ds ->
    exists latVar lonVar,
      findVariable reader LAT_CANDIDATES = Some latVar
      /\ findVariable reader LON_CANDIDATES = Some lonVar
      /\ 1 <= resolvedCount reader latVar
      /\ 1 <= resolvedCount reader lonVar
      /\ List.length (elevation ds) = resolvedCount reader latVar
      /\ (forall row, In row (elevation ds) ->
            List.length row = resolvedCount reader lonVar)
      /\ lat ds = firstn (resolvedCount reader latVar)
                         (getDataVariable reader (var_name latVar))
      /\ lon ds = firstn (resolvedCount reader lonVar)
                         (getDataVariable reader (var_name lonVar))
      /\ fileBaseName ds = fileBaseNameOf fileName.
Proof.
  intros fileName reader ds Hok.
  pose proof (parseNetCDF_steps fileName reader) as H.
  destruct (findVariable reader LAT_CANDIDATES) as [latVar|];
    [|rewrite H in Hok; discriminate].
  destruct (findVariable reader LON_CANDIDATES) as [lonVar|];
    [|rewrite H in Hok; discriminate].
  cbn zeta in H.
  destruct ((List.length (getDataVariable reader (var_name latVar)) <? 2)
            || (List.length (getDataVariable reader (var_name lonVar)) <? 2)) eqn:E;
    [rewrite H in Hok; discriminate|].
  apply orb_false_iff in E as [E1 E2]. apply Nat.ltb_ge in E1, E2.
  destruct (findElevationVariable reader (coordinateDimName latVar)
                                  (coordinateDimName lonVar)) as [elevVar|];
    [|rewrite H in Hok; discriminate].
  destruct (reshapeElevationGrid reader elevVar (coordinateDimName latVar)
              (coordinateDimName lonVar) (resolvedCount reader latVar)
              (resolvedCount reader lonVar)) as [grid|e] eqn:R;
    rewrite H in Hok; [|discriminate].
  injection Hok as <-. cbn [lat lon elevation fileBaseName].
  apply reshape_length in R as [Hlen Hrows].
  exists latVar, lonVar.
  repeat (split; [first [reflexivity | assumption | now apply resolvedCount_pos]|]).
  reflexivity.
Qed.

Lemma parsed_dataset_shape_witness :
  exists ds,
    parseNetCDF "tile.nc" ncTime23 = Ok ds
    /\ List.length (elevation ds) = 2
    /\ lat ds = [10; 20]%float
    /\ lon ds = [5; 6; 7]%float
    /\ fileBaseName ds = "tile".
Proof.
  eexists. split; [reflexivity|].
  destruct (parsed_dataset_shape "tile.nc" ncTime23 _ eq_refl)
    as (latVar & lonVar & Hlat & Hlon & _ & _ & Hlen & _ & Hl & Ho & Hn).
  injection Hlat as <-. injection Hlon as <-.
  split; [exact Hlen|]. split; [exact Hl|]. split; [exact Ho|exact Hn].
Defined.

(** X6: when the coordinate dimensions are undeclared, declared with
    size 0 or declared with the length of the coordinate data, a
    dataset that [parseNetCDF] returns always passes the validation of
    [buildTerrainFromGrid], and its [lat] and [lon] are the whole
    coordinate data: [loadNcFile] then ends with the success status
    and a terrain in the scene. *)
Theorem consistent_file_always_builds :
  forall (computeBoundingBox : Three.PlaneGeometry -> Three.Box3)
         (setFromObject : Three.Vector3 -> Three.TerrainMesh -> Three.Box3)
         (ui : Viewer.Controls) (st : Viewer.Scene)
         fileName reader ds latVar lonVar,
    parseNetCDF fileName reader = Ok ds ->
    findVariable reader LAT_CANDIDATES = Some latVar ->
    findVariable reader LON_CANDIDATES = Some lonVar ->
    coordinateConsistent reader latVar ->
    coordinateConsistent reader lonVar ->
    lat ds = getDataVariable reader (var_name latVar)
    /\ lon ds = getDataVariable reader (var_name lonVar)
    /\ Viewer.validateGrid (lat ds) (lon ds) (elevation ds) = Ok tt
    /\ snd (Viewer.loadNcFile computeBoundingBox setFromObject ui fileName reader st)
       = Viewer.StatusSuccess
    /\ Viewer.terrainMesh
         (fst (Viewer.loadNcFile computeBoundingBox setFromObject ui fileName reader st))
       <> None.
Proof.
  intros cb sfo ui st fileName reader ds latVar lonVar Hok Hlat Hlon Clat Clon.
  pose proof (parseNetCDF_steps fileName reader) as H.
  rewrite Hlat, Hlon in H. cbn zeta in H.
  destruct ((List.length (getDataVariable reader (var_name latVar)) <? 2)
            || (List.length (getDataVariable reader (var_name lonVar)) <? 2)) eqn:E;
    [rewrite H in Hok; discriminate|].
  apply orb_false_iff in E as [E1 E2]. apply Nat.ltb_ge in E1, E2.
  destruct (findElevationVariable reader (coordinateDimName latVar)
                                  (coordinateDimName lonVar)) as [elevVar|];
    [|rewrite H in Hok; discriminate].
  destruct (reshapeElevationGrid reader elevVar (coordinateDimName latVar)
              (coordinateDimName lonVar) (resolvedCount reader latVar)
              (resolvedCount reader lonVar)) as [grid|e] eqn:R;
    rewrite H in Hok; [|discriminate].
  injection Hok as <-. cbn [lat lon elevation fileBaseName].
  apply reshape_length in R as [Hlen Hrows].
  rewrite (resolvedCount_consistent _ _ Clat) in *.
  rewrite (resolvedCount_consistent _ _ Clon) in *.
  rewrite !firstn_all.
  assert (Hv : Viewer.validateGrid (getDataVariable reader (var_name latVar))
                 (getDataVariable reader (var_name lonVar)) grid = Ok tt).
  { apply TerrainFacts.validateGrid_ok. repeat split; assumption. }
  split; [reflexivity|]. split; [reflexivity|]. split; [exact Hv|].
  unfold Viewer.loadNcFile. rewrite H.
  cbn [lat lon elevation fileBaseName]. rewrite !firstn_all.
  destruct (ViewerFacts.buildTerrainFromGrid_completed cb sfo ui _ _ _
              {| Viewer.fileNameBase := fileBaseNameOf fileName;
                 Viewer.sourceLabel := fileName |} st Hv)
    as (st' & mesh & Hb & Hm & _).
  rewrite Hb. cbn [fst snd]. split; [reflexivity|]. rewrite Hm. discriminate.
Qed.

Lemma consistent_file_always_builds_witness :
  snd (Viewer.loadNcFile (fun _ => ViewerExamples.unitBox)
         (fun _ _ => ViewerExamples.unitBox) ViewerExamples.controls1
         "tile.nc" ncTime23 Viewer.initialScene)
  = Viewer.StatusSuccess.
Proof.
  destruct (consistent_file_always_builds
              (fun _ => ViewerExamples.unitBox) (fun _ _ => ViewerExamples.unitBox)
              ViewerExamples.controls1 Viewer.initialScene
              "tile.nc" ncTime23 _ _ _ eq_refl eq_refl eq_refl)
    as (_ & _ & _ & H & _).
  - right. reflexivity.
  - right. reflexivity.
  - exact H.
Defined.

(** X7: what [findElevationVariable] returns. It is the first variable,
    in the order of the dataset, whose name is one of the elevation
    candidates (letter case apart), whatever its dimensions; only when
    no variable has such a name, the first variable that has both
    coordinate dimensions; and nothing when there is neither. *)
Theorem findElevationVariable_choice :
  forall reader latDimName lonDimName,
    match findElevationVariable reader latDimName lonDimName with
    | Some v =>
        exists before after,
          variables reader = before ++ v :: after
          /\ ((matchesCandidate ELEVATION_CANDIDATES v
               /\ forall u, In u before -> ~ matchesCandidate ELEVATION_CANDIDATES u)
              \/ ((forall u, In u (variables reader) ->
                     ~ matchesCandidate ELEVATION_CANDIDATES u)
                  /\ hasBothDimensions latDimName lonDimName v
                  /\ forall u, In u before ->
                       ~ hasBothDimensions latDimName lonDimName u))
    | None =>
        forall u, In u (variables reader) ->
          ~ matchesCandidate ELEVATION_CANDIDATES u
          /\ ~ hasBothDimensions latDimName lonDimName u
    end.
Proof.
  intros reader latN lonN. unfold findElevationVariable. cbn zeta.
  assert (Hname : forall u,
             Js.includes (map Js.toLowerCase ELEVATION_CANDIDATES)
                         (Js.toLowerCase (var_name u)) = true
             <-> matchesCandidate ELEVATION_CANDIDATES u).
  { intros u. rewrite includes_lower_iff. reflexivity. }
  assert (Hdims : forall u,
             Js.includes (map (fun dim => Js.toLowerCase (parseDimensionName dim))
                              (var_dimensions u)) (Js.toLowerCase latN)
             && Js.includes (map (fun dim => Js.toLowerCase (parseDimensionName dim))
                                 (var_dimensions u)) (Js.toLowerCase lonN) = true
             <-> hasBothDimensions latN lonN u).
  { intros u. unfold hasBothDimensions, Js.includes, parseDimensionName.
    rewrite andb_true_iff, !existsb_exists. split.
    - intros [[a [Ha Ea]] [b [Hb Eb]]].
      apply String.eqb_eq in Ea, Eb. subst a b. now split.
    - intros [Ha Hb]. split.
      + exists (Js.toLowerCase latN). split; [exact Ha|apply String.eqb_refl].
      + exists (Js.toLowerCase lonN). split; [exact Hb|apply String.eqb_refl]. }
  destruct (find _ (variables reader)) as [v|] eqn:F1.
  - apply find_first_split in F1 as (before & after & Hsplit & Hv & Hbefore).
    exists before, after. split; [exact Hsplit|]. left. split.
    + now apply Hname.
    + intros u Hu Hm. apply Hname in Hm. rewrite (Hbefore u Hu) in Hm. discriminate.
  - pose proof (find_none _ _ F1) as Hnone.
    assert (Hno : forall u, In u (variables reader) ->
                    ~ matchesCandidate ELEVATION_CANDIDATES u).
    { intros u Hu Hm. apply Hname in Hm. rewrite (Hnone u Hu) in Hm. discriminate. }
    match goal with
    | |- context [find ?f (variables reader)] =>
        destruct (find f (variables reader)) as [v|] eqn:F2
    end.
    + apply find_first_split in F2 as (before & after & Hsplit & Hv & Hbefore).
      exists before, after. split; [exact Hsplit|]. right.
      split; [exact Hno|]. split.
      * now apply Hdims.
      * intros u Hu Hm. apply Hdims in Hm. rewrite (Hbefore u Hu) in Hm.
        discriminate.
    + pose proof (find_none _ _ F2) as Hnone2.
      intros u Hu. split; [now apply Hno|].
      intros Hm. apply Hdims in Hm. rewrite (Hnone2 u Hu) in Hm. discriminate.
Qed.

(** X8: the two stripping loops of [reshapeElevationGrid] remove
    dimensions of size 1 only, from the two ends only, and never leave
    fewer than two: what they keep is a contiguous part of the
    declared list; what they removed in front has size 1 and is neither
    coordinate dimension, what they removed behind has size 1; a list
    of at most two dimensions is kept whole; and when more than two
    are kept, the last has a size other than 1 and the first has a
    size other than 1 or is a coordinate dimension. The function
    throws its two-dimensions error exactly when the list is not empty
    and the loops do not leave two. *)
Theorem stripping_removes_only_unit_ends :
  forall reader v latDimName lonDimName,
    let declared := declaredDims reader v in
    let kept := strippedDims reader v latDimName lonDimName in
    (exists removedFront removedBack,
        declared = removedFront ++ kept ++ removedBack
        /\ Forall (strippable latDimName lonDimName) removedFront
        /\ Forall (fun d => snd d = 1) removedBack)
    /\ (2 <= List.length declared -> 2 <= List.length kept)
    /\ (List.length declared <= 2 -> kept = declared)
    /\ (2 < List.length kept ->
        snd (last kept ("", 0)) <> 1
        /\ ~ strippable latDimName lonDimName (hd ("", 0) kept))
    /\ (forall latCount lonCount,
          reshapeElevationGrid reader v latDimName lonDimName latCount lonCount
          = Throw ErrNotTwoDimensions
          <-> declared <> [] /\ List.length kept <> 2).
Proof.
  intros reader v latN lonN declared kept.
  destruct (strip_spec latN lonN (getDataVariable reader (var_name v)) declared)
    as (pre & post & Hd & Hpre & Hpost & H2 & Hsmall & Hstop).
  fold (strippedDims reader v latN lonN) in *. fold kept in Hd, H2, Hsmall, Hstop.
  split; [now exists pre, post|].
  split; [exact H2|]. split; [exact Hsmall|]. split; [exact Hstop|].
  intros latCount lonCount. rewrite reshape_unfold. fold declared. fold kept.
  destruct declared as [|d0 declared'] eqn:Ed.
  - cbn. split; [discriminate|]. intros [Hne _]. now contradiction Hne.
  - cbn [List.length Nat.eqb].
    destruct kept as [|first [|second [|third kept']]] eqn:Ek.
    + split; [intros _; split; [discriminate|cbn; lia]|reflexivity].
    + split; [intros _; split; [discriminate|cbn; lia]|reflexivity].
    + split.
      * intros H. apply reshapeTwo_errors in H as [H | H]; discriminate.
      * intros [_ Hne]. now contradiction Hne.
    + split; [intros _; split; [discriminate|cbn; lia]|reflexivity].
Qed.

(** X9: the base name that [parseNetCDF] derives from the file name is
    never empty, and [stripNcSuffix] removes exactly a final [.nc],
    letter case apart: the name is the result followed by nothing or
    by that suffix, and it is returned unchanged exactly when it does
    not end in [.nc]. *)
Theorem fileBaseNameOf_strips_nc :
  forall name,
    fileBaseNameOf name <> ""
    /\ (exists suffix,
           name = (stripNcSuffix name ++ suffix)%string
           /\ (suffix = "" \/ Js.toLowerCase suffix = ".nc"))
    /\ (stripNcSuffix name = name
        <-> ~ exists pre suffix,
              name = (pre ++ suffix)%string /\ Js.toLowerCase suffix = ".nc").
Proof.
  intros name. split; [|split].
  - unfold fileBaseNameOf.
    destruct (String.eqb (stripNcSuffix name) "") eqn:E; [discriminate|].
    now apply String.eqb_neq.
  - unfold stripNcSuffix. cbn zeta.
    destruct ((3 <=? String.length name)
              && String.eqb (Js.toLowerCase
                               (substring (String.length name - 3) 3 name)) ".nc") eqn:E.
    + apply andb_true_iff in E as [E1 E2].
      apply Nat.leb_le in E1. apply String.eqb_eq in E2.
      exists (substring (String.length name - 3) 3 name). split; [|now right].
      pose proof (substring_split name (String.length name - 3)) as Hs.
      replace (String.length name - (String.length name - 3)) with 3 in Hs by lia.
      symmetry. apply Hs. lia.
    + exists "". split; [now rewrite append_nil_r|now left].
  - pose proof (nc_suffix_test name) as T. unfold stripNcSuffix. cbn zeta.
    destruct ((3 <=? String.length name)
              && String.eqb (Js.toLowerCase
                               (substring (String.length name - 3) 3 name)) ".nc") eqn:E.
    + split.
      * intros Heq. exfalso. apply andb_true_iff in E as [E1 _].
        apply Nat.leb_le in E1.
        pose proof (substring_prefix_length name (String.length name - 3)) as Hl.
        rewrite Heq in Hl. lia.
      * intros Hno. exfalso. apply Hno. now apply T.
    + split; [|reflexivity].
      intros _ Hex. apply T in Hex. discriminate.
Qed.

End ResolverProperties.

Module EndToEnd.
Import Resolver ResolverFacts Terms.
Import GridFacts StripFacts NameFacts ParseFacts.
Import Examples MoreExamples.

Lemma or_else_same n : Js.or_else n n = n.
Proof. unfold Js.or_else. now destruct (n =? 0). Qed.

Lemma or_else_zero n : Js.or_else n 0 = n.
Proof. unfold Js.or_else. destruct (n =? 0) eqn:E; [|reflexivity].
       apply Nat.eqb_eq in E. now subst. Qed.

(** X26: a file laid out the usual way, read through a reader that
    lists the dimensions of a variable by name (as strings, or as
    objects with a [name]), is read back as it was written. For
    coordinate variables [lat] and [lon] of at least two values over
    dimensions of their own names and sizes, and an [elevation]
    variable over [(lat, lon)] whose buffer is the concatenation of
    one row per latitude, [parseNetCDF] returns the coordinate values,
    the rows, and the base name of the file; and the same when the
    elevation is declared over [(time, lat, lon)] with a [time]
    dimension of size 1. *)
Theorem standard_file_round_trip :
  forall (asEntry : string -> DimEntry) (fileName : string)
         (latData lonData : list Js.number) (rows : list (list Js.number)),
    asEntry = DimString \/ asEntry = DimObject ->
    2 <= List.length latData ->
    2 <= List.length lonData ->
    List.length rows = List.length latData ->
    (forall row, In row rows -> List.length row = List.length lonData) ->
    let R := List.length latData in
    let C := List.length lonData in
    let v := varWith asEntry in
    let expected :=
      Ok {| lat := latData; lon := lonData;
            elevation := map (map Js.num) rows;
            fileBaseName := fileBaseNameOf fileName |} in
    parseNetCDF fileName
      {| dimensions := [dim "lat" R; dim "lon" C];
         variables := [v "lat" ["lat"] latData; v "lon" ["lon"] lonData;
                       v "elevation" ["lat"; "lon"] (List.concat rows)] |}
    = expected
    /\ parseNetCDF fileName
         {| dimensions := [dim "time" 1; dim "lat" R; dim "lon" C];
            variables := [v "time" ["time"] [0%float];
                          v "lat" ["lat"] latData; v "lon" ["lon"] lonData;
                          v "elevation" ["time"; "lat"; "lon"]
                            (List.concat rows)] |}
       = expected.
Proof.
  intros asEntry fileName latData lonData rows Hentry Hlat Hlon HR Hrows
         R C v expected.
  assert (E1 : (List.length latData <? 2) || (List.length lonData <? 2) = false).
  { apply orb_false_iff. split; apply Nat.ltb_ge; assumption. }
  assert (Hgrid : forall name1 name2,
             reshapeTwo (List.concat rows) (name1, R) (name2, C) "lat" "lon" R C
             = Ok (map (map Js.num) rows)).
  { intros name1 name2. unfold R. rewrite <- HR.
    apply reshapeTwo_row_major;
      [exact Hrows|lia|unfold C; lia|now left|now left]. }
  subst v.
  destruct Hentry as [-> | ->]; split.
  all: match goal with |- parseNetCDF _ ?rd = _ => set (reader := rd) end.
  all: pose proof (parseNetCDF_steps fileName reader) as H.
  all: match goal with
       | reader := {| dimensions := _; variables := ?vs |} |- _ =>
           match vs with
           | context [varWith ?f "elevation" ?dims _] =>
               change (findVariable reader LAT_CANDIDATES)
                 with (Some (varWith f "lat" ["lat"] latData)) in H;
               change (findVariable reader LON_CANDIDATES)
                 with (Some (varWith f "lon" ["lon"] lonData)) in H;
               cbn beta iota zeta in H;
               change (getDataVariable reader (var_name (varWith f "lat" ["lat"] latData)))
                 with latData in H;
               change (getDataVariable reader (var_name (varWith f "lon" ["lon"] lonData)))
                 with lonData in H;
               rewrite E1 in H;
               change (findElevationVariable reader
                         (coordinateDimName (varWith f "lat" ["lat"] latData))
                         (coordinateDimName (varWith f "lon" ["lon"] lonData)))
                 with (Some (varWith f "elevation" dims (List.concat rows))) in H;
               change (resolvedCount reader (varWith f "lat" ["lat"] latData))
                 with (Js.or_else R R) in H;
               change (resolvedCount reader (varWith f "lon" ["lon"] lonData))
                 with (Js.or_else C C) in H;
               rewrite !or_else_same in H;
               change (coordinateDimName (varWith f "lat" ["lat"] latData))
                 with "lat" in H;
               change (coordinateDimName (varWith f "lon" ["lon"] lonData))
                 with "lon" in H;
               assert (Hr : reshapeElevationGrid reader
                              (varWith f "elevation" dims (List.concat rows))
                              "lat" "lon" R C
                            = Ok (map (map Js.num) rows));
               [|rewrite Hr in H; rewrite H; unfold expected, R, C;
                 now rewrite !firstn_all]
           end
       end.
  1, 3: match goal with
        | |- reshapeElevationGrid ?rd ?ev _ _ _ _ = _ =>
            assert (Hd : declaredDims rd ev
                         = [("lat", Js.or_else R 0); ("lon", Js.or_else C 0)])
              by reflexivity;
            rewrite (reshape_two_declared _ _ _ _ _ _ _ _ Hd);
            rewrite !or_else_zero; apply Hgrid
        end.
  all: unfold reshapeElevationGrid;
    change (getDataVariable reader _) with (List.concat rows);
    match goal with
    | |- context [declaredDims ?rd ?ev] =>
        change (declaredDims rd ev)
          with [("time", 1); ("lat", Js.or_else R 0); ("lon", Js.or_else C 0)]
    end;
    rewrite !or_else_zero; cbn [List.length Nat.eqb];
    rewrite stripLeading_time by (cbn; try lia; discriminate);
    rewrite stripLeading_two, stripTrailing_two, sliceSize_two; cbn [snd];
    rewrite !or_else_pos by (unfold R, C; lia);
    unfold Js.slice0; rewrite firstn_all2;
    [apply Hgrid|rewrite (concat_length_rect rows C Hrows); unfold R; lia].
Qed.

Lemma standard_file_round_trip_witness :
  parseNetCDF "tile.nc"
    {| dimensions := [dim "lat" 2; dim "lon" 3];
       variables := [var "lat" ["lat"] [10; 20]%float;
                     var "lon" ["lon"] [5; 6; 7]%float;
                     var "elevation" ["lat"; "lon"] [1; 2; 3; 4; 5; 6]%float] |}
  = Ok {| lat := [10; 20]%float; lon := [5; 6; 7]%float;
          elevation := [[Js.num 1; Js.num 2; Js.num 3];
                        [Js.num 4; Js.num 5; Js.num 6]]%float;
          fileBaseName := "tile" |}.
Proof.
  destruct (standard_file_round_trip DimString "tile.nc" [10; 20]%float
              [5; 6; 7]%float [[1; 2; 3]; [4; 5; 6]]%float) as [H _].
  - now left.
  - simpl. lia.
  - simpl. lia.
  - reflexivity.
  - intros row [<- | [<- | []]]; reflexivity.
  - exact H.
Defined.

(** X29: the same file read through a reader that lists the
    dimensions of a variable by their index in [reader.dimensions].
    The index 0 is falsy: the latitude dimension name falls back on the
    variable's name [lat], the longitude dimension is named ["1"], and
    the elevation is declared over the names [""] and ["1"], which no
    dimension bears, so both declared sizes are 0 and both are replaced
    by the longitude count. The file is then rejected for a buffer too
    short when it has fewer latitudes than longitudes, rejected for its
    dimension order when it has more, and read as written only when the
    two counts are equal. With a leading [time] dimension of size 1 the
    elevation is declared over [""], ["1"] and ["2"], nothing is
    stripped, and the file is always rejected. *)
Theorem standard_file_by_index :
  forall (fileName : string) (latData lonData : list Js.number)
         (rows : list (list Js.number)),
    2 <= List.length latData ->
    2 <= List.length lonData ->
    List.length rows = List.length latData ->
    (forall row, In row rows -> List.length row = List.length lonData) ->
    let R := List.length latData in
    let C := List.length lonData in
    let expected :=
      Ok {| lat := latData; lon := lonData;
            elevation := map (map Js.num) rows;
            fileBaseName := fileBaseNameOf fileName |} in
    coordinateDimName (varAt "lat" [0] latData) = "lat"
    /\ coordinateDimName (varAt "lon" [1] lonData) = "1"
    /\ dimNamesOf (varAt "elevation" [0; 1] (List.concat rows)) = [""; "1"]
    /\ parseNetCDF fileName
         {| dimensions := [dim "lat" R; dim "lon" C];
            variables := [varAt "lat" [0] latData; varAt "lon" [1] lonData;
                          varAt "elevation" [0; 1] (List.concat rows)] |}
       = (if R <? C then Throw ErrDataTooShort
          else if R =? C then expected
               else Throw ErrDimensionOrder)
    /\ parseNetCDF fileName
         {| dimensions := [dim "time" 1; dim "lat" R; dim "lon" C];
            variables := [varAt "time" [0] [0%float];
                          varAt "lat" [1] latData; varAt "lon" [2] lonData;
                          varAt "elevation" [0; 1; 2] (List.concat rows)] |}
       = Throw ErrNotTwoDimensions.
Proof.
  intros fileName latData lonData rows Hlat Hlon HR Hrows R C expected.
  assert (E1 : (List.length latData <? 2) || (List.length lonData <? 2) = false).
  { apply orb_false_iff. split; apply Nat.ltb_ge; assumption. }
  do 3 (split; [reflexivity|]). split.
  - match goal with |- parseNetCDF _ ?rd = _ => set (reader := rd) end.
    pose proof (parseNetCDF_steps fileName reader) as H.
    change (findVariable reader LAT_CANDIDATES)
      with (Some (varAt "lat" [0] latData)) in H.
    change (findVariable reader LON_CANDIDATES)
      with (Some (varAt "lon" [1] lonData)) in H.
    cbn beta iota zeta in H.
    change (getDataVariable reader (var_name (varAt "lat" [0] latData)))
      with latData in H.
    change (getDataVariable reader (var_name (varAt "lon" [1] lonData)))
      with lonData in H.
    rewrite E1 in H.
    change (findElevationVariable reader
              (coordinateDimName (varAt "lat" [0] latData))
              (coordinateDimName (varAt "lon" [1] lonData)))
      with (Some (varAt "elevation" [0; 1] (List.concat rows))) in H.
    change (resolvedCount reader (varAt "lat" [0] latData))
      with (Js.or_else R R) in H.
    change (resolvedCount reader (varAt "lon" [1] lonData)) with C in H.
    rewrite or_else_same in H.
    change (coordinateDimName (varAt "lat" [0] latData)) with "lat" in H.
    change (coordinateDimName (varAt "lon" [1] lonData)) with "1" in H.
    assert (Hd : declaredDims reader (varAt "elevation" [0; 1] (List.concat rows))
                 = [("", 0); ("1", 0)]) by reflexivity.
    rewrite (reshape_two_declared _ _ _ _ _ _ _ _ Hd) in H.
    change (getDataVariable reader _) with (List.concat rows) in H.
    unfold reshapeTwo in H.
    change (firstSizeOf "lat" R C ("", 0)) with C in H.
    change (secondSizeOf "1" R C ("1", 0)) with C in H.
    rewrite (concat_length_rect rows C Hrows), HR in H. fold R in H.
    change (String.eqb (Js.toLowerCase (fst ("", 0))) (Js.toLowerCase "lat"))
      with false in H.
    change (String.eqb (Js.toLowerCase (fst ("", 0))) (Js.toLowerCase "1"))
      with false in H.
    cbn [orb] in H. rewrite Nat.eqb_refl in H. rewrite !andb_true_r in H.
    destruct (Nat.ltb_spec R C) as [Hlt|Hge].
    + replace (R * C <? C * C) with true in H by (symmetry; apply Nat.ltb_lt; nia).
      exact H.
    + replace (R * C <? C * C) with false in H by (symmetry; apply Nat.ltb_ge; nia).
      rewrite (Nat.eqb_sym C R) in H.
      destruct (Nat.eqb_spec R C) as [E|Hne].
      * rewrite H. unfold expected.
        assert (Hf : fillLatMajor (List.concat rows) R C = map (map Js.num) rows).
        { unfold R. rewrite <- HR. apply fillLatMajor_concat. exact Hrows. }
        rewrite Hf. unfold R, C. now rewrite !firstn_all.
      * exact H.
  - match goal with |- parseNetCDF _ ?rd = _ => set (reader := rd) end.
    pose proof (parseNetCDF_steps fileName reader) as H.
    change (findVariable reader LAT_CANDIDATES)
      with (Some (varAt "lat" [1] latData)) in H.
    change (findVariable reader LON_CANDIDATES)
      with (Some (varAt "lon" [2] lonData)) in H.
    cbn beta iota zeta in H.
    change (getDataVariable reader (var_name (varAt "lat" [1] latData)))
      with latData in H.
    change (getDataVariable reader (var_name (varAt "lon" [2] lonData)))
      with lonData in H.
    rewrite E1 in H.
    change (findElevationVariable reader
              (coordinateDimName (varAt "lat" [1] latData))
              (coordinateDimName (varAt "lon" [2] lonData)))
      with (Some (varAt "elevation" [0; 1; 2] (List.concat rows))) in H.
    cbn beta iota in H.
    replace (reshapeElevationGrid reader
               (varAt "elevation" [0; 1; 2] (List.concat rows))
               (coordinateDimName (varAt "lat" [1] latData))
               (coordinateDimName (varAt "lon" [2] lonData))
               (resolvedCount reader (varAt "lat" [1] latData))
               (resolvedCount reader (varAt "lon" [2] lonData)))
      with (@Throw Grid ErrNotTwoDimensions) in H by reflexivity.
    exact H.
Qed.

Lemma standard_file_by_index_witness :
  parseNetCDF "tile.nc"
    {| dimensions := [dim "lat" 2; dim "lon" 3];
       variables := [varAt "lat" [0] [10; 20]%float;
                     varAt "lon" [1] [5; 6; 7]%float;
                     varAt "elevation" [0; 1] [1; 2; 3; 4; 5; 6]%float] |}
  = Throw ErrDataTooShort.
Proof.
  destruct (standard_file_by_index "tile.nc" [10; 20]%float [5; 6; 7]%float
              [[1; 2; 3]; [4; 5; 6]]%float) as (_ & _ & _ & H & _).
  - simpl. lia.
  - simpl. lia.
  - reflexivity.
  - intros row [<- | [<- | []]]; reflexivity.
  - exact H.
Defined.

End EndToEnd.

(* ================================================================== *)
(** * Further facts on the viewer *)
(* ================================================================== *)

Module NumberFacts.
Import Three Viewer FloatModel FloatFacts FloatRounding FloatArith FloatPrim.
Import TerrainFacts ViewerFacts.

Lemma ord_zero : ord 0%float = 0%Z.
Proof. reflexivity. Qed.

Lemma not_le_zero_positive (t : float) :
  is_finite t = true -> (t <=? 0)%float = false -> (0 <? t)%float = true.
Proof.
  intros F H. pose proof (finite_not_nan t F) as N.
  rewrite leb_ord in H by (auto; reflexivity).
  rewrite ltb_ord by (auto; reflexivity).
  apply Z.leb_gt in H. apply Z.ltb_lt. exact H.
Qed.

Lemma Math_max_nan (a b : float) :
  is_nan a = true \/ is_nan b = true -> is_nan (Js.Math_max a b) = true.
Proof.
  intros H. unfold Js.Math_max.
  replace (is_nan a || is_nan b) with true; [reflexivity|].
  symmetry. apply orb_true_iff. exact H.
Qed.

Lemma Math_max_spec (a b : float) :
  is_nan a = false -> is_nan b = false ->
  is_nan (Js.Math_max a b) = false
  /\ (Js.Math_max a b = a \/ Js.Math_max a b = b)
  /\ (ord a <= ord (Js.Math_max a b))%Z
  /\ (ord b <= ord (Js.Math_max a b))%Z.
Proof.
  intros Na Nb. unfold Js.Math_max. rewrite Na, Nb. cbn [orb].
  rewrite !ltb_ord by assumption.
  destruct (Z.ltb_spec (ord a) (ord b)) as [H|H].
  - repeat split; auto; lia.
  - destruct (Z.ltb_spec (ord b) (ord a)) as [H'|H'].
    + repeat split; auto; lia.
    + destruct (get_sign a); repeat split; auto; lia.
Qed.

Lemma ltb_false_of_ord (a b : float) :
  is_nan a = false -> is_nan b = false -> (ord b <= ord a)%Z ->
  (a <? b)%float = false.
Proof.
  intros Na Nb H. rewrite ltb_ord by assumption. apply Z.ltb_ge. exact H.
Qed.

Lemma ord_of_ltb_false (a b : float) :
  is_nan a = false -> is_nan b = false -> (a <? b)%float = false ->
  (ord b <= ord a)%Z.
Proof.
  intros Na Nb H. rewrite ltb_ord in H by assumption. apply Z.ltb_ge. exact H.
Qed.

Lemma nonneg_not_nan (x : float) :
  sf_nonneg (Prim2SF x) = true -> is_nan x = false.
Proof.
  rewrite is_nan_spec. destruct (Prim2SF x) as [s|s| |s m e]; try discriminate;
    reflexivity.
Qed.

Lemma abs_nonneg (x : float) :
  is_nan x = false -> sf_nonneg (Prim2SF (abs x)) = true.
Proof.
  rewrite is_nan_spec, abs_spec.
  destruct (Prim2SF x) as [s|s| |s m e]; try discriminate; reflexivity.
Qed.

(** The span of a coordinate array: [Math.max(Math.abs(max - min), 1e-6)]
    for finite [min <= max]. *)
Lemma span_floor (mn mx : float) :
  is_finite mn = true -> is_finite mx = true -> (mx <? mn)%float = false ->
  is_nan (Js.Math_max (Js.Math_abs (mx - mn)%float) EPSILON) = false
  /\ (Js.Math_max (Js.Math_abs (mx - mn)%float) EPSILON <? EPSILON)%float = false.
Proof.
  intros Fmn Fmx H.
  pose proof (sub_nonneg mx mn Fmx Fmn H) as Hs.
  unfold Js.Math_abs.
  pose proof (nonneg_not_nan _ (abs_nonneg _ (nonneg_not_nan _ Hs))) as Nd.
  assert (Ne : is_nan EPSILON = false) by reflexivity.
  destruct (Math_max_spec _ _ Nd Ne) as (N & _ & _ & Hb).
  split; [exact N|]. now apply ltb_false_of_ord.
Qed.

End NumberFacts.

Module MinMaxFacts.
Import Three Viewer FloatModel FloatFacts FloatPrim TerrainFacts ViewerFacts NumberFacts.

Lemma minMaxStep_scanStep acc (v : float) :
  minMaxStep acc v = scanStep acc (Js.num v).
Proof. destruct acc. reflexivity. Qed.

Lemma fold_minMaxStep (values : list float) :
  forall acc,
    fold_left minMaxStep values acc = fold_left scanStep (map Js.num values) acc.
Proof.
  induction values as [|v values IH]; intros acc; [reflexivity|].
  cbn [fold_left map]. now rewrite minMaxStep_scanStep, IH.
Qed.

Lemma fold_scanStep_filter (l : list Js.value) :
  forall acc,
    fold_left scanStep l acc
    = fold_left scanStep (filter Js.Number_isFinite l) acc.
Proof.
  induction l as [|v l IH]; intros acc; [reflexivity|].
  cbn [fold_left filter]. destruct (Js.Number_isFinite v) eqn:F.
  - cbn [fold_left]. apply IH.
  - unfold scanStep at 2. rewrite F. cbn [negb]. apply IH.
Qed.

Lemma arrayMinMax_none (values : list float) :
  (forall v, In v values -> is_finite v = false) ->
  arrayMinMax values = (nan, nan).
Proof.
  intros H. unfold arrayMinMax.
  rewrite fold_minMaxStep, fold_scanStep_filter.
  replace (filter Js.Number_isFinite (map Js.num values)) with (@nil Js.value).
  - reflexivity.
  - symmetry. induction values as [|v values IH]; [reflexivity|].
    cbn [map filter Js.Number_isFinite]. rewrite (H v) by now left.
    apply IH. intros u Hu. apply H. now right.
Qed.

Lemma arrayMinMax_some (values : list float) (w : float) :
  In w values -> is_finite w = true ->
  exists mn mx,
    arrayMinMax values = (mn, mx)
    /\ In mn values /\ In mx values
    /\ is_finite mn = true /\ is_finite mx = true
    /\ forall v, In v values -> is_finite v = true ->
         (ord mn <= ord v <= ord mx)%Z.
Proof.
  intros Hw Fw. unfold arrayMinMax.
  rewrite fold_minMaxStep, fold_scanStep_filter.
  set (l := filter Js.Number_isFinite (map Js.num values)).
  assert (Hin : forall f, In (Js.num f) l <-> In f values /\ is_finite f = true).
  { intros f. unfold l. rewrite filter_In, in_map_iff. cbn [Js.Number_isFinite].
    split.
    - intros [(u & E & Hu) F]. injection E as ->. now split.
    - intros [Hf F]. split; [now exists f|exact F]. }
  assert (Hall : forall v, In v l -> Js.Number_isFinite v = true).
  { intros v Hv. unfold l in Hv. now apply filter_In in Hv. }
  destruct (scan_finite l Hall infinity neg_infinity eq_refl eq_refl)
    as (_ & _ & R3 & R4 & _ & _ & R7).
  destruct (fold_left scanStep l (infinity, neg_infinity)) as [mn mx].
  cbn [fst snd] in *.
  assert (Hwl : In (Js.num w) l) by (apply Hin; now split).
  pose proof (R7 w Hwl) as Bw.
  pose proof (ord_finite_bounds w Fw) as Ow.
  assert (Imn : In (Js.num mn) l).
  { destruct R3 as [-> | R3]; [|exact R3].
    rewrite ord_infinity in Bw. lia. }
  assert (Imx : In (Js.num mx) l).
  { destruct R4 as [-> | R4]; [|exact R4].
    rewrite ord_neg_infinity in Bw. lia. }
  apply Hin in Imn as [Imn Fmn]. apply Hin in Imx as [Imx Fmx].
  exists mn, mx.
  rewrite Leibniz_eqb_false by (intros ->; discriminate).
  rewrite Leibniz_eqb_false by (intros ->; discriminate).
  repeat split; auto; apply R7; apply Hin; now split.
Qed.

End MinMaxFacts.

Module SafeNameFacts.
Import Viewer Terms.

Lemma underscore_safe : safeChar "_"%char = true.
Proof. reflexivity. Qed.

Lemma safeChar_lower (c : ascii) : safeChar c = true -> Js.toLowerCase_ascii c = c.
Proof.
  unfold safeChar, Js.toLowerCase_ascii. cbn zeta.
  set (n := nat_of_ascii c). intros H.
  destruct ((65 <=? n) && (n <=? 90)) eqn:E; [|reflexivity].
  exfalso. apply andb_true_iff in E as [E1 E2].
  apply Nat.leb_le in E1, E2.
  repeat (apply orb_true_iff in H as [H|H]).
  - apply andb_true_iff in H as [H1 H2]. apply Nat.leb_le in H1. lia.
  - apply andb_true_iff in H as [H1 H2]. apply Nat.leb_le in H2. lia.
  - apply Nat.eqb_eq in H. lia.
  - apply Nat.eqb_eq in H. lia.
Qed.

(** One turn of [collapseUnsafe], with the test on the first character
    of the rest written with [Ascii.eqb]. *)
Lemma collapse_cons (c : ascii) (rest : string) :
  collapseUnsafe (String c rest)
  = match collapseUnsafe rest with
    | String d r' =>
        if Ascii.eqb d "_" && Ascii.eqb (if safeChar c then c else "_"%char) "_"
        then String d r'
        else String (if safeChar c then c else "_"%char) (String d r')
    | EmptyString => String (if safeChar c then c else "_"%char) EmptyString
    end.
Proof.
  cbn [collapseUnsafe]. destruct (collapseUnsafe rest) as [|d r']; [reflexivity|].
  destruct d as [[] [] [] [] [] [] [] []]; reflexivity.
Qed.

Lemma dropLeading_cons (d : ascii) (r : string) :
  dropLeadingUnderscore (String d r) = if Ascii.eqb d "_" then r else String d r.
Proof. destruct d as [[] [] [] [] [] [] [] []]; reflexivity. Qed.

Lemma collapse_safe (s : string) : Forall (fun c => safeChar c = true) (Page.chars (collapseUnsafe s)).
Proof.
  induction s as [|c s IH]; [constructor|].
  rewrite collapse_cons.
  assert (Hc : safeChar (if safeChar c then c else "_"%char) = true).
  { destruct (safeChar c) eqn:E; [exact E|reflexivity]. }
  destruct (collapseUnsafe s) as [|d r'].
  - repeat constructor. exact Hc.
  - destruct (_ && _); [exact IH|]. constructor; [exact Hc|exact IH].
Qed.

Lemma collapse_no_run (s : string) : noUnderscoreRun (Page.chars (collapseUnsafe s)).
Proof.
  induction s as [|c s IH]; [exact I|].
  rewrite collapse_cons.
  destruct (collapseUnsafe s) as [|d r'].
  - cbn. auto.
  - destruct (Ascii.eqb d "_" && Ascii.eqb (if safeChar c then c else "_"%char) "_")
      eqn:E; [exact IH|].
    cbn [Page.chars noUnderscoreRun] in *. split; [|exact IH].
    intros [H1 H2]. rewrite H1, H2 in E. discriminate.
Qed.

Lemma dropLeading_spec (u : string) :
  Forall (fun c => safeChar c = true) (Page.chars u) -> noUnderscoreRun (Page.chars u) ->
  Forall (fun c => safeChar c = true) (Page.chars (dropLeadingUnderscore u))
  /\ noUnderscoreRun (Page.chars (dropLeadingUnderscore u))
  /\ hd "a"%char (Page.chars (dropLeadingUnderscore u)) <> "_"%char.
Proof.
  intros Hs Hr. destruct u as [|d r]; [cbn; repeat split; auto; discriminate|].
  rewrite dropLeading_cons. destruct (Ascii.eqb_spec d "_") as [->|Hd].
  - cbn [Page.chars] in *. inversion Hs; subst. destruct Hr as [Hh Hr].
    repeat split; auto.
    destruct r as [|e r']; [cbn; discriminate|].
    cbn [Page.chars hd] in *. intros ->. now apply Hh.
  - split; [exact Hs|]. split; [exact Hr|]. exact Hd.
Qed.

Lemma dropTrailing_cons (c : ascii) (rest : string) :
  dropTrailingUnderscore (String c rest)
  = if Ascii.eqb c "_" && String.eqb rest "" then EmptyString
    else String c (dropTrailingUnderscore rest).
Proof. reflexivity. Qed.

Lemma dropTrailing_empty (w : string) :
  dropTrailingUnderscore w = "" -> w = "" \/ w = "_".
Proof.
  destruct w as [|c rest]; [now left|]. rewrite dropTrailing_cons.
  destruct (Ascii.eqb_spec c "_") as [->|Hc]; cbn [andb]; [|discriminate].
  destruct (String.eqb_spec rest "") as [->|Hr]; [now right|discriminate].
Qed.

Lemma dropTrailing_head (w : string) (d : ascii) (r : string) :
  dropTrailingUnderscore w = String d r -> exists r', w = String d r'.
Proof.
  destruct w as [|c rest]; [discriminate|]. rewrite dropTrailing_cons.
  destruct (_ && _); [discriminate|]. intros [= -> _]. now exists rest.
Qed.

Lemma dropTrailing_spec (w : string) :
  Forall (fun c => safeChar c = true) (Page.chars w) -> noUnderscoreRun (Page.chars w) ->
  Forall (fun c => safeChar c = true) (Page.chars (dropTrailingUnderscore w))
  /\ noUnderscoreRun (Page.chars (dropTrailingUnderscore w))
  /\ last (Page.chars (dropTrailingUnderscore w)) "a"%char <> "_"%char
  /\ (hd "a"%char (Page.chars w) <> "_"%char ->
      hd "a"%char (Page.chars (dropTrailingUnderscore w)) <> "_"%char).
Proof.
  induction w as [|c rest IH]; intros Hs Hr.
  - cbn. repeat split; auto; discriminate.
  - rewrite dropTrailing_cons. cbn [Page.chars] in Hs, Hr.
    inversion Hs as [|? ? Hc Hs']; subst. destruct Hr as [Hh Hr].
    destruct (IH Hs' Hr) as (I1 & I2 & I3 & _).
    destruct (Ascii.eqb c "_" && String.eqb rest "") eqn:E.
    + cbn. repeat split; auto; discriminate.
    + cbn [Page.chars hd]. split; [now constructor|]. split; [|split].
      * cbn [noUnderscoreRun]. split; [|exact I2].
        destruct (dropTrailingUnderscore rest) as [|d r] eqn:D; [exact I|].
        apply dropTrailing_head in D as [r' ->]. exact Hh.
      * destruct (dropTrailingUnderscore rest) as [|d r] eqn:D.
        -- cbn [Page.chars last]. intros ->.
           apply dropTrailing_empty in D as [-> | ->].
           ++ discriminate E.
           ++ apply Hh. now split.
        -- cbn [Page.chars] in *. exact I3.
      * auto.
Qed.

Lemma terrain_clean : cleanName "terrain".
Proof.
  split.
  - discriminate.
  - repeat constructor.
  - cbn. repeat split; intros [H _]; discriminate.
  - discriminate.
  - discriminate.
Qed.

Lemma makeSafeFilename_clean (name : string) : cleanName (makeSafeFilename name).
Proof.
  unfold makeSafeFilename.
  destruct (String.eqb name ""); [exact terrain_clean|].
  pose proof (collapse_safe (Js.toLowerCase name)) as H1.
  pose proof (collapse_no_run (Js.toLowerCase name)) as H2.
  destruct (dropLeading_spec _ H1 H2) as (L1 & L2 & L3).
  destruct (dropTrailing_spec _ L1 L2) as (T1 & T2 & T3 & T4).
  destruct (String.eqb_spec
              (dropTrailingUnderscore
                 (dropLeadingUnderscore (collapseUnsafe (Js.toLowerCase name)))) "")
    as [E|E]; [exact terrain_clean|].
  split; auto.
Qed.

(** ** A clean name is left as it is *)

Lemma lower_of_safe (t : string) : Forall (fun c => safeChar c = true) (Page.chars t) -> Js.toLowerCase t = t.
Proof.
  induction t as [|c t IH]; intros H; [reflexivity|].
  cbn [Page.chars] in H. inversion H; subst. cbn [Js.toLowerCase].
  now rewrite safeChar_lower, IH.
Qed.

Lemma collapse_of_clean (t : string) :
  Forall (fun c => safeChar c = true) (Page.chars t) -> noUnderscoreRun (Page.chars t) -> collapseUnsafe t = t.
Proof.
  induction t as [|c t IH]; intros Hs Hr; [reflexivity|].
  cbn [Page.chars] in Hs, Hr. inversion Hs as [|? ? Hc Hs']; subst.
  destruct Hr as [Hh Hr]. rewrite collapse_cons, (IH Hs' Hr), Hc.
  destruct t as [|d r']; [reflexivity|].
  destruct (Ascii.eqb_spec d "_") as [->|Hd]; [|reflexivity].
  destruct (Ascii.eqb_spec c "_") as [->|Hc']; [|reflexivity].
  exfalso. apply Hh. now split.
Qed.

Lemma dropLeading_of_clean (t : string) :
  hd "a"%char (Page.chars t) <> "_"%char -> dropLeadingUnderscore t = t.
Proof.
  destruct t as [|d r]; [reflexivity|]. rewrite dropLeading_cons. cbn [Page.chars hd].
  intros H. destruct (Ascii.eqb_spec d "_"); [contradiction|reflexivity].
Qed.

Lemma dropTrailing_of_clean (t : string) :
  last (Page.chars t) "a"%char <> "_"%char -> dropTrailingUnderscore t = t.
Proof.
  induction t as [|c t IH]; intros H; [reflexivity|].
  rewrite dropTrailing_cons.
  destruct (Ascii.eqb_spec c "_") as [->|Hc]; cbn [andb].
  - destruct (String.eqb_spec t "") as [->|Ht]; [now contradiction H|].
    f_equal. apply IH. destruct t as [|d r]; [congruence|exact H].
  - f_equal. destruct t as [|d r]; [reflexivity|]. apply IH. exact H.
Qed.

Lemma clean_fixed (t : string) : cleanName t -> makeSafeFilename t = t.
Proof.
  intros [Hne Hs Hr Hh Hl]. unfold makeSafeFilename.
  apply String.eqb_neq in Hne. rewrite Hne.
  rewrite (lower_of_safe t Hs), (collapse_of_clean t Hs Hr),
    (dropLeading_of_clean t Hh), (dropTrailing_of_clean t Hl).
  now rewrite Hne.
Qed.

End SafeNameFacts.

Module BuildFacts.
Import Three Viewer Terms FloatModel FloatFacts FloatPrim.
Import TerrainFacts ViewerFacts SceneFacts NumberFacts MinMaxFacts SafeNameFacts.

Lemma Scene_ext (a b : Scene) :
  terrainMesh a = terrainMesh b ->
  baseMesh a = baseMesh b ->
  terrainGroup_scale a = terrainGroup_scale b ->
  currentDownloadBaseName a = currentDownloadBaseName b ->
  currentSourceLabel a = currentSourceLabel b ->
  currentBaseThickness a = currentBaseThickness b ->
  downloadButton_disabled a = downloadButton_disabled b ->
  a = b.
Proof. destruct a, b. cbn. intros. subst. reflexivity. Qed.

(** The plate that [rebuildBase] leaves. *)
Lemma rebuildBase_baseMesh sfo t st :
  baseMesh (rebuildBase sfo t st)
  = match terrainMesh st with
    | Some mesh =>
        if negb (is_finite t) || (t <=? 0)%float then None
        else if minNotFinite (sfo (terrainGroup_scale st) mesh) then baseMesh st
             else Some (plateFor (sfo (terrainGroup_scale st) mesh) t)
    | None => None
    end.
Proof.
  unfold rebuildBase. destruct (terrainMesh st) as [mesh|]; [|reflexivity].
  destruct (negb (is_finite t) || (t <=? 0)%float); [reflexivity|].
  destruct (minNotFinite _); reflexivity.
Qed.

Lemma rebuildBase_other sfo t st :
  terrainGroup_scale (rebuildBase sfo t st) = terrainGroup_scale st
  /\ currentDownloadBaseName (rebuildBase sfo t st) = currentDownloadBaseName st
  /\ currentSourceLabel (rebuildBase sfo t st) = currentSourceLabel st
  /\ currentBaseThickness (rebuildBase sfo t st) = currentBaseThickness st
  /\ downloadButton_disabled (rebuildBase sfo t st) = downloadButton_disabled st.
Proof.
  unfold rebuildBase. destruct (terrainMesh st) as [mesh|]; [|now repeat split].
  destruct (negb (is_finite t) || (t <=? 0)%float); [now repeat split|].
  destruct (minNotFinite _); now repeat split.
Qed.

(** The scene that a completed [buildTerrainFromGrid] leaves. *)
Lemma build_completed_state cb sfo ui lat lon grid options st :
  validateGrid lat lon grid = Ok tt ->
  let geometry :=
    {| plane_width :=
         Js.Math_max (Js.Math_abs (snd (arrayMinMax lon) - fst (arrayMinMax lon))%float)
                     EPSILON;
       plane_height :=
         Js.Math_max (Js.Math_abs (snd (arrayMinMax lat) - fst (arrayMinMax lat))%float)
                     EPSILON;
       widthSegments := List.length lon - 1;
       heightSegments := List.length lat - 1;
       heights := terrainHeights grid (List.length lon) (List.length lat) |} in
  let bbox := cb geometry in
  let mesh :=
    {| terrain_geometry := geometry;
       terrain_position :=
         {| x := - ((x (box_min bbox) + x (box_max bbox)) / 2);
            y := - ((y (box_min bbox) + y (box_max bbox)) / 2);
            z := - z (box_min bbox) |}%float |} in
  let scale :=
    {| x := getScaleValue (scaleX_value ui);
       y := getScaleValue (scaleY_value ui);
       z := getScaleValue (scaleZ_value ui) |} in
  let t := getBaseThicknessValue ui st in
  exists st',
    buildTerrainFromGrid cb sfo ui lat lon grid options st = Completed st'
    /\ terrainMesh st' = Some mesh
    /\ baseMesh st'
       = (if negb (is_finite t) || (t <=? 0)%float then None
          else if minNotFinite (sfo scale mesh) then None
               else Some (plateFor (sfo scale mesh) t))
    /\ terrainGroup_scale st' = scale
    /\ currentDownloadBaseName st'
       = (if String.eqb (fileNameBase options) "" then "terrain"
          else makeSafeFilename (fileNameBase options))
    /\ currentSourceLabel st' = sourceLabel options
    /\ currentBaseThickness st' = t
    /\ downloadButton_disabled st' = false.
Proof.
  intros H. pose proof H as Hv. apply validateGrid_ok in Hv as (H1 & H2 & _).
  cbn zeta. unfold buildTerrainFromGrid. rewrite H.
  replace (List.length lon - 1 <=? 0) with false
    by (symmetry; apply Nat.leb_gt; lia).
  replace (List.length lat - 1 <=? 0) with false
    by (symmetry; apply Nat.leb_gt; lia).
  cbn [orb]. eexists. split; [reflexivity|].
  cbn [terrainMesh baseMesh terrainGroup_scale currentDownloadBaseName
       currentSourceLabel currentBaseThickness downloadButton_disabled].
  rewrite rebuildBase_terrainMesh, rebuildBase_baseMesh.
  match goal with
  | |- context [rebuildBase sfo ?t ?s] =>
      destruct (rebuildBase_other sfo t s) as (R1 & R2 & R3 & R4 & R5);
      rewrite R1, R2, R3, R4
  end.
  unfold set_currentBaseThickness, clearModel, getBaseThicknessValue.
  cbn [terrainMesh baseMesh terrainGroup_scale currentDownloadBaseName
       currentSourceLabel currentBaseThickness downloadButton_disabled].
  repeat split; reflexivity.
Qed.

Lemma getScaleValue_finite (v : float) : is_finite (getScaleValue v) = true.
Proof. unfold getScaleValue. destruct (is_finite v) eqn:E; [exact E|reflexivity]. Qed.

Lemma getBaseThicknessValue_finite ui st :
  is_finite (currentBaseThickness st) = true ->
  is_finite (getBaseThicknessValue ui st) = true.
Proof.
  intros H. unfold getBaseThicknessValue.
  destruct (is_finite (baseThickness_value ui)) eqn:E; [exact E|exact H].
Qed.

Lemma plateFor_depth bbox t : box_depth (base_geometry (plateFor bbox t)) = t.
Proof. reflexivity. Qed.

Lemma thickness_accepted (t : float) :
  negb (is_finite t) || (t <=? 0)%float = false ->
  is_finite t = true /\ (0 <? t)%float = true.
Proof.
  intros H. apply orb_false_iff in H as [H1 H2].
  apply negb_false_iff in H1. split; [exact H1|].
  now apply not_le_zero_positive.
Qed.

Lemma getBaseThicknessValue_twice ui st st' :
  currentBaseThickness st' = getBaseThicknessValue ui st ->
  getBaseThicknessValue ui st' = getBaseThicknessValue ui st.
Proof.
  unfold getBaseThicknessValue. intros ->.
  now destruct (is_finite (baseThickness_value ui)).
Qed.

(** A build depends on the scene it starts from through the thickness
    it reads only. *)
Lemma build_same cb sfo ui lat lon grid options st st0 :
  getBaseThicknessValue ui st0 = getBaseThicknessValue ui st ->
  validateGrid lat lon grid = Ok tt ->
  buildTerrainFromGrid cb sfo ui lat lon grid options st0
  = buildTerrainFromGrid cb sfo ui lat lon grid options st.
Proof.
  intros Et V.
  destruct (build_completed_state cb sfo ui lat lon grid options st V)
    as (st' & Hb & Ht & Hp & Hs & Hn & Hl & Hc & Hd).
  destruct (build_completed_state cb sfo ui lat lon grid options st0 V)
    as (st0' & Hb0 & Ht0 & Hp0 & Hs0 & Hn0 & Hl0 & Hc0 & Hd0).
  rewrite Hb, Hb0. f_equal. rewrite Et in *.
  apply Scene_ext; congruence.
Qed.

End BuildFacts.

Module SessionFacts.
Import Three Viewer Interaction Terms FloatModel FloatFacts FloatPrim.
Import TerrainFacts ViewerFacts SceneFacts NumberFacts SafeNameFacts BuildFacts.

Lemma initialScene_wellFormed : wellFormed initialScene.
Proof.
  split; cbn.
  - congruence.
  - repeat split; reflexivity.
  - reflexivity.
  - discriminate.
  - congruence.
  - exact terrain_clean.
Qed.

Lemma rebuildBase_wellFormed sfo t st :
  wellFormed st -> wellFormed (rebuildBase sfo t st).
Proof.
  intros [W1 W2 W3 W4 W5 W6].
  destruct (rebuildBase_other sfo t st) as (R1 & R2 & R3 & R4 & R5).
  split.
  - rewrite rebuildBase_terrainMesh, rebuildBase_baseMesh.
    destruct (terrainMesh st); congruence.
  - now rewrite R1.
  - now rewrite R4.
  - intros plate. rewrite rebuildBase_baseMesh.
    destruct (terrainMesh st) as [mesh|]; [|discriminate].
    destruct (negb (is_finite t) || (t <=? 0)%float) eqn:E; [discriminate|].
    destruct (minNotFinite _); [apply W4|].
    intros [= <-]. rewrite plateFor_depth. now apply thickness_accepted.
  - rewrite rebuildBase_terrainMesh, R5. exact W5.
  - now rewrite R2.
Qed.

Lemma set_thickness_wellFormed t st :
  is_finite t = true -> wellFormed st -> wellFormed (set_currentBaseThickness t st).
Proof. intros F [W1 W2 W3 W4 W5 W6]. split; cbn; auto. Qed.

Lemma setAxis_finite axis v s :
  is_finite v = true ->
  is_finite (x s) = true /\ is_finite (y s) = true /\ is_finite (z s) = true ->
  is_finite (x (setAxis axis v s)) = true
  /\ is_finite (y (setAxis axis v s)) = true
  /\ is_finite (z (setAxis axis v s)) = true.
Proof. intros F (Hx & Hy & Hz). destruct axis; cbn; auto. Qed.

Lemma applyScale_wellFormed sfo ui axis v st :
  wellFormed st -> wellFormed (applyScale sfo ui axis v st).
Proof.
  intros W. unfold applyScale. destruct (is_finite v) eqn:F; cbn [negb]; [|exact W].
  apply rebuildBase_wellFormed. apply set_thickness_wellFormed.
  - apply getBaseThicknessValue_finite. cbn. now destruct W.
  - destruct W as [W1 W2 W3 W4 W5 W6]. split; cbn; auto.
    now apply setAxis_finite.
Qed.

Lemma applyThickness_wellFormed sfo t st :
  wellFormed st -> wellFormed (applyThickness sfo t st).
Proof.
  intros W. unfold applyThickness.
  destruct (negb (is_finite t) || (t <=? 0)%float) eqn:E; [exact W|].
  apply thickness_accepted in E as [F _].
  apply rebuildBase_wellFormed. now apply set_thickness_wellFormed.
Qed.

Lemma build_wellFormed cb sfo ui lat lon grid options st :
  wellFormed st ->
  wellFormed (sceneOf (buildTerrainFromGrid cb sfo ui lat lon grid options st)).
Proof.
  intros W. destruct (validateGrid lat lon grid) as [[]|e] eqn:V.
  - destruct (build_completed_state cb sfo ui lat lon grid options st V)
      as (st' & Hb & Ht & Hp & Hs & Hn & _ & Hc & Hd).
    rewrite Hb. cbn [sceneOf]. split.
    + rewrite Ht. congruence.
    + rewrite Hs. cbn. repeat split; apply getScaleValue_finite.
    + rewrite Hc. apply getBaseThicknessValue_finite. now destruct W.
    + intros plate. rewrite Hp.
      destruct (negb _ || _) eqn:E; [discriminate|].
      destruct (minNotFinite _); [discriminate|].
      intros [= <-]. rewrite plateFor_depth. now apply thickness_accepted.
    + intros _. exact Hd.
    + rewrite Hn. destruct (String.eqb _ "");
        [exact terrain_clean|apply makeSafeFilename_clean].
  - rewrite (buildTerrainFromGrid_threw _ _ _ _ _ _ _ _ _ V). exact W.
Qed.

Lemma loadNcFile_scene cb sfo ui fileName reader st :
  fst (loadNcFile cb sfo ui fileName reader st) = st
  \/ exists ds,
       Resolver.parseNetCDF fileName reader = Ok ds
       /\ fst (loadNcFile cb sfo ui fileName reader st)
          = sceneOf (buildTerrainFromGrid cb sfo ui (Resolver.lat ds) (Resolver.lon ds)
                       (Resolver.elevation ds)
                       {| fileNameBase := Resolver.fileBaseName ds;
                          sourceLabel := fileName |} st).
Proof.
  unfold loadNcFile. destruct (Resolver.parseNetCDF fileName reader) as [ds|e];
    [|now left].
  right. exists ds. split; [reflexivity|].
  destruct (buildTerrainFromGrid _ _ _ _ _ _ _ _); reflexivity.
Qed.

Lemma loadSampleTerrain_scene cb sfo ui fetched st :
  fst (loadSampleTerrain cb sfo ui fetched st) = st
  \/ exists lat lon elevation,
       fst (loadSampleTerrain cb sfo ui fetched st)
       = sceneOf (buildTerrainFromGrid cb sfo ui lat lon elevation sampleOptions st).
Proof.
  unfold loadSampleTerrain. destruct fetched as [|status| |data]; try now left.
  destruct (sample_lat data) as [lat|]; [|now left].
  destruct (sample_lon data) as [lon|]; [|now left].
  destruct (sample_elevation data) as [elevation|]; [|now left].
  right. exists lat, lon, elevation.
  destruct (buildTerrainFromGrid _ _ _ _ _ _ _ _); reflexivity.
Qed.

Lemma handle_wellFormed cb sfo ui ev st :
  wellFormed st -> wellFormed (handle cb sfo ui ev st).
Proof.
  intros W. destruct ev; cbn [handle].
  - now apply applyScale_wellFormed.
  - now apply applyScale_wellFormed.
  - now apply applyThickness_wellFormed.
  - now apply applyThickness_wellFormed.
  - apply set_thickness_wellFormed; [|exact W].
    apply getBaseThicknessValue_finite. now destruct W.
  - destruct (loadNcFile_scene cb sfo ui fileName reader st) as [-> | (ds & _ & ->)];
      [exact W|now apply build_wellFormed].
  - exact W.
  - destruct (loadSampleTerrain_scene cb sfo ui fetched st)
      as [-> | (lat & lon & elevation & ->)];
      [exact W|now apply build_wellFormed].
  - exact W.
Qed.

Lemma run_wellFormed cb sfo events :
  forall st, wellFormed st -> wellFormed (run cb sfo events st).
Proof.
  unfold run. induction events as [|[ui ev] events IH]; intros st W; [exact W|].
  cbn [fold_left fst snd]. apply IH. now apply handle_wellFormed.
Qed.

End SessionFacts.

(* ================================================================== *)
(** * The export in a session *)
(* ================================================================== *)

Module ExportFacts.
Import Three Viewer Interaction Terms.
Import TerrainFacts ViewerFacts SceneFacts BuildFacts SessionFacts.










End ExportFacts.

Module ExportClaims.
Import Three Viewer Interaction Terms.
Import TerrainFacts ViewerFacts SceneFacts BuildFacts SessionFacts ExportFacts.


End ExportClaims.

(* ================================================================== *)
(** * Further properties of the viewer *)
(* ================================================================== *)

Module ViewerProperties.
Import Three Viewer Interaction Terms FloatModel FloatFacts FloatPrim.
Import TerrainFacts ViewerFacts SceneFacts.
Import NumberFacts MinMaxFacts SafeNameFacts BuildFacts SessionFacts.
Import ViewerExamples MoreExamples.

(** X10: [arrayMinMax] ignores the entries that are not finite. When
    the array has no finite entry, both results are NaN. When it has
    one, [min] and [max] are finite entries of the array, and no finite
    entry is below [min] or above [max]. *)
Theorem arrayMinMax_bounds :
  forall values : list Js.number,
    ((forall v, In v values -> is_finite v = false) ->
     arrayMinMax values = (nan, nan))
    /\ (forall w, In w values -> is_finite w = true ->
        let mn := fst (arrayMinMax values) in
        let mx := snd (arrayMinMax values) in
        In mn values /\ In mx values
        /\ is_finite mn = true /\ is_finite mx = true
        /\ forall v, In v values -> is_finite v = true ->
             (v <? mn)%float = false /\ (mx <? v)%float = false).
Proof.
  intros values. split; [apply arrayMinMax_none|].
  intros w Hw Fw. cbn zeta.
  destruct (arrayMinMax_some values w Hw Fw)
    as (mn & mx & -> & Imn & Imx & Fmn & Fmx & B).
  cbn [fst snd]. repeat split; auto.
  - apply ltb_false_of_ord; auto using finite_not_nan. now apply B.
  - apply ltb_false_of_ord; auto using finite_not_nan. now apply B.
Qed.

(** X11: what [makeSafeFilename] returns is never empty, is made of the
    characters [a-z], [0-9], [_] and [-] only, has no two underscores
    in a row and no underscore at either end; and the empty name gives
    [terrain]. *)
Theorem makeSafeFilename_is_clean :
  forall name,
    let safe := makeSafeFilename name in
    safe <> ""
    /\ Forall (fun c => safeChar c = true) (Page.chars safe)
    /\ noUnderscoreRun (Page.chars safe)
    /\ hd "a"%char (Page.chars safe) <> "_"%char
    /\ last (Page.chars safe) "a"%char <> "_"%char
    /\ makeSafeFilename "" = "terrain".
Proof.
  intros name. cbn zeta.
  destruct (makeSafeFilename_clean name) as [H1 H2 H3 H4 H5].
  repeat split; auto.
Qed.

(** X12: [makeSafeFilename] is idempotent, and the names it leaves
    unchanged are exactly the names it can return. *)
Theorem makeSafeFilename_idempotent :
  forall name,
    makeSafeFilename (makeSafeFilename name) = makeSafeFilename name
    /\ (makeSafeFilename name = name <-> cleanName name).
Proof.
  intros name. split.
  - apply clean_fixed, makeSafeFilename_clean.
  - split.
    + intros <-. apply makeSafeFilename_clean.
    + apply clean_fixed.
Qed.

(** X13: how [buildTerrainFromGrid] ends. It throws exactly when the
    validation at its head fails, with one of the four validation
    errors and the scene untouched; the check of the segment counts
    that follows [clearModel] never fires. When it completes, the
    scene it leaves does not depend on the model that was there
    before: from any scene with the same current thickness it leaves
    the same scene. *)
Theorem buildTerrainFromGrid_outcome :
  forall (computeBoundingBox : PlaneGeometry -> Box3)
         (setFromObject : Vector3 -> TerrainMesh -> Box3)
         (ui : Controls) (lat lon : list Js.number) (grid : Resolver.Grid)
         (options : Options) (st : Scene),
    match buildTerrainFromGrid computeBoundingBox setFromObject ui
                               lat lon grid options st with
    | Threw e st' =>
        st' = st
        /\ validateGrid lat lon grid = Throw e
        /\ In e [ErrLatTooShort; ErrLonTooShort; ErrRowCountMismatch;
                 ErrRowLengthMismatch]
    | Completed st' =>
        validateGrid lat lon grid = Ok tt
        /\ forall st0 : Scene,
             currentBaseThickness st0 = currentBaseThickness st ->
             buildTerrainFromGrid computeBoundingBox setFromObject ui
                                  lat lon grid options st0
             = Completed st'
    end.
Proof.
  intros cb sfo ui lat lon grid options st.
  destruct (validateGrid lat lon grid) as [[]|e] eqn:V.
  - destruct (build_completed_state cb sfo ui lat lon grid options st V)
      as (st' & Hb & Ht & Hp & Hs & Hn & Hl & Hc & Hd).
    rewrite Hb. split; [reflexivity|]. intros st0 E.
    destruct (build_completed_state cb sfo ui lat lon grid options st0 V)
      as (st0' & Hb0 & Ht0 & Hp0 & Hs0 & Hn0 & Hl0 & Hc0 & Hd0).
    rewrite Hb0. f_equal.
    assert (Et : getBaseThicknessValue ui st0 = getBaseThicknessValue ui st)
      by (unfold getBaseThicknessValue; now rewrite E).
    rewrite Et in *.
    apply Scene_ext; congruence.
  - rewrite (buildTerrainFromGrid_threw _ _ _ _ _ _ _ _ _ V).
    split; [reflexivity|]. split; [reflexivity|].
    revert V. unfold validateGrid.
    destruct (List.length lat <? 2); [intros [= <-]; simpl; tauto|].
    destruct (List.length lon <? 2); [intros [= <-]; simpl; tauto|].
    destruct (negb (List.length grid =? List.length lat));
      [intros [= <-]; simpl; tauto|].
    destruct (negb (forallb _ grid)); [intros [= <-]; simpl; tauto|].
    discriminate.
Qed.

(** X14: the plane that [buildTerrainFromGrid] creates has one segment
    fewer than the coordinates in each direction. Its width is NaN
    when [lon] has no finite entry, and otherwise a number not below
    the floor [1e-6] (it is [Infinity] when the span of finite
    longitudes overflows); the same holds for its height and
    [lat]. *)
Theorem plane_spans :
  forall (computeBoundingBox : PlaneGeometry -> Box3)
         (setFromObject : Vector3 -> TerrainMesh -> Box3)
         (ui : Controls) (lat lon : list Js.number) (grid : Resolver.Grid)
         (options : Options) (st : Scene),
    validateGrid lat lon grid = Ok tt ->
    exists st' mesh,
      buildTerrainFromGrid computeBoundingBox setFromObject ui
                           lat lon grid options st
      = Completed st'
      /\ terrainMesh st' = Some mesh
      /\ widthSegments (terrain_geometry mesh) = List.length lon - 1
      /\ heightSegments (terrain_geometry mesh) = List.length lat - 1
      /\ ((forall v, In v lon -> is_finite v = false) ->
          is_nan (plane_width (terrain_geometry mesh)) = true)
      /\ ((exists v, In v lon /\ is_finite v = true) ->
          is_nan (plane_width (terrain_geometry mesh)) = false
          /\ (plane_width (terrain_geometry mesh) <? EPSILON)%float = false)
      /\ ((forall v, In v lat -> is_finite v = false) ->
          is_nan (plane_height (terrain_geometry mesh)) = true)
      /\ ((exists v, In v lat /\ is_finite v = true) ->
          is_nan (plane_height (terrain_geometry mesh)) = false
          /\ (plane_height (terrain_geometry mesh) <? EPSILON)%float = false).
Proof.
  intros cb sfo ui lat lon grid options st V.
  destruct (build_completed_state cb sfo ui lat lon grid options st V)
    as (st' & Hb & Ht & _).
  eexists. eexists. split; [exact Hb|]. split; [exact Ht|].
  cbn [terrain_geometry widthSegments heightSegments plane_width plane_height].
  assert (Hnone : forall values : list float,
             (forall v, In v values -> is_finite v = false) ->
             is_nan (Js.Math_max
                       (Js.Math_abs (snd (arrayMinMax values)
                                     - fst (arrayMinMax values))%float)
                       EPSILON) = true).
  { intros values H. now rewrite (arrayMinMax_none values H). }
  assert (Hsome : forall values : list float,
             (exists v, In v values /\ is_finite v = true) ->
             is_nan (Js.Math_max
                       (Js.Math_abs (snd (arrayMinMax values)
                                     - fst (arrayMinMax values))%float)
                       EPSILON) = false
             /\ (Js.Math_max
                   (Js.Math_abs (snd (arrayMinMax values)
                                 - fst (arrayMinMax values))%float)
                   EPSILON <? EPSILON)%float = false).
  { intros values (w & Hw & Fw).
    destruct (arrayMinMax_some values w Hw Fw)
      as (mn & mx & -> & _ & _ & Fmn & Fmx & B).
    cbn [fst snd]. apply span_floor; auto.
    apply ltb_false_of_ord; auto using finite_not_nan.
    specialize (B w Hw Fw). lia. }
  repeat split; auto; try apply Hsome; auto.
Qed.

Lemma plane_spans_witness :
  exists st' mesh,
    buildTerrainFromGrid (fun _ => unitBox) (fun _ _ => unitBox)
      controls1 lat01 lon01 grid10 options0 initialScene
    = Completed st'
    /\ terrainMesh st' = Some mesh
    /\ widthSegments (terrain_geometry mesh) = 1
    /\ heightSegments (terrain_geometry mesh) = 1
    /\ is_nan (plane_width (terrain_geometry mesh)) = false.
Proof.
  destruct (plane_spans (fun _ => unitBox) (fun _ _ => unitBox)
              controls1 lat01 lon01 grid10 options0 initialScene eq_refl)
    as (st' & mesh & Hb & Ht & Hw & Hh & _ & Hlon & _).
  exists st', mesh. split; [exact Hb|]. split; [exact Ht|].
  split; [exact Hw|]. split; [exact Hh|].
  apply Hlon. exists 0%float. split; [now left|reflexivity].
Defined.

(** X15: a flat grid gives a flat terrain at height 0. When every
    entry of a valid grid is the same finite number, the elevation
    range is 0, the floor [1e-6] replaces it in the division, and every
    height written is exactly 0. *)
Theorem flat_grid_gives_zero_heights :
  forall (computeBoundingBox : PlaneGeometry -> Box3)
         (setFromObject : Vector3 -> TerrainMesh -> Box3)
         (ui : Controls) (lat lon : list Js.number) (grid : Resolver.Grid)
         (options : Options) (st : Scene) (v : Js.number),
    validateGrid lat lon grid = Ok tt ->
    is_finite v = true ->
    (forall row e, In row grid -> In e row -> e = Js.num v) ->
    exists st' mesh,
      buildTerrainFromGrid computeBoundingBox setFromObject ui
                           lat lon grid options st
      = Completed st'
      /\ terrainMesh st' = Some mesh
      /\ minElevOf grid (List.length lon) = v
      /\ maxElevOf grid (List.length lon) = v
      /\ elevRangeOf grid (List.length lon) = EPSILON
      /\ List.length (heights (terrain_geometry mesh))
         = List.length lat * List.length lon
      /\ forall h, In h (heights (terrain_geometry mesh)) -> h = 0%float.
Proof.
  intros cb sfo ui lat lon grid options st v V Fv Hall.
  destruct (buildTerrainFromGrid_completed cb sfo ui lat lon grid options st V)
    as (st' & mesh & Hb & Ht & Hh).
  pose proof V as V'. apply validateGrid_ok in V' as (H1 & H2 & H3 & H4).
  set (L := List.length lon) in *.
  assert (Hconcat : forall e, In e (List.concat grid) -> e = Js.num v).
  { intros e He. apply in_concat in He as (row & Hrow & He). now apply (Hall row). }
  assert (Hfin : forall e, In e (List.concat grid) -> Js.Number_isFinite e = true).
  { intros e He. now rewrite (Hconcat e He). }
  assert (Hne : List.concat grid <> []).
  { destruct grid as [|row grid']; [cbn in H3; lia|].
    pose proof (H4 row (or_introl eq_refl)) as Hr.
    destruct row as [|e row']; [cbn in Hr; lia|]. discriminate. }
  destruct (minmax_finite grid L H4 Hfin Hne) as (Imn & Imx & _).
  apply Hconcat in Imn, Imx. injection Imn as Emn. injection Imx as Emx.
  assert (Er : elevRangeOf grid L = EPSILON).
  { unfold elevRangeOf. rewrite Emn, Emx, (sub_diag v Fv). reflexivity. }
  exists st', mesh. split; [exact Hb|]. split; [exact Ht|].
  split; [exact Emn|]. split; [exact Emx|]. split; [exact Er|].
  rewrite Hh. split; [apply terrainHeights_length; unfold L; lia|].
  intros h Hin. apply terrainHeights_in in Hin as (row & col & Hr & Hc & ->);
    [|unfold L; lia|lia].
  assert (He : nth col (nth row grid []) Js.undefined = Js.num v).
  { apply Hconcat. apply (entry_in_concat grid L); auto. lia. }
  rewrite He. cbn [Js.toNumber]. unfold zScaleBaseOf. rewrite Er, Emn.
  rewrite (sub_diag v Fv). reflexivity.
Qed.

Lemma flat_grid_gives_zero_heights_witness :
  exists st' mesh,
    buildTerrainFromGrid (fun _ => unitBox) (fun _ _ => unitBox)
      controls1 lat01 lon01 gridFlat options0 initialScene
    = Completed st'
    /\ terrainMesh st' = Some mesh
    /\ heights (terrain_geometry mesh) = [0; 0; 0; 0]%float.
Proof.
  destruct (flat_grid_gives_zero_heights (fun _ => unitBox) (fun _ _ => unitBox)
              controls1 lat01 lon01 gridFlat options0 initialScene 7%float
              eq_refl eq_refl)
    as (st' & mesh & Hb & Ht & _ & _ & _ & Hlen & Hz).
  - intros row e [<- | [<- | []]] [<- | [<- | []]]; reflexivity.
  - exists st', mesh. split; [exact Hb|]. split; [exact Ht|].
    destruct (heights (terrain_geometry mesh)) as [|a [|b [|c [|d [|]]]]];
      try discriminate.
    rewrite (Hz a), (Hz b), (Hz c), (Hz d) by (simpl; tauto). reflexivity.
Defined.

End ViewerProperties.

Module HoleFacts.
Import Three Viewer FloatModel FloatFacts FloatPrim.
Import TerrainFacts ViewerFacts NumberFacts MinMaxFacts.

Lemma existsb_false {A} (f : A -> bool) (l : list A) :
  existsb f l = false -> forall v, In v l -> f v = false.
Proof.
  intros E v Hv. destruct (f v) eqn:F; [|reflexivity].
  assert (existsb f l = true); [|congruence].
  apply existsb_exists. now exists v.
Qed.

(** [minElev] and [maxElev] on a grid that may hold entries that are
    not finite. *)
Lemma minmax_none (grid : Resolver.Grid) (L : nat) :
  (forall row, In row grid -> List.length row = L) ->
  (forall v, In v (List.concat grid) -> Js.Number_isFinite v = false) ->
  minElevOf grid L = 0%float /\ maxElevOf grid L = 0%float.
Proof.
  intros Hrows Hnone. unfold minElevOf, maxElevOf.
  rewrite (scanGrid_concat grid L Hrows), fold_scanStep_filter.
  replace (filter Js.Number_isFinite (List.concat grid)) with (@nil Js.value).
  - split; reflexivity.
  - symmetry. induction (List.concat grid) as [|v l IH]; [reflexivity|].
    cbn [filter]. rewrite (Hnone v) by now left.
    apply IH. intros u Hu. apply Hnone. now right.
Qed.

Lemma minmax_some (grid : Resolver.Grid) (L : nat) (w : float) :
  (forall row, In row grid -> List.length row = L) ->
  In (Js.num w) (List.concat grid) -> is_finite w = true ->
  In (Js.num (minElevOf grid L)) (List.concat grid)
  /\ In (Js.num (maxElevOf grid L)) (List.concat grid)
  /\ is_finite (minElevOf grid L) = true
  /\ is_finite (maxElevOf grid L) = true
  /\ forall f, In (Js.num f) (List.concat grid) -> is_finite f = true ->
       (ord (minElevOf grid L) <= ord f <= ord (maxElevOf grid L))%Z.
Proof.
  intros Hrows Hw Fw. unfold minElevOf, maxElevOf.
  rewrite (scanGrid_concat grid L Hrows), fold_scanStep_filter.
  set (l := filter Js.Number_isFinite (List.concat grid)).
  assert (Hin : forall f, In (Js.num f) l
                          <-> In (Js.num f) (List.concat grid) /\ is_finite f = true).
  { intros f. unfold l. rewrite filter_In. reflexivity. }
  assert (Hall : forall v, In v l -> Js.Number_isFinite v = true).
  { intros v Hv. unfold l in Hv. now apply filter_In in Hv. }
  destruct (scan_finite l Hall infinity neg_infinity eq_refl eq_refl)
    as (_ & _ & R3 & R4 & _ & _ & R7).
  destruct (fold_left scanStep l (infinity, neg_infinity)) as [mn mx].
  cbn [fst snd] in *.
  assert (Hwl : In (Js.num w) l) by (apply Hin; now split).
  pose proof (R7 w Hwl) as Bw.
  pose proof (ord_finite_bounds w Fw) as Ow.
  assert (Imn : In (Js.num mn) l).
  { destruct R3 as [-> | R3]; [|exact R3]. rewrite ord_infinity in Bw. lia. }
  assert (Imx : In (Js.num mx) l).
  { destruct R4 as [-> | R4]; [|exact R4]. rewrite ord_neg_infinity in Bw. lia. }
  apply Hin in Imn as [Imn Fmn]. apply Hin in Imx as [Imx Fmx].
  rewrite Leibniz_eqb_false by (intros ->; discriminate).
  rewrite Leibniz_eqb_false by (intros ->; discriminate).
  repeat split; auto; apply R7; apply Hin; now split.
Qed.

(** Whatever the grid holds, [minElev <= maxElev] are finite and the
    scale factor is [+0] or a positive finite number. *)
Lemma scale_pos_finite (grid : Resolver.Grid) (L : nat) :
  (forall row, In row grid -> List.length row = L) ->
  is_finite (minElevOf grid L) = true
  /\ is_finite (maxElevOf grid L) = true
  /\ (maxElevOf grid L <? minElevOf grid L)%float = false
  /\ sf_pos_finite (Prim2SF (zScaleBaseOf grid L)) = true.
Proof.
  intros Hrows.
  assert (H : is_finite (minElevOf grid L) = true
              /\ is_finite (maxElevOf grid L) = true
              /\ (maxElevOf grid L <? minElevOf grid L)%float = false).
  { destruct (existsb Js.Number_isFinite (List.concat grid)) eqn:E.
    - apply existsb_exists in E as (v & Hv & Fv).
      destruct v as [| |b|w|a]; try discriminate Fv. cbn [Js.Number_isFinite] in Fv.
      destruct (minmax_some grid L w Hrows Hv Fv) as (_ & _ & Fmn & Fmx & B).
      split; [exact Fmn|]. split; [exact Fmx|].
      apply ltb_false_of_ord; auto using finite_not_nan.
      specialize (B w Hv Fv). lia.
    - destruct (minmax_none grid L Hrows (existsb_false _ _ E)) as [-> ->].
      repeat split; reflexivity. }
  destruct H as (Fmn & Fmx & Hle). repeat split; auto.
  unfold zScaleBaseOf, elevRangeOf.
  pose proof (sub_nonneg _ _ Fmx Fmn Hle) as Hs.
  pose proof (nonneg_not_nan _ Hs) as Nd.
  destruct (Math_max_spec _ EPSILON Nd eq_refl) as (N & _ & _ & Hb).
  apply (div_pos_finite FIXED_VISUAL_SCALE 5e-7%float _
           5404319552844595 (-54) 4722366482869645 (-73));
    [reflexivity|reflexivity|vm_compute; discriminate|].
  rewrite ltb_ord by auto. apply Z.ltb_lt.
  assert (O : (ord 5e-7 < ord EPSILON)%Z) by (vm_compute; reflexivity).
  lia.
Qed.

End HoleFacts.

Module TerrainProperties.
Import Three Viewer FloatModel FloatFacts FloatPrim.
Import TerrainFacts ViewerFacts NumberFacts MinMaxFacts HoleFacts.
Import ViewerExamples MoreExamples.

(** X27: entries that are not finite do not spoil the others. For
    every valid grid, [minElev] and [maxElev] are finite (both 0 when
    the grid has no finite entry) and bound every finite entry; the
    height written for a finite entry [f] is
    [(f - minElev) * zScaleBase], it is not below 0, and it is exactly
    0 when [f] is [minElev]. *)
Theorem finite_entries_keep_their_heights :
  forall (computeBoundingBox : PlaneGeometry -> Box3)
         (setFromObject : Vector3 -> TerrainMesh -> Box3)
         (ui : Controls) (lat lon : list Js.number) (grid : Resolver.Grid)
         (options : Options) (st : Scene),
    validateGrid lat lon grid = Ok tt ->
    let L := List.length lon in
    let minElev := minElevOf grid L in
    let maxElev := maxElevOf grid L in
    let entry row col := nth col (nth row grid []) Js.undefined in
    exists st' mesh,
      buildTerrainFromGrid computeBoundingBox setFromObject ui lat lon grid options st
      = Completed st'
      /\ terrainMesh st' = Some mesh
      /\ is_finite minElev = true
      /\ is_finite maxElev = true
      /\ ((forall row e, In row grid -> In e row -> Js.Number_isFinite e = false) ->
          minElev = 0%float /\ maxElev = 0%float)
      /\ forall row col f,
           row < List.length lat -> col < L ->
           entry row col = Js.num f -> is_finite f = true ->
           let h := nth (row * L + col) (heights (terrain_geometry mesh)) nan in
           (f <? minElev)%float = false
           /\ (maxElev <? f)%float = false
           /\ h = ((f - minElev) * zScaleBaseOf grid L)%float
           /\ (h <? 0)%float = false
           /\ (f = minElev -> h = 0%float).
Proof.
  intros cb sfo ui lat lon grid options st V L minElev maxElev entry.
  destruct (buildTerrainFromGrid_completed cb sfo ui lat lon grid options st V)
    as (st' & mesh & Hb & Ht & Hh).
  pose proof V as V'. apply validateGrid_ok in V' as (H1 & H2 & H3 & H4).
  fold L in H2, H4, Hh.
  destruct (scale_pos_finite grid L H4) as (Fmn & Fmx & Hle & Hz).
  fold minElev in Fmn, Hle. fold maxElev in Fmx, Hle.
  exists st', mesh. split; [exact Hb|]. split; [exact Ht|].
  split; [exact Fmn|]. split; [exact Fmx|]. split.
  - intros Hnone. apply (minmax_none grid L H4).
    intros v Hv. apply in_concat in Hv as (row & Hrow & Hv). now apply (Hnone row).
  - intros row col f Hr Hc E Ff. cbn zeta.
    assert (Hin : In (Js.num f) (List.concat grid)).
    { rewrite <- E. apply (entry_in_concat grid L); auto. lia. }
    destruct (minmax_some grid L f H4 Hin Ff) as (_ & _ & _ & _ & B).
    specialize (B f Hin Ff). fold minElev maxElev in B.
    assert (Hlo : (f <? minElev)%float = false)
      by (apply ltb_false_of_ord; auto using finite_not_nan; lia).
    assert (Hhi : (maxElev <? f)%float = false)
      by (apply ltb_false_of_ord; auto using finite_not_nan; lia).
    assert (Hnth : nth (row * L + col) (heights (terrain_geometry mesh)) nan
                   = ((f - minElev) * zScaleBaseOf grid L)%float).
    { rewrite Hh, (terrainHeights_nth grid L (List.length lat) row col nan Hr Hc).
      fold (entry row col). rewrite E. reflexivity. }
    split; [exact Hlo|]. split; [exact Hhi|]. split; [exact Hnth|].
    rewrite Hnth. split.
    + apply mul_nonneg; [|exact Hz]. now apply sub_nonneg.
    + intros ->. rewrite (sub_diag minElev Fmn). now apply mul_zero_l.
Qed.

Lemma finite_entries_keep_their_heights_witness :
  exists st' mesh,
    buildTerrainFromGrid (fun _ => unitBox) (fun _ _ => unitBox)
      controls1 lat01 lon01 gridNaN options0 initialScene
    = Completed st'
    /\ terrainMesh st' = Some mesh
    /\ nth 2 (heights (terrain_geometry mesh)) nan
       = ((10 - minElevOf gridNaN 2) * zScaleBaseOf gridNaN 2)%float
    /\ nth 0 (heights (terrain_geometry mesh)) nan = 0%float.
Proof.
  destruct (finite_entries_keep_their_heights (fun _ => unitBox) (fun _ _ => unitBox)
              controls1 lat01 lon01 gridNaN options0 initialScene eq_refl)
    as (st' & mesh & Hb & Ht & _ & _ & _ & H).
  exists st', mesh. split; [exact Hb|]. split; [exact Ht|]. split.
  - destruct (H 1 0 10%float) as (_ & _ & E & _);
      [simpl; lia|simpl; lia|reflexivity|reflexivity|exact E].
  - destruct (H 0 0 0%float) as (_ & _ & _ & _ & E);
      [simpl; lia|simpl; lia|reflexivity|reflexivity|].
    apply E. reflexivity.
Defined.

End TerrainProperties.

Module ControlFacts.
Import Three Viewer Interaction Terms FloatModel FloatFacts FloatPrim.
Import ViewerFacts NumberFacts BuildFacts.

Lemma or_number_not_nan (v d : float) :
  is_nan d = false -> is_nan (or_number v d) = false.
Proof.
  intros Nd. unfold or_number. destruct (is_nan v) eqn:N; cbn [orb]; [exact Nd|].
  destruct (is_zero v); [exact Nd|exact N].
Qed.

Lemma or_number_falsy (d : float) : or_number 0%float d = d.
Proof. reflexivity. Qed.

Lemma clampedValue_spec fallback dmin dmax raw minAttr maxAttr :
  is_finite fallback = true -> is_nan dmin = false -> is_nan dmax = false ->
  let lo := or_number minAttr dmin in
  let hi := or_number maxAttr dmax in
  let v := if is_finite raw then raw else fallback in
  let r := clampedValue fallback dmin dmax raw minAttr maxAttr in
  is_nan r = false
  /\ (hi <? r)%float = false
  /\ ((hi <? lo)%float = false -> (r <? lo)%float = false)
  /\ (r = hi \/ r = lo \/ r = v).
Proof.
  intros Ff Nmin Nmax lo hi v r.
  pose proof (or_number_not_nan minAttr dmin Nmin) as Nlo. fold lo in Nlo.
  pose proof (or_number_not_nan maxAttr dmax Nmax) as Nhi. fold hi in Nhi.
  assert (Nv : is_nan v = false).
  { unfold v. destruct (is_finite raw) eqn:F; now apply finite_not_nan. }
  unfold r, clampedValue. fold v. fold lo. fold hi.
  set (v1 := if (v <? lo)%float then lo else v).
  assert (Nv1 : is_nan v1 = false) by (unfold v1; destruct (v <? lo)%float; auto).
  assert (O1 : (ord lo <= ord v1)%Z).
  { unfold v1. rewrite ltb_ord by assumption.
    destruct (Z.ltb_spec (ord v) (ord lo)); lia. }
  assert (I1 : v1 = lo \/ v1 = v) by (unfold v1; destruct (v <? lo)%float; auto).
  rewrite (ltb_ord hi v1) by assumption.
  destruct (Z.ltb_spec (ord hi) (ord v1)) as [H|H].
  - split; [exact Nhi|]. split; [apply ltb_false_of_ord; auto; lia|].
    split; [|now left].
    intros Hle. exact Hle.
  - split; [exact Nv1|]. split; [apply ltb_false_of_ord; auto|].
    split; [|right; exact I1].
    intros _. now apply ltb_false_of_ord.
Qed.

(** [applyThickness] on a thickness it accepts, and on one it does not. *)
Lemma applyThickness_accepted sfo t st :
  negb (is_finite t) || (t <=? 0)%float = false ->
  applyThickness sfo t st = rebuildBase sfo t (set_currentBaseThickness t st).
Proof. intros E. unfold applyThickness. now rewrite E. Qed.

Lemma applyThickness_rejected sfo t st :
  negb (is_finite t) || (t <=? 0)%float = true -> applyThickness sfo t st = st.
Proof. intros E. unfold applyThickness. now rewrite E. Qed.

(** The scene that [applyScale] leaves for a finite value. *)
Lemma applyScale_state sfo ui axis v st mesh :
  terrainMesh st = Some mesh -> is_finite v = true ->
  let st' := applyScale sfo ui axis v st in
  let scale' := setAxis axis v (terrainGroup_scale st) in
  let t := getBaseThicknessValue ui st in
  terrainMesh st' = Some mesh
  /\ baseMesh st'
     = (if negb (is_finite t) || (t <=? 0)%float then None
        else if minNotFinite (sfo scale' mesh) then baseMesh st
             else Some (plateFor (sfo scale' mesh) t))
  /\ terrainGroup_scale st' = scale'
  /\ currentDownloadBaseName st' = currentDownloadBaseName st
  /\ currentSourceLabel st' = currentSourceLabel st
  /\ currentBaseThickness st' = t
  /\ downloadButton_disabled st' = downloadButton_disabled st.
Proof.
  intros Hm F. cbn zeta. unfold applyScale. rewrite F. cbn [negb].
  match goal with
  | |- context [rebuildBase sfo ?t ?s] =>
      destruct (BuildFacts.rebuildBase_other sfo t s) as (R1 & R2 & R3 & R4 & R5);
      rewrite rebuildBase_terrainMesh, BuildFacts.rebuildBase_baseMesh,
        R1, R2, R3, R4, R5
  end.
  cbn [set_currentBaseThickness set_terrainGroup_scale terrainMesh baseMesh
       terrainGroup_scale currentBaseThickness currentDownloadBaseName
       currentSourceLabel downloadButton_disabled].
  rewrite Hm. repeat split; reflexivity.
Qed.

Lemma setAxis_commute a1 a2 v1 v2 s :
  a1 <> a2 -> setAxis a2 v2 (setAxis a1 v1 s) = setAxis a1 v1 (setAxis a2 v2 s).
Proof. destruct a1, a2; intros H; try reflexivity; now contradiction H. Qed.

End ControlFacts.

Module SessionProperties.
Import Three Viewer Interaction Terms FloatModel FloatFacts FloatPrim.
Import TerrainFacts ViewerFacts SceneFacts.
Import NumberFacts SafeNameFacts BuildFacts SessionFacts ControlFacts.
Import ViewerExamples MoreExamples.

(** X16: the [change] listeners of the two number inputs clamp what
    they apply. The value is never NaN and never above the upper bound
    ([max], or the default when [max] is missing, zero or not a
    number); it is not below the lower bound when the bounds are in
    order. With no [min] and no [max] attribute, the scale applied is
    a finite number between 0.1 and 10, the thickness a finite number
    between 0.1 and 50, hence positive. *)
Theorem number_inputs_are_clamped :
  forall raw minAttr maxAttr : Js.number,
    (let r := scaleNumberValue raw minAttr maxAttr in
     let lo := or_number minAttr 0.1%float in
     let hi := or_number maxAttr 10%float in
     is_nan r = false
     /\ (hi <? r)%float = false
     /\ ((hi <? lo)%float = false -> (r <? lo)%float = false))
    /\ (let r := thicknessNumberValue raw minAttr maxAttr in
        let lo := or_number minAttr 0.1%float in
        let hi := or_number maxAttr 50%float in
        is_nan r = false
        /\ (hi <? r)%float = false
        /\ ((hi <? lo)%float = false -> (r <? lo)%float = false))
    /\ (let r := scaleNumberValue raw 0%float 0%float in
        is_finite r = true
        /\ (r <? 0.1)%float = false /\ (10 <? r)%float = false)
    /\ (let r := thicknessNumberValue raw 0%float 0%float in
        is_finite r = true
        /\ (r <? 0.1)%float = false /\ (50 <? r)%float = false
        /\ (0 <? r)%float = true).
Proof.
  intros raw minAttr maxAttr.
  assert (Hfin : forall (fallback hi lo : float),
             is_finite fallback = true -> is_finite hi = true ->
             is_finite lo = true ->
             forall r, (r = hi \/ r = lo
                        \/ r = (if is_finite raw then raw else fallback)) ->
               is_finite r = true).
  { intros fallback hi lo Ff Fh Fl r [-> | [-> | ->]]; auto.
    destruct (is_finite raw) eqn:F; auto. }
  unfold scaleNumberValue, thicknessNumberValue.
  split; [|split; [|split]]; cbn zeta.
  - destruct (clampedValue_spec 1 0.1 10 raw minAttr maxAttr eq_refl eq_refl eq_refl)
      as (H1 & H2 & H3 & _).
    repeat split; assumption.
  - destruct (clampedValue_spec 5 0.1 50 raw minAttr maxAttr eq_refl eq_refl eq_refl)
      as (H1 & H2 & H3 & _).
    repeat split; assumption.
  - destruct (clampedValue_spec 1 0.1 10 raw 0 0 eq_refl eq_refl eq_refl)
      as (H1 & H2 & H3 & H4).
    cbn zeta in *. rewrite !or_number_falsy in *.
    split; [|split; [now apply H3|exact H2]].
    now apply (Hfin 1 10 0.1)%float.
  - destruct (clampedValue_spec 5 0.1 50 raw 0 0 eq_refl eq_refl eq_refl)
      as (H1 & H2 & H3 & H4).
    cbn zeta in *. rewrite !or_number_falsy in *.
    specialize (H3 eq_refl).
    split; [now apply (Hfin 5 50 0.1)%float|].
    split; [exact H3|]. split; [exact H2|].
    apply ord_of_ltb_false in H3; auto.
    rewrite ltb_ord by auto. apply Z.ltb_lt.
    assert (O : (ord 0 < ord 0.1)%Z) by (vm_compute; reflexivity).
    lia.
Qed.

(** X17: whatever the events of a session and whatever the inputs hold
    when they are read, every scene reached from the initial one
    keeps these properties: a plate exists only with a terrain; the
    three scale factors of the terrain group and the current thickness
    are finite; the depth of the plate is finite and positive; the
    download button is enabled once a terrain is loaded; the download
    base name is a clean name. *)
Theorem session_keeps_scene_well_formed :
  forall (computeBoundingBox : PlaneGeometry -> Box3)
         (setFromObject : Vector3 -> TerrainMesh -> Box3)
         (events : list (Controls * Event)),
    wellFormed (run computeBoundingBox setFromObject events initialScene).
Proof.
  intros cb sfo events. apply run_wellFormed, initialScene_wellFormed.
Qed.

(** X18: the export in a session. In every scene reached from the
    initial one, [downloadSTL] either shows the not-loaded alert,
    exactly when the terrain or the plate is missing, or downloads the
    terrain and the plate under the current base name followed by
    [.stl]: the fallback name is never needed, the name is clean, the
    button that triggers it is enabled, and the plate exported has a
    finite positive depth. *)
Theorem export_in_a_session :
  forall (computeBoundingBox : PlaneGeometry -> Box3)
         (setFromObject : Vector3 -> TerrainMesh -> Box3)
         (events : list (Controls * Event)),
    let st := run computeBoundingBox setFromObject events initialScene in
    match downloadSTL st with
    | Alert msg =>
        msg = AlertNotLoaded /\ (terrainMesh st = None \/ baseMesh st = None)
    | Download fileName parts =>
        fileName = (currentDownloadBaseName st ++ ".stl")%string
        /\ cleanName (currentDownloadBaseName st)
        /\ downloadButton_disabled st = false
        /\ exists terrain plate,
             terrainMesh st = Some terrain
             /\ baseMesh st = Some plate
             /\ parts = [TerrainPart terrain (terrainGroup_scale st); BasePart plate]
             /\ is_finite (box_depth (base_geometry plate)) = true
             /\ (0 <? box_depth (base_geometry plate))%float = true
    end.
Proof.
  intros cb sfo events st.
  pose proof (run_wellFormed cb sfo events _ initialScene_wellFormed)
    as [W1 W2 W3 W4 W5 W6].
  fold st in W1, W2, W3, W4, W5, W6.
  unfold downloadSTL.
  destruct (terrainMesh st) as [terrain|] eqn:Et; [|now split; [|left]].
  destruct (baseMesh st) as [plate|] eqn:Ep; [|now split; [|right]].
  cbn [app List.length Nat.eqb].
  destruct W6 as [Hne _ _ _ _]. apply String.eqb_neq in Hne. rewrite Hne.
  split; [reflexivity|]. split; [now apply run_wellFormed, initialScene_wellFormed|].
  split; [apply W5; discriminate|].
  exists terrain, plate. destruct (W4 plate eq_refl) as [D1 D2].
  repeat split; auto.
Qed.

(** X19: the thickness control never removes the plate. In a scene
    where a plate implies a terrain, [applyThickness] leaves a scene
    that still has a plate if it had one, and the same terrain; a
    thickness that is not finite or not positive changes nothing; an
    accepted thickness becomes the current one, and the depth of the
    plate when the bounding box of the terrain group has a finite
    minimum. *)
Theorem applyThickness_keeps_the_plate :
  forall (setFromObject : Vector3 -> TerrainMesh -> Box3)
         (thickness : Js.number) (st : Scene),
    (baseMesh st <> None -> terrainMesh st <> None) ->
    let st' := applyThickness setFromObject thickness st in
    terrainMesh st' = terrainMesh st
    /\ (baseMesh st <> None -> baseMesh st' <> None)
    /\ (is_finite thickness = false \/ (thickness <=? 0)%float = true -> st' = st)
    /\ (is_finite thickness = true -> (thickness <=? 0)%float = false ->
        currentBaseThickness st' = thickness
        /\ forall mesh,
             terrainMesh st = Some mesh ->
             minNotFinite (setFromObject (terrainGroup_scale st) mesh) = false ->
             baseMesh st'
             = Some (plateFor (setFromObject (terrainGroup_scale st) mesh) thickness)).
Proof.
  intros sfo t st Hinv. cbn zeta.
  destruct (negb (is_finite t) || (t <=? 0)%float) eqn:E.
  - rewrite (applyThickness_rejected sfo t st E).
    split; [reflexivity|]. split; [auto|]. split; [reflexivity|].
    intros F L. rewrite F, L in E. discriminate.
  - rewrite (applyThickness_accepted sfo t st E).
    destruct (rebuildBase_other sfo t (set_currentBaseThickness t st))
      as (_ & _ & _ & R4 & _).
    rewrite rebuildBase_terrainMesh, rebuildBase_baseMesh, R4.
    cbn [set_currentBaseThickness terrainMesh baseMesh terrainGroup_scale
         currentBaseThickness]. rewrite E.
    split; [reflexivity|]. split; [|split].
    + intros Hb. specialize (Hinv Hb).
      destruct (terrainMesh st) as [mesh|]; [|contradiction].
      destruct (minNotFinite _); [exact Hb|discriminate].
    + intros [F | L].
      * rewrite F in E. discriminate.
      * rewrite L in E. now rewrite orb_true_r in E.
    + intros _ _. split; [reflexivity|]. intros mesh -> ->. reflexivity.
Qed.

Lemma applyThickness_keeps_the_plate_witness :
  baseMesh (applyThickness (fun _ _ => nanBox) 7%float loadedScene) = Some plate5
  /\ baseMesh (applyThickness (fun _ _ => unitBox) 7%float loadedScene)
     = Some (plateFor unitBox 7%float)
  /\ applyThickness (fun _ _ => unitBox) 0%float loadedScene = loadedScene.
Proof.
  split; [reflexivity|].
  destruct (applyThickness_keeps_the_plate (fun _ _ => unitBox) 7%float loadedScene)
    as (_ & _ & _ & H); [discriminate|].
  destruct (H eq_refl eq_refl) as [_ Hp].
  split; [now apply (Hp (plane [0; 0.3; 0.3; 0]%float))|].
  destruct (applyThickness_keeps_the_plate (fun _ _ => unitBox) 0%float loadedScene)
    as (_ & _ & H0 & _); [discriminate|].
  apply H0. right. reflexivity.
Defined.

(** X20: changes of scale. A value that is not finite changes
    nothing. A finite value is written to its axis and to no other,
    the terrain is kept, and the plate is rebuilt for the thickness the
    control holds at that moment: it is removed when that thickness is
    not accepted, kept as it was when the bounding box of the rescaled
    group has no finite minimum, and otherwise replaced by the plate
    of that bounding box. Two changes on different axes, read with the
    same controls, leave the same scene in either order whenever the
    bounding box at the final scale has a finite minimum: the plate
    depends on the final scale only. *)
Theorem applyScale_rebuilds_the_plate :
  forall (setFromObject : Vector3 -> TerrainMesh -> Box3)
         (ui : Controls) (axis : Axis) (v : Js.number) (st : Scene)
         (mesh : TerrainMesh),
    terrainMesh st = Some mesh ->
    let st' := applyScale setFromObject ui axis v st in
    let scale' := setAxis axis v (terrainGroup_scale st) in
    let t := getBaseThicknessValue ui st in
    (is_finite v = false -> st' = st)
    /\ (is_finite v = true ->
        terrainMesh st' = Some mesh
        /\ terrainGroup_scale st' = scale'
        /\ (axis <> AxisX -> x scale' = x (terrainGroup_scale st))
        /\ (axis <> AxisY -> y scale' = y (terrainGroup_scale st))
        /\ (axis <> AxisZ -> z scale' = z (terrainGroup_scale st))
        /\ currentBaseThickness st' = t
        /\ baseMesh st'
           = (if negb (is_finite t) || (t <=? 0)%float then None
              else if minNotFinite (setFromObject scale' mesh) then baseMesh st
                   else Some (plateFor (setFromObject scale' mesh) t)))
    /\ (forall (axis2 : Axis) (v2 : Js.number),
          is_finite v = true -> is_finite v2 = true -> axis <> axis2 ->
          minNotFinite (setFromObject (setAxis axis2 v2 scale') mesh) = false ->
          applyScale setFromObject ui axis2 v2 st'
          = applyScale setFromObject ui axis v
              (applyScale setFromObject ui axis2 v2 st)).
Proof.
  intros sfo ui axis v st mesh Hm. cbn zeta. split; [|split].
  - intros F. unfold applyScale. now rewrite F.
  - intros F.
    destruct (applyScale_state sfo ui axis v st mesh Hm F)
      as (S1 & S2 & S3 & _ & _ & S6 & _).
    split; [exact S1|]. split; [exact S3|].
    split; [destruct axis; intros H; try reflexivity; now contradiction H|].
    split; [destruct axis; intros H; try reflexivity; now contradiction H|].
    split; [destruct axis; intros H; try reflexivity; now contradiction H|].
    split; [exact S6|exact S2].
  - intros axis2 v2 F F2 Hne Hbox.
    destruct (applyScale_state sfo ui axis v st mesh Hm F)
      as (A1 & A2 & A3 & A4 & A5 & A6 & A7).
    destruct (applyScale_state sfo ui axis2 v2 st mesh Hm F2)
      as (B1 & B2 & B3 & B4 & B5 & B6 & B7).
    destruct (applyScale_state sfo ui axis2 v2 _ mesh A1 F2)
      as (C1 & C2 & C3 & C4 & C5 & C6 & C7).
    destruct (applyScale_state sfo ui axis v _ mesh B1 F)
      as (D1 & D2 & D3 & D4 & D5 & D6 & D7).
    rewrite (getBaseThicknessValue_twice ui st _ A6) in C2, C6.
    rewrite (getBaseThicknessValue_twice ui st _ B6) in D2, D6.
    rewrite A3 in C2, C3. rewrite B3 in D2, D3.
    rewrite <- (setAxis_commute axis axis2 v v2 _ Hne) in D2, D3.
    rewrite Hbox in C2, D2.
    apply Scene_ext; congruence.
Qed.

Lemma applyScale_rebuilds_the_plate_witness :
  baseMesh (applyScale (fun _ _ => unitBox) controls1 AxisZ 2%float loadedScene)
  = Some (plateFor unitBox 5%float)
  /\ terrainGroup_scale
       (applyScale (fun _ _ => unitBox) controls1 AxisZ 2%float loadedScene)
     = vec 1 1 2.
Proof.
  destruct (applyScale_rebuilds_the_plate (fun _ _ => unitBox) controls1 AxisZ
              2%float loadedScene (plane [0; 0.3; 0.3; 0]%float) eq_refl)
    as (_ & H & _).
  destruct (H eq_refl) as (_ & Hs & _ & _ & _ & _ & Hp).
  split; [exact Hp|exact Hs].
Defined.

(** X28: a load replaces the model. Read with the same controls,
    loading a file again leaves the scene that the first load left;
    and when the thickness input holds a finite number, loading a file
    after any other load leaves the scene that loading it alone would
    leave. *)
Theorem loadNcFile_replaces_the_model :
  forall (computeBoundingBox : PlaneGeometry -> Box3)
         (setFromObject : Vector3 -> TerrainMesh -> Box3)
         (ui : Controls) (st : Scene)
         (fileName : string) (reader : Resolver.NetCDFReader),
    let load := loadNcFile computeBoundingBox setFromObject ui in
    load fileName reader (fst (load fileName reader st)) = load fileName reader st
    /\ (is_finite (baseThickness_value ui) = true ->
        forall otherName otherReader,
          snd (load fileName reader st) = StatusSuccess ->
          load fileName reader (fst (load otherName otherReader st))
          = load fileName reader st).
Proof.
  intros cb sfo ui st fileName reader. cbn zeta.
  assert (Hsame : forall st0,
             getBaseThicknessValue ui st0 = getBaseThicknessValue ui st ->
             snd (loadNcFile cb sfo ui fileName reader st) = StatusSuccess ->
             loadNcFile cb sfo ui fileName reader st0
             = loadNcFile cb sfo ui fileName reader st).
  { intros st0 Et. unfold loadNcFile.
    destruct (Resolver.parseNetCDF fileName reader) as [ds|e]; [|discriminate].
    destruct (validateGrid (Resolver.lat ds) (Resolver.lon ds)
                           (Resolver.elevation ds)) as [[]|e] eqn:V.
    - intros _. now rewrite (build_same cb sfo ui _ _ _ _ st st0 Et V).
    - rewrite (buildTerrainFromGrid_threw _ _ _ _ _ _ _ _ _ V). discriminate. }
  split.
  - destruct (snd (loadNcFile cb sfo ui fileName reader st)) eqn:S.
    + apply Hsame; [|reflexivity].
      apply getBaseThicknessValue_twice.
      revert S. unfold loadNcFile.
      destruct (Resolver.parseNetCDF fileName reader) as [ds|e]; [|discriminate].
      destruct (validateGrid (Resolver.lat ds) (Resolver.lon ds)
                             (Resolver.elevation ds)) as [[]|e] eqn:V.
      * destruct (build_completed_state cb sfo ui _ _ _
                    {| fileNameBase := Resolver.fileBaseName ds;
                       sourceLabel := fileName |} st V)
          as (st' & Hb & _ & _ & _ & _ & _ & Hc & _).
        rewrite Hb. intros _. exact Hc.
      * rewrite (buildTerrainFromGrid_threw _ _ _ _ _ _ _ _ _ V). discriminate.
    + assert (E : fst (loadNcFile cb sfo ui fileName reader st) = st).
      { revert S. unfold loadNcFile.
        destruct (Resolver.parseNetCDF fileName reader) as [ds|e0]; [|reflexivity].
        destruct (validateGrid (Resolver.lat ds) (Resolver.lon ds)
                               (Resolver.elevation ds)) as [[]|e1] eqn:V.
        - destruct (build_completed_state cb sfo ui _ _ _
                      {| fileNameBase := Resolver.fileBaseName ds;
                         sourceLabel := fileName |} st V) as (st' & Hb & _).
          rewrite Hb. discriminate.
        - now rewrite (buildTerrainFromGrid_threw _ _ _ _ _ _ _ _ _ V). }
      now rewrite E.
  - intros F otherName otherReader S. apply Hsame; [|exact S].
    unfold getBaseThicknessValue. now rewrite F.
Qed.

End SessionProperties.

Module LoaderProperties.
Import Three Viewer Interaction Terms FloatModel FloatFacts FloatPrim.
Import TerrainFacts ViewerFacts SceneFacts.
Import NumberFacts SafeNameFacts BuildFacts SessionFacts.
Import ViewerExamples MoreExamples.

(** X24: [frameCamera] leaves the camera alone when no terrain is
    loaded or when the distance it computes is not finite. Otherwise
    the orbit target is the centre of the bounding box of the model,
    the camera is placed at that centre plus the distance on each
    axis, and the distance is a finite number not below 1.5. *)
Theorem frameCamera_distance :
  forall (setFromModel : Vector3 -> TerrainMesh -> option BaseMesh -> Box3)
         (st : Scene),
    match frameCamera setFromModel st with
    | None =>
        terrainMesh st = None
        \/ exists mesh,
             terrainMesh st = Some mesh
             /\ is_finite
                  (frameDistance
                     (setFromModel (terrainGroup_scale st) mesh (baseMesh st)))
                = false
    | Some frame =>
        exists mesh,
          terrainMesh st = Some mesh
          /\ let bbox := setFromModel (terrainGroup_scale st) mesh (baseMesh st) in
             let d := frameDistance bbox in
             is_finite d = true
             /\ (d <? 1.5)%float = false
             /\ controls_target frame = getCenter bbox
             /\ x (camera_position frame) = (x (getCenter bbox) + d)%float
             /\ y (camera_position frame) = (y (getCenter bbox) + d)%float
             /\ z (camera_position frame) = (z (getCenter bbox) + d)%float
    end.
Proof.
  intros sfm st. unfold frameCamera.
  destruct (terrainMesh st) as [mesh|]; [|now left].
  set (bbox := sfm (terrainGroup_scale st) mesh (baseMesh st)).
  destruct (is_finite (frameDistance bbox)) eqn:F; cbn [negb].
  - exists mesh. split; [reflexivity|]. cbn zeta.
    split; [exact F|]. split; [|repeat split].
    pose proof (finite_not_nan _ F) as N. unfold frameDistance in N |- *.
    cbn zeta in *.
    set (a := (Math_max3 (x (getSize bbox)) (y (getSize bbox)) (z (getSize bbox))
               * 1.8)%float) in *.
    destruct (is_nan a) eqn:Na.
    + rewrite (Math_max_nan a 1.5%float (or_introl Na)) in N. discriminate.
    + destruct (Math_max_spec a 1.5%float Na eq_refl) as (N' & _ & _ & Hb).
      apply ltb_false_of_ord; auto.
  - right. exists mesh. split; [reflexivity|exact F].
Qed.

(** X25: [loadSampleTerrain] changes the scene only by a completed
    build. When it rethrows an error, the scene is the one it was
    given, and the error is the one of the step that failed: the
    fetch, the HTTP status, the JSON body, one of the three values not
    being an array, or the validation of [buildTerrainFromGrid]. When
    it returns, the three arrays passed the validation, a terrain is
    in the scene, the download base name is [sample_terrain] and the
    source label is the one of the sample. *)
Theorem loadSampleTerrain_outcome :
  forall (computeBoundingBox : PlaneGeometry -> Box3)
         (setFromObject : Vector3 -> TerrainMesh -> Box3)
         (ui : Controls) (fetched : Fetched) (st : Scene),
    let st' := fst (loadSampleTerrain computeBoundingBox setFromObject ui fetched st) in
    match snd (loadSampleTerrain computeBoundingBox setFromObject ui fetched st) with
    | Some err =>
        st' = st
        /\ match err with
           | SampleFetch => fetched = FetchRejected
           | SampleHttp status => fetched = HttpStatus status
           | SampleJson => fetched = JsonRejected
           | SampleFormat =>
               exists data,
                 fetched = Json data
                 /\ (sample_lat data = None \/ sample_lon data = None
                     \/ sample_elevation data = None)
           | SampleBuild e =>
               exists lat lon elevation,
                 fetched = Json {| sample_lat := Some lat; sample_lon := Some lon;
                                   sample_elevation := Some elevation |}
                 /\ validateGrid lat lon elevation = Throw e
           end
    | None =>
        exists lat lon elevation,
          fetched = Json {| sample_lat := Some lat; sample_lon := Some lon;
                            sample_elevation := Some elevation |}
          /\ validateGrid lat lon elevation = Ok tt
          /\ terrainMesh st' <> None
          /\ currentDownloadBaseName st' = "sample_terrain"
          /\ currentSourceLabel st' = sourceLabel sampleOptions
          /\ downloadButton_disabled st' = false
    end.
Proof.
  intros cb sfo ui fetched st. cbn zeta. unfold loadSampleTerrain.
  destruct fetched as [|status| |[slat slon selev]]; cbn [fst snd];
    try (split; reflexivity).
  cbn [sample_lat sample_lon sample_elevation].
  destruct slat as [lat|];
    [|cbn [fst snd]; split; [reflexivity|eexists; split; [reflexivity|cbn; tauto]]].
  destruct slon as [lon|];
    [|cbn [fst snd]; split; [reflexivity|eexists; split; [reflexivity|cbn; tauto]]].
  destruct selev as [elevation|];
    [|cbn [fst snd]; split; [reflexivity|eexists; split; [reflexivity|cbn; tauto]]].
  destruct (validateGrid lat lon elevation) as [[]|e] eqn:V.
  - destruct (build_completed_state cb sfo ui lat lon elevation sampleOptions st V)
      as (st1 & Hb & Ht & _ & _ & Hn & Hl & _ & Hd).
    rewrite Hb. cbn [fst snd]. exists lat, lon, elevation.
    split; [reflexivity|]. split; [exact V|]. split; [rewrite Ht; discriminate|].
    split; [rewrite Hn; reflexivity|]. split; [exact Hl|exact Hd].
  - rewrite (buildTerrainFromGrid_threw _ _ _ _ _ _ _ _ _ V). cbn [fst snd].
    split; [reflexivity|]. exists lat, lon, elevation. split; [reflexivity|exact V].
Qed.

End LoaderProperties.

(* ================================================================== *)
(** * Properties of the page *)
(* ================================================================== *)

Module PageFacts.
Import Page.

Lemma chars_append (a b : string) : chars (a ++ b)%string = chars a ++ chars b.
Proof. induction a as [|c a IH]; cbn; [reflexivity|now rewrite IH]. Qed.

(** The six cases of [escapeChar]. *)
Lemma escapeChar_cases (ch : ascii) :
  (ch = "&"%char /\ escapeChar ch = "&amp;")
  \/ (ch = "<"%char /\ escapeChar ch = "&lt;")
  \/ (ch = ">"%char /\ escapeChar ch = "&gt;")
  \/ (ch = quoteChar /\ escapeChar ch = "&quot;")
  \/ (ch = "'"%char /\ escapeChar ch = "&#39;")
  \/ (ch <> "&"%char /\ ch <> "<"%char /\ ch <> ">"%char /\ ch <> quoteChar
      /\ ch <> "'"%char /\ escapeChar ch = String ch "").
Proof.
  unfold escapeChar.
  destruct (Ascii.eqb_spec ch "&") as [->|H1]; [now left|].
  destruct (Ascii.eqb_spec ch "<") as [->|H2]; [right; now left|].
  destruct (Ascii.eqb_spec ch ">") as [->|H3]; [right; right; now left|].
  destruct (Ascii.eqb_spec ch quoteChar) as [->|H4]; [right; right; right; now left|].
  destruct (Ascii.eqb_spec ch "'") as [->|H5];
    [right; right; right; right; now left|].
  right; right; right; right; right. repeat split; auto.
Qed.

Lemma escapeHtml_cons (ch : ascii) (rest : string) :
  escapeHtml (String ch rest) = (escapeChar ch ++ escapeHtml rest)%string.
Proof. reflexivity. Qed.

(** Reading an occurrence of the ampersand in a string that begins
    with another character. *)
Lemma ampersand_not_first (a : ascii) (x pre post : string) :
  a <> "&"%char ->
  String a x = (pre ++ String "&" post)%string ->
  exists pre', pre = String a pre' /\ x = (pre' ++ String "&" post)%string.
Proof.
  intros Ha H. destruct pre as [|p pre']; cbn [append] in H.
  - injection H as E _. contradiction.
  - injection H as -> ->. now exists pre'.
Qed.

Lemma escapeChar_step (c d : ascii) (A B : string) :
  (escapeChar c ++ A)%string = (escapeChar d ++ B)%string -> c = d /\ A = B.
Proof.
  destruct (escapeChar_cases c)
    as [[-> ->]|[[-> ->]|[[-> ->]|[[-> ->]|[[-> ->]|(C1 & C2 & C3 & C4 & C5 & ->)]]]]];
  destruct (escapeChar_cases d)
    as [[-> ->]|[[-> ->]|[[-> ->]|[[-> ->]|[[-> ->]|(D1 & D2 & D3 & D4 & D5 & ->)]]]]];
  cbn [append]; intros H;
    try discriminate H;
    try (injection H as ->; now split);
    try (injection H as E _; congruence);
    try (injection H as -> ->; now split).
Qed.

Lemma escapeHtml_nonempty (ch : ascii) (rest : string) :
  escapeHtml (String ch rest) <> "".
Proof.
  rewrite escapeHtml_cons.
  destruct (escapeChar_cases ch)
    as [[_ ->]|[[_ ->]|[[_ ->]|[[_ ->]|[[_ ->]|(_ & _ & _ & _ & _ & ->)]]]]];
    discriminate.
Qed.

Lemma In_classList_remove tokens cl c :
  In c (classList_remove tokens cl) <-> In c cl /\ ~ In c tokens.
Proof.
  unfold classList_remove, Js.includes. rewrite filter_In, negb_true_iff.
  split; intros [H1 H2]; (split; [exact H1|]).
  - intros Hin. assert (existsb (String.eqb c) tokens = true); [|congruence].
    apply existsb_exists. exists c. split; [exact Hin|apply String.eqb_refl].
  - destruct (existsb (String.eqb c) tokens) eqn:E; [|reflexivity].
    apply existsb_exists in E as (t & Ht & Et). apply String.eqb_eq in Et.
    subst t. contradiction.
Qed.

Lemma In_classList_add token cl c :
  In c (classList_add token cl) <-> In c cl \/ c = token.
Proof.
  unfold classList_add, Js.includes.
  destruct (existsb (String.eqb token) cl) eqn:E.
  - apply existsb_exists in E as (t & Ht & Et). apply String.eqb_eq in Et. subst t.
    split; [now left|]. intros [H| ->]; assumption.
  - rewrite in_app_iff. cbn [In]. split.
    + intros [H|[H|[]]]; [now left|right; now symmetry].
    + intros [H| ->]; [now left|right; now left].
Qed.

Lemma NoDup_classList_remove tokens cl :
  NoDup cl -> NoDup (classList_remove tokens cl).
Proof. apply NoDup_filter. Qed.

Lemma NoDup_classList_add token cl :
  NoDup cl -> NoDup (classList_add token cl).
Proof.
  intros H. unfold classList_add, Js.includes.
  destruct (existsb (String.eqb token) cl) eqn:E; [exact H|].
  apply NoDup_app; [exact H|repeat constructor; intros []|].
  intros c Hc [Ec|[]]. subst c.
  assert (existsb (String.eqb token) cl = true); [|congruence].
  apply existsb_exists. exists token. split; [exact Hc|apply String.eqb_refl].
Qed.

End PageFacts.

Module PageProperties.
Import Page PageFacts MoreExamples.

(** X21: the text that [escapeHtml] returns holds none of the
    characters [<], [>], double quote and single quote, and every
    ampersand in it begins one of the five entities that the function
    writes. *)
Theorem escapeHtml_leaves_no_markup :
  forall value : string,
    Forall (fun c => c <> "<"%char /\ c <> ">"%char /\ c <> quoteChar
                     /\ c <> "'"%char)
           (chars (escapeHtml value))
    /\ forall pre post,
         escapeHtml value = (pre ++ String "&" post)%string ->
         exists rest,
           post = ("amp;" ++ rest)%string \/ post = ("lt;" ++ rest)%string
           \/ post = ("gt;" ++ rest)%string \/ post = ("quot;" ++ rest)%string
           \/ post = ("#39;" ++ rest)%string.
Proof.
  intros value. split.
  - induction value as [|ch value IH]; [constructor|].
    rewrite escapeHtml_cons, chars_append. apply Forall_app. split; [|exact IH].
    destruct (escapeChar_cases ch)
      as [[_ ->]|[[_ ->]|[[_ ->]|[[_ ->]|[[_ ->]|(_ & C2 & C3 & C4 & C5 & ->)]]]]];
      cbn [chars]; repeat constructor; try discriminate; assumption.
  - induction value as [|ch value IH]; intros pre post H.
    + destruct pre; discriminate H.
    + rewrite escapeHtml_cons in H.
      destruct (escapeChar_cases ch)
        as [[_ E]|[[_ E]|[[_ E]|[[_ E]|[[_ E]|(C1 & _ & _ & _ & _ & E)]]]]];
        rewrite E in H; cbn [append] in H.
      * destruct pre as [|p pre]; cbn [append] in H.
        { injection H as <-. exists (escapeHtml value). now left. }
        injection H as _ H.
        do 4 (apply ampersand_not_first in H as (pre' & -> & H);
              [rename pre' into pre|discriminate]).
        exact (IH pre post H).
      * destruct pre as [|p pre]; cbn [append] in H.
        { injection H as <-. exists (escapeHtml value). right. now left. }
        injection H as _ H.
        do 3 (apply ampersand_not_first in H as (pre' & -> & H);
              [rename pre' into pre|discriminate]).
        exact (IH pre post H).
      * destruct pre as [|p pre]; cbn [append] in H.
        { injection H as <-. exists (escapeHtml value). right. right. now left. }
        injection H as _ H.
        do 3 (apply ampersand_not_first in H as (pre' & -> & H);
              [rename pre' into pre|discriminate]).
        exact (IH pre post H).
      * destruct pre as [|p pre]; cbn [append] in H.
        { injection H as <-. exists (escapeHtml value). right. right. right.
          now left. }
        injection H as _ H.
        do 5 (apply ampersand_not_first in H as (pre' & -> & H);
              [rename pre' into pre|discriminate]).
        exact (IH pre post H).
      * destruct pre as [|p pre]; cbn [append] in H.
        { injection H as <-. exists (escapeHtml value). right. right. right.
          now right. }
        injection H as _ H.
        do 4 (apply ampersand_not_first in H as (pre' & -> & H);
              [rename pre' into pre|discriminate]).
        exact (IH pre post H).
      * apply ampersand_not_first in H as (pre' & -> & H); [|exact C1].
        exact (IH pre' post H).
Qed.

(** X22: [escapeHtml] loses nothing: two strings have the same escaped
    text exactly when they are the same string. *)
Theorem escapeHtml_is_injective :
  forall a b : string, escapeHtml a = escapeHtml b <-> a = b.
Proof.
  intros a b. split; [|now intros ->]. revert b.
  induction a as [|c a IH]; intros [|d b] H.
  - reflexivity.
  - symmetry in H. now apply escapeHtml_nonempty in H.
  - now apply escapeHtml_nonempty in H.
  - rewrite !escapeHtml_cons in H. apply escapeChar_step in H as [-> H].
    f_equal. now apply IH.
Qed.

(** X23: [setStatus] does nothing without a status element. With one,
    it sets the text to the message and leaves the class list with the
    class [error] exactly when the type is [error], with the class
    [success] exactly when the type is [success], never with both, and
    with every other class it had, none twice if none was. *)
Theorem setStatus_classes :
  forall (message type : string) (el : StatusLine),
    setStatus message type None = None
    /\ exists el',
         setStatus message type (Some el) = Some el'
         /\ textContent el' = message
         /\ (In "error" (classList el') <-> type = "error")
         /\ (In "success" (classList el') <-> type = "success")
         /\ ~ (In "error" (classList el') /\ In "success" (classList el'))
         /\ (forall c, c <> "error" -> c <> "success" ->
               (In c (classList el') <-> In c (classList el)))
         /\ (NoDup (classList el) -> NoDup (classList el')).
Proof.
  intros message type el. split; [reflexivity|].
  eexists. split; [reflexivity|]. cbn [textContent classList].
  split; [reflexivity|].
  set (cl := classList_remove ["error"; "success"] (classList el)).
  assert (Hcl : forall c, In c cl
                          <-> In c (classList el) /\ c <> "error" /\ c <> "success").
  { intros c. unfold cl. rewrite In_classList_remove. cbn [In].
    split; intros [H1 H2]; (split; [exact H1|]).
    - split; intros ->; apply H2; auto.
    - intros [<-|[<-|[]]]; now destruct H2. }
  assert (He : In "error" (if String.eqb type "error" then classList_add "error" cl
                           else if String.eqb type "success"
                                then classList_add "success" cl else cl)
               <-> type = "error").
  { destruct (String.eqb_spec type "error") as [->|Hn].
    - rewrite In_classList_add. split; auto.
    - destruct (String.eqb_spec type "success") as [->|Hn'].
      + rewrite In_classList_add, Hcl. split; [|contradiction].
        intros [[_ [H _]]|H]; [now contradiction H|discriminate].
      + rewrite Hcl. split; [|contradiction]. intros [_ [H _]]. now contradiction H. }
  assert (Hs : In "success" (if String.eqb type "error" then classList_add "error" cl
                             else if String.eqb type "success"
                                  then classList_add "success" cl else cl)
               <-> type = "success").
  { destruct (String.eqb_spec type "error") as [->|Hn].
    - rewrite In_classList_add, Hcl. split; [|discriminate].
      intros [[_ [_ H]]|H]; [now contradiction H|discriminate].
    - destruct (String.eqb_spec type "success") as [->|Hn'].
      + rewrite In_classList_add. split; auto.
      + rewrite Hcl. split; [|contradiction]. intros [_ [_ H]]. now contradiction H. }
  split; [exact He|]. split; [exact Hs|]. split; [|split].
  - intros [H1 H2]. apply He in H1. apply Hs in H2. congruence.
  - intros c C1 C2.
    destruct (String.eqb type "error");
      [|destruct (String.eqb type "success")];
      rewrite ?In_classList_add, Hcl; tauto.
  - intros Hnd. pose proof (NoDup_classList_remove ["error"; "success"] _ Hnd) as H.
    fold cl in H.
    destruct (String.eqb type "error");
      [|destruct (String.eqb type "success")];
      auto using NoDup_classList_add.
Qed.

End PageProperties.

(* ================================================================== *)
(** * Scenarios *)
(* ================================================================== *)

Module Scenarios.
Import Resolver Three Viewer Examples ViewerExamples.

(** The scenario of the specification: [lat = [0, 1]], [lon = [0, 1]],
    [elevation = [[0, 10], [10, 0]]] gives the heights
    [0, 0.3, 0.3, 0] in row-major order. *)
Example scenario_two_by_two_heights :
  validateGrid lat01 lon01 grid10 = Ok tt
  /\ terrainHeights grid10 2 2
     = [0; FIXED_VISUAL_SCALE; FIXED_VISUAL_SCALE; 0]%float.
Proof. split; vm_compute; reflexivity. Qed.

(** The scenario of the specification: a variable over
    [(time = 1, lat = 2, lon = 3)] is reshaped into the 2 x 3 grid of its
    six values, row-major. *)
Example scenario_time_lat_lon :
  reshapeElevationGrid ncTime23 var_time23 "lat" "lon" 2 3
  = Ok [[Js.num 1; Js.num 2; Js.num 3]; [Js.num 4; Js.num 5; Js.num 6]]%float.
Proof. reflexivity. Qed.

Example scenario_parse_time_lat_lon :
  option_map elevation
    (match parseNetCDF "tile.nc" ncTime23 with Ok ds => Some ds | Throw _ => None end)
  = Some [[Js.num 1; Js.num 2; Js.num 3]; [Js.num 4; Js.num 5; Js.num 6]]%float.
Proof. reflexivity. Qed.

(** A longitude-major variable is transposed. *)
Example scenario_lon_lat :
  reshapeTwo [1; 2; 3; 4; 5; 6]%float ("lon", 3) ("lat", 2) "lat" "lon" 2 3
  = Ok [[Js.num 1; Js.num 3; Js.num 5]; [Js.num 2; Js.num 4; Js.num 6]]%float.
Proof. reflexivity. Qed.

Example trailing_singletons_are_popped :
  stripTrailing [("lat", 2); ("lon", 3); ("band", 1); ("level", 1)]
  = [("lat", 2); ("lon", 3)].
Proof. reflexivity. Qed.

Example safe_file_names :
  makeSafeFilename "My File__(v2).NC" = "my_file_v2_nc"
  /\ makeSafeFilename "__a--b__" = "a--b"
  /\ makeSafeFilename "???" = "terrain"
  /\ fileBaseNameOf "GEBCO_tile.NC" = "GEBCO_tile".
Proof. repeat split. Qed.

Example array_min_max :
  arrayMinMax [3; nan; -2; infinity; 7]%float = (-2, 7)%float
  /\ fst (arrayMinMax [nan]%float) = nan.
Proof. split; vm_compute; reflexivity. Qed.

(** Exporting the loaded scene downloads the two parts. *)
Example export_of_loaded_scene :
  downloadSTL loadedScene
  = Download "sample_terrain.stl"
      [TerrainPart (plane [0; 0.3; 0.3; 0]%float) (vec 1 1 1); BasePart plate5]
  /\ downloadSTL initialScene = Alert AlertNotLoaded.
Proof. split; reflexivity. Qed.

End Scenarios.
